(** * Flappy Jungle Shooter: the frame loop of [game.py], embedded and verified

    The game is a wxPython panel ([GamePanel]) whose state is mutated by a
    periodic timer callback ([on_timer]) and by key events ([on_key_down]).
    This development embeds that state and those callbacks as pure functions
    over an explicit record and proves the properties the specification
    states about them.

    Conventions of the embedding.
    - Python [float] is IEEE-754 binary64: Rocq's primitive [float], with the
      same operations and the same rounding.  Python [int] is [Z].
    - Python objects have identity: every [Sprite] carries the identity [sid]
      it was created with, and [list.remove] removes by identity.
    - [time.time()] is an argument of each callback; the [random] module is a
      tape of draws stored in the state; [math.sin] and [math.cos] (libm) are
      parameters of the development; [highscore.txt] is a field of the state.
    - Drawing ([on_paint], [Sprite.draw], [Particle.draw]) reads the state and
      is not embedded. *)

From Stdlib Require Import ZArith List Bool Ascii String Lia.
From Stdlib Require Import Floats.
From Stdlib Require Import DecimalString DecimalPos.
Import ListNotations.

Set Warnings "-inexact-float".
Set Implicit Arguments.

Local Open Scope Z_scope.

(** ** Python numbers *)

Module Py.

(** [float(z)] for a Python int: round to nearest, ties to even. *)
Definition float_of_Z (z : Z) : float :=
  SF2Prim (binary_normalize prec emax z 0 false).

(** [int(f)] for a Python float: truncation toward zero.  Python raises on
    [nan] and the infinities; the model returns 0 there. *)
Definition int_of_float (f : float) : Z :=
  match Prim2SF f with
  | S754_finite s m e =>
      let v := if 0 <=? e then Zpos m * 2 ^ e else Z.shiftr (Zpos m) (- e) in
      if s then - v else v
  | _ => 0
  end.

(** [a > b] on floats. *)
Definition gtb (a b : float) : bool := PrimFloat.ltb b a.

(** [a >= b] on floats. *)
Definition geb (a b : float) : bool := PrimFloat.leb b a.

(** The builtin [max(a, b)]: the first argument unless the second is greater. *)
Definition max (a b : float) : float := if gtb b a then b else a.

(** The builtin [min(a, b)]: the first argument unless the second is smaller. *)
Definition min (a b : float) : float := if PrimFloat.ltb b a then b else a.

(** Truthiness of a float: nonzero ([nan] is truthy). *)
Definition truthy (a : float) : bool := negb (PrimFloat.eqb a 0%float).

(** [math.pi]. *)
Definition pi : float := 3.141592653589793%float.

End Py.

(** The conversion Python inserts where an int meets a float. *)
Definition fl (z : Z) : float := Py.float_of_Z z.

(** ** Module constants (game.py, lines 16-19) *)

Definition WINDOW_W : Z := 480.
Definition WINDOW_H : Z := 640.
Definition MAX_BULLETS : Z := 4.
Definition SHOOT_COOLDOWN : float := 0.28%float.

(** Key codes of wxPython used by [on_key_down]. *)
Definition WXK_SPACE : Z := 32.
Definition WXK_ESCAPE : Z := 27.
Definition WXK_CONTROL : Z := 308.
Definition ord (c : ascii) : Z := Z.of_nat (nat_of_ascii c).

(** ** Sprite (game.py, lines 34-223) *)

Inductive BulletType := Normal | Venom | Special | SpecialVenom.
Inductive EnemyType := ESnake | EEagle | ECrocodile | EOwl.
Inductive Character := Bird | Snake.

(** [wx.Colour(r, g, b)]. *)
Definition Colour : Type := (Z * Z * Z)%type.

(** A loaded bitmap, known by the number of the asset it came from. *)
Definition Bitmap : Type := Z.

Record Sprite := mkSprite {
  sid : nat;
  x : float;
  y : float;
  w : Z;
  h : Z;
  vx : float;
  vy : float;
  color : Colour;
  alive : bool;
  bmp : option Bitmap;
  base_y : float;
  bob_phase : float;
  bob_amp : float;
  bob_speed : float;
  (* attributes attached after construction; [None] when never set *)
  bullet_type : option BulletType;
  lifetime : option float;
  age : option float;
  enemy_type : option EnemyType;
  character_type : option Character;
  tilt : option float;
  squash : option float;
  wing_offset : option Z
}.

(** [Sprite(x, y, w, h, vx, vy, color, bmp)], created with identity [i]. *)
Definition new_Sprite (i : nat) (x0 y0 : float) (w0 h0 : Z) (vx0 vy0 : float)
    (c : Colour) (b : option Bitmap) : Sprite :=
  {| sid := i; x := x0; y := y0; w := w0; h := h0; vx := vx0; vy := vy0;
     color := c; alive := true; bmp := b;
     base_y := y0; bob_phase := 0%float; bob_amp := 0%float;
     bob_speed := 1%float;
     bullet_type := None; lifetime := None; age := None; enemy_type := None;
     character_type := None; tilt := None; squash := None;
     wing_offset := None |}.

Definition set_x (s : Sprite) (v : float) : Sprite :=
  {| sid := sid s; x := v; y := y s; w := w s; h := h s; vx := vx s;
     vy := vy s; color := color s; alive := alive s; bmp := bmp s;
     base_y := base_y s; bob_phase := bob_phase s; bob_amp := bob_amp s;
     bob_speed := bob_speed s; bullet_type := bullet_type s;
     lifetime := lifetime s; age := age s; enemy_type := enemy_type s;
     character_type := character_type s; tilt := tilt s; squash := squash s;
     wing_offset := wing_offset s |}.

Definition set_y (s : Sprite) (v : float) : Sprite :=
  {| sid := sid s; x := x s; y := v; w := w s; h := h s; vx := vx s;
     vy := vy s; color := color s; alive := alive s; bmp := bmp s;
     base_y := base_y s; bob_phase := bob_phase s; bob_amp := bob_amp s;
     bob_speed := bob_speed s; bullet_type := bullet_type s;
     lifetime := lifetime s; age := age s; enemy_type := enemy_type s;
     character_type := character_type s; tilt := tilt s; squash := squash s;
     wing_offset := wing_offset s |}.

Definition set_vx (s : Sprite) (v : float) : Sprite :=
  {| sid := sid s; x := x s; y := y s; w := w s; h := h s; vx := v;
     vy := vy s; color := color s; alive := alive s; bmp := bmp s;
     base_y := base_y s; bob_phase := bob_phase s; bob_amp := bob_amp s;
     bob_speed := bob_speed s; bullet_type := bullet_type s;
     lifetime := lifetime s; age := age s; enemy_type := enemy_type s;
     character_type := character_type s; tilt := tilt s; squash := squash s;
     wing_offset := wing_offset s |}.

Definition set_vy (s : Sprite) (v : float) : Sprite :=
  {| sid := sid s; x := x s; y := y s; w := w s; h := h s; vx := vx s;
     vy := v; color := color s; alive := alive s; bmp := bmp s;
     base_y := base_y s; bob_phase := bob_phase s; bob_amp := bob_amp s;
     bob_speed := bob_speed s; bullet_type := bullet_type s;
     lifetime := lifetime s; age := age s; enemy_type := enemy_type s;
     character_type := character_type s; tilt := tilt s; squash := squash s;
     wing_offset := wing_offset s |}.

Definition set_bmp (s : Sprite) (v : option Bitmap) : Sprite :=
  {| sid := sid s; x := x s; y := y s; w := w s; h := h s; vx := vx s;
     vy := vy s; color := color s; alive := alive s; bmp := v;
     base_y := base_y s; bob_phase := bob_phase s; bob_amp := bob_amp s;
     bob_speed := bob_speed s; bullet_type := bullet_type s;
     lifetime := lifetime s; age := age s; enemy_type := enemy_type s;
     character_type := character_type s; tilt := tilt s; squash := squash s;
     wing_offset := wing_offset s |}.

Definition set_bob_phase (s : Sprite) (v : float) : Sprite :=
  {| sid := sid s; x := x s; y := y s; w := w s; h := h s; vx := vx s;
     vy := vy s; color := color s; alive := alive s; bmp := bmp s;
     base_y := base_y s; bob_phase := v; bob_amp := bob_amp s;
     bob_speed := bob_speed s; bullet_type := bullet_type s;
     lifetime := lifetime s; age := age s; enemy_type := enemy_type s;
     character_type := character_type s; tilt := tilt s; squash := squash s;
     wing_offset := wing_offset s |}.

Definition set_bob (s : Sprite) (amp speed : float) : Sprite :=
  {| sid := sid s; x := x s; y := y s; w := w s; h := h s; vx := vx s;
     vy := vy s; color := color s; alive := alive s; bmp := bmp s;
     base_y := base_y s; bob_phase := bob_phase s; bob_amp := amp;
     bob_speed := speed; bullet_type := bullet_type s;
     lifetime := lifetime s; age := age s; enemy_type := enemy_type s;
     character_type := character_type s; tilt := tilt s; squash := squash s;
     wing_offset := wing_offset s |}.

Definition set_bullet (s : Sprite) (k : BulletType) (life a : option float)
    : Sprite :=
  {| sid := sid s; x := x s; y := y s; w := w s; h := h s; vx := vx s;
     vy := vy s; color := color s; alive := alive s; bmp := bmp s;
     base_y := base_y s; bob_phase := bob_phase s; bob_amp := bob_amp s;
     bob_speed := bob_speed s; bullet_type := Some k;
     lifetime := life; age := a; enemy_type := enemy_type s;
     character_type := character_type s; tilt := tilt s; squash := squash s;
     wing_offset := wing_offset s |}.

Definition set_age (s : Sprite) (a : float) : Sprite :=
  {| sid := sid s; x := x s; y := y s; w := w s; h := h s; vx := vx s;
     vy := vy s; color := color s; alive := alive s; bmp := bmp s;
     base_y := base_y s; bob_phase := bob_phase s; bob_amp := bob_amp s;
     bob_speed := bob_speed s; bullet_type := bullet_type s;
     lifetime := lifetime s; age := Some a; enemy_type := enemy_type s;
     character_type := character_type s; tilt := tilt s; squash := squash s;
     wing_offset := wing_offset s |}.

Definition set_enemy_type (s : Sprite) (k : EnemyType) : Sprite :=
  {| sid := sid s; x := x s; y := y s; w := w s; h := h s; vx := vx s;
     vy := vy s; color := color s; alive := alive s; bmp := bmp s;
     base_y := base_y s; bob_phase := bob_phase s; bob_amp := bob_amp s;
     bob_speed := bob_speed s; bullet_type := bullet_type s;
     lifetime := lifetime s; age := age s; enemy_type := Some k;
     character_type := character_type s; tilt := tilt s; squash := squash s;
     wing_offset := wing_offset s |}.

Definition set_character_type (s : Sprite) (k : Character) : Sprite :=
  {| sid := sid s; x := x s; y := y s; w := w s; h := h s; vx := vx s;
     vy := vy s; color := color s; alive := alive s; bmp := bmp s;
     base_y := base_y s; bob_phase := bob_phase s; bob_amp := bob_amp s;
     bob_speed := bob_speed s; bullet_type := bullet_type s;
     lifetime := lifetime s; age := age s; enemy_type := enemy_type s;
     character_type := Some k; tilt := tilt s; squash := squash s;
     wing_offset := wing_offset s |}.

Definition set_visual (s : Sprite) (t q : float) (wo : option Z) : Sprite :=
  {| sid := sid s; x := x s; y := y s; w := w s; h := h s; vx := vx s;
     vy := vy s; color := color s; alive := alive s; bmp := bmp s;
     base_y := base_y s; bob_phase := bob_phase s; bob_amp := bob_amp s;
     bob_speed := bob_speed s; bullet_type := bullet_type s;
     lifetime := lifetime s; age := age s; enemy_type := enemy_type s;
     character_type := character_type s; tilt := Some t; squash := Some q;
     wing_offset := wo |}.

(** [Sprite.update(dt)]. *)
Definition Sprite_update (s : Sprite) (dt : float) : Sprite :=
  let s1 := set_x s (x s + vx s * dt)%float in
  set_y s1 (y s1 + vy s1 * dt)%float.

(** [Sprite.intersects(other)]. *)
Definition intersects (s o : Sprite) : bool :=
  negb (PrimFloat.ltb (x s + fl (w s)) (x o)
        || Py.gtb (x s) (x o + fl (w o))
        || PrimFloat.ltb (y s + fl (h s)) (y o)
        || Py.gtb (y s) (y o + fl (h o))).

(** ** Particle (game.py, lines 226-258) *)

Record Particle := mkParticle {
  p_x : float;
  p_y : float;
  p_vx : float;
  p_vy : float;
  p_color : Colour;
  p_lifetime : float;
  p_age : float;
  p_size : Z
}.

(** [Particle(x, y, vx, vy, color, lifetime)]. *)
Definition new_Particle (x0 y0 vx0 vy0 : float) (c : Colour) (life : float)
    : Particle :=
  {| p_x := x0; p_y := y0; p_vx := vx0; p_vy := vy0; p_color := c;
     p_lifetime := life; p_age := 0%float; p_size := 4 |}.

(** [Particle.update(dt)]: the moved particle and whether it is still alive. *)
Definition Particle_update (p : Particle) (dt : float) : Particle * bool :=
  let p' := {| p_x := (p_x p + p_vx p * dt)%float;
               p_y := (p_y p + p_vy p * dt)%float;
               p_vx := p_vx p; p_vy := p_vy p; p_color := p_color p;
               p_lifetime := p_lifetime p;
               p_age := (p_age p + dt)%float; p_size := p_size p |} in
  (p', PrimFloat.ltb (p_age p') (p_lifetime p')).

(** ** Background decoration: clouds and raindrops (dicts in the source) *)

Record Cloud := mkCloud {
  c_x : float;
  c_y : float;
  c_w : Z;
  c_h : Z;
  c_vx : float;
  c_a : Z
}.

Record Raindrop := mkRaindrop {
  rd_x : float;
  rd_y : float;
  rd_v : float
}.

Inductive Theme := Sunny | Rainy.

(** ** GamePanel: the attributes set by [__init__] (game.py, lines 261-402)

    Besides the attributes of the panel the record holds what the callbacks
    read from their environment: the tape of [random.random()] draws and the
    position reached on it, the identity the next created [Sprite] gets, the
    content of [highscore.txt] ([None] when the file does not exist), whether
    that file can be written, and whether [wx.GetApp().Exit()] was called. *)

Record State := mkState {
  last_time : float;
  dt : float;
  current_character : Character;
  bird : Sprite;
  bird_frame : Z;
  bird_anim_timer : float;
  snake : Sprite;
  snake_frame : Z;
  snake_anim_timer : float;
  player : Character;
  gravity : float;
  flap_strength : float;
  bullets : list Sprite;
  enemies : list Sprite;
  particles : list Particle;
  spawn_timer : float;
  score : Z;
  combo : Z;
  combo_timer : float;
  keys : list Z;
  running : bool;
  paused : bool;
  last_shot : float;
  last_special : float;
  special_cooldown : float;
  difficulty_index : nat;
  difficulty : float;
  high_score : Z;
  camera_shake : float;
  health : Z;
  shield : bool;
  shield_timer : float;
  clouds : list Cloud;
  bg_clouds : list Cloud;
  theme_stage : nat;
  theme : Theme;
  theme_spawn_boost : float;
  theme_enemy_speed_boost : float;
  raindrops : list Raindrop;
  bird_bmps : list (option Bitmap);
  snake_bmp : option Bitmap;
  eagle_bmp : option Bitmap;
  crocodile_bmp : option Bitmap;
  owl_bmp : option Bitmap;
  rng : nat -> float;
  rng_pos : nat;
  next_id : nat;
  highscore_txt : option string;
  fs_writable : bool;
  exited : bool
}.

(** Assignment to one attribute of the panel: [self.f = v]. *)

Definition set_last_time (st : State) (v : float) : State :=
  {| last_time := v; dt := dt st; current_character := current_character st;
     bird := bird st; bird_frame := bird_frame st; bird_anim_timer :=
     bird_anim_timer st; snake := snake st; snake_frame := snake_frame st;
     snake_anim_timer := snake_anim_timer st; player := player st; gravity
     := gravity st; flap_strength := flap_strength st; bullets := bullets
     st; enemies := enemies st; particles := particles st; spawn_timer :=
     spawn_timer st; score := score st; combo := combo st; combo_timer :=
     combo_timer st; keys := keys st; running := running st; paused :=
     paused st; last_shot := last_shot st; last_special := last_special st;
     special_cooldown := special_cooldown st; difficulty_index :=
     difficulty_index st; difficulty := difficulty st; high_score :=
     high_score st; camera_shake := camera_shake st; health := health st;
     shield := shield st; shield_timer := shield_timer st; clouds := clouds
     st; bg_clouds := bg_clouds st; theme_stage := theme_stage st; theme :=
     theme st; theme_spawn_boost := theme_spawn_boost st;
     theme_enemy_speed_boost := theme_enemy_speed_boost st; raindrops :=
     raindrops st; bird_bmps := bird_bmps st; snake_bmp := snake_bmp st;
     eagle_bmp := eagle_bmp st; crocodile_bmp := crocodile_bmp st; owl_bmp
     := owl_bmp st; rng := rng st; rng_pos := rng_pos st; next_id := next_id
     st; highscore_txt := highscore_txt st; fs_writable := fs_writable st;
     exited := exited st |}.

Definition set_dt (st : State) (v : float) : State :=
  {| last_time := last_time st; dt := v; current_character :=
     current_character st; bird := bird st; bird_frame := bird_frame st;
     bird_anim_timer := bird_anim_timer st; snake := snake st; snake_frame
     := snake_frame st; snake_anim_timer := snake_anim_timer st; player :=
     player st; gravity := gravity st; flap_strength := flap_strength st;
     bullets := bullets st; enemies := enemies st; particles := particles
     st; spawn_timer := spawn_timer st; score := score st; combo := combo
     st; combo_timer := combo_timer st; keys := keys st; running := running
     st; paused := paused st; last_shot := last_shot st; last_special :=
     last_special st; special_cooldown := special_cooldown st;
     difficulty_index := difficulty_index st; difficulty := difficulty st;
     high_score := high_score st; camera_shake := camera_shake st; health :=
     health st; shield := shield st; shield_timer := shield_timer st; clouds
     := clouds st; bg_clouds := bg_clouds st; theme_stage := theme_stage st;
     theme := theme st; theme_spawn_boost := theme_spawn_boost st;
     theme_enemy_speed_boost := theme_enemy_speed_boost st; raindrops :=
     raindrops st; bird_bmps := bird_bmps st; snake_bmp := snake_bmp st;
     eagle_bmp := eagle_bmp st; crocodile_bmp := crocodile_bmp st; owl_bmp
     := owl_bmp st; rng := rng st; rng_pos := rng_pos st; next_id := next_id
     st; highscore_txt := highscore_txt st; fs_writable := fs_writable st;
     exited := exited st |}.

Definition set_current_character (st : State) (v : Character) : State :=
  {| last_time := last_time st; dt := dt st; current_character := v; bird :=
     bird st; bird_frame := bird_frame st; bird_anim_timer :=
     bird_anim_timer st; snake := snake st; snake_frame := snake_frame st;
     snake_anim_timer := snake_anim_timer st; player := player st; gravity
     := gravity st; flap_strength := flap_strength st; bullets := bullets
     st; enemies := enemies st; particles := particles st; spawn_timer :=
     spawn_timer st; score := score st; combo := combo st; combo_timer :=
     combo_timer st; keys := keys st; running := running st; paused :=
     paused st; last_shot := last_shot st; last_special := last_special st;
     special_cooldown := special_cooldown st; difficulty_index :=
     difficulty_index st; difficulty := difficulty st; high_score :=
     high_score st; camera_shake := camera_shake st; health := health st;
     shield := shield st; shield_timer := shield_timer st; clouds := clouds
     st; bg_clouds := bg_clouds st; theme_stage := theme_stage st; theme :=
     theme st; theme_spawn_boost := theme_spawn_boost st;
     theme_enemy_speed_boost := theme_enemy_speed_boost st; raindrops :=
     raindrops st; bird_bmps := bird_bmps st; snake_bmp := snake_bmp st;
     eagle_bmp := eagle_bmp st; crocodile_bmp := crocodile_bmp st; owl_bmp
     := owl_bmp st; rng := rng st; rng_pos := rng_pos st; next_id := next_id
     st; highscore_txt := highscore_txt st; fs_writable := fs_writable st;
     exited := exited st |}.

Definition set_bird (st : State) (v : Sprite) : State :=
  {| last_time := last_time st; dt := dt st; current_character :=
     current_character st; bird := v; bird_frame := bird_frame st;
     bird_anim_timer := bird_anim_timer st; snake := snake st; snake_frame
     := snake_frame st; snake_anim_timer := snake_anim_timer st; player :=
     player st; gravity := gravity st; flap_strength := flap_strength st;
     bullets := bullets st; enemies := enemies st; particles := particles
     st; spawn_timer := spawn_timer st; score := score st; combo := combo
     st; combo_timer := combo_timer st; keys := keys st; running := running
     st; paused := paused st; last_shot := last_shot st; last_special :=
     last_special st; special_cooldown := special_cooldown st;
     difficulty_index := difficulty_index st; difficulty := difficulty st;
     high_score := high_score st; camera_shake := camera_shake st; health :=
     health st; shield := shield st; shield_timer := shield_timer st; clouds
     := clouds st; bg_clouds := bg_clouds st; theme_stage := theme_stage st;
     theme := theme st; theme_spawn_boost := theme_spawn_boost st;
     theme_enemy_speed_boost := theme_enemy_speed_boost st; raindrops :=
     raindrops st; bird_bmps := bird_bmps st; snake_bmp := snake_bmp st;
     eagle_bmp := eagle_bmp st; crocodile_bmp := crocodile_bmp st; owl_bmp
     := owl_bmp st; rng := rng st; rng_pos := rng_pos st; next_id := next_id
     st; highscore_txt := highscore_txt st; fs_writable := fs_writable st;
     exited := exited st |}.

Definition set_bird_frame (st : State) (v : Z) : State :=
  {| last_time := last_time st; dt := dt st; current_character :=
     current_character st; bird := bird st; bird_frame := v; bird_anim_timer
     := bird_anim_timer st; snake := snake st; snake_frame := snake_frame
     st; snake_anim_timer := snake_anim_timer st; player := player st;
     gravity := gravity st; flap_strength := flap_strength st; bullets :=
     bullets st; enemies := enemies st; particles := particles st;
     spawn_timer := spawn_timer st; score := score st; combo := combo st;
     combo_timer := combo_timer st; keys := keys st; running := running st;
     paused := paused st; last_shot := last_shot st; last_special :=
     last_special st; special_cooldown := special_cooldown st;
     difficulty_index := difficulty_index st; difficulty := difficulty st;
     high_score := high_score st; camera_shake := camera_shake st; health :=
     health st; shield := shield st; shield_timer := shield_timer st; clouds
     := clouds st; bg_clouds := bg_clouds st; theme_stage := theme_stage st;
     theme := theme st; theme_spawn_boost := theme_spawn_boost st;
     theme_enemy_speed_boost := theme_enemy_speed_boost st; raindrops :=
     raindrops st; bird_bmps := bird_bmps st; snake_bmp := snake_bmp st;
     eagle_bmp := eagle_bmp st; crocodile_bmp := crocodile_bmp st; owl_bmp
     := owl_bmp st; rng := rng st; rng_pos := rng_pos st; next_id := next_id
     st; highscore_txt := highscore_txt st; fs_writable := fs_writable st;
     exited := exited st |}.

Definition set_bird_anim_timer (st : State) (v : float) : State :=
  {| last_time := last_time st; dt := dt st; current_character :=
     current_character st; bird := bird st; bird_frame := bird_frame st;
     bird_anim_timer := v; snake := snake st; snake_frame := snake_frame st;
     snake_anim_timer := snake_anim_timer st; player := player st; gravity
     := gravity st; flap_strength := flap_strength st; bullets := bullets
     st; enemies := enemies st; particles := particles st; spawn_timer :=
     spawn_timer st; score := score st; combo := combo st; combo_timer :=
     combo_timer st; keys := keys st; running := running st; paused :=
     paused st; last_shot := last_shot st; last_special := last_special st;
     special_cooldown := special_cooldown st; difficulty_index :=
     difficulty_index st; difficulty := difficulty st; high_score :=
     high_score st; camera_shake := camera_shake st; health := health st;
     shield := shield st; shield_timer := shield_timer st; clouds := clouds
     st; bg_clouds := bg_clouds st; theme_stage := theme_stage st; theme :=
     theme st; theme_spawn_boost := theme_spawn_boost st;
     theme_enemy_speed_boost := theme_enemy_speed_boost st; raindrops :=
     raindrops st; bird_bmps := bird_bmps st; snake_bmp := snake_bmp st;
     eagle_bmp := eagle_bmp st; crocodile_bmp := crocodile_bmp st; owl_bmp
     := owl_bmp st; rng := rng st; rng_pos := rng_pos st; next_id := next_id
     st; highscore_txt := highscore_txt st; fs_writable := fs_writable st;
     exited := exited st |}.

Definition set_snake (st : State) (v : Sprite) : State :=
  {| last_time := last_time st; dt := dt st; current_character :=
     current_character st; bird := bird st; bird_frame := bird_frame st;
     bird_anim_timer := bird_anim_timer st; snake := v; snake_frame :=
     snake_frame st; snake_anim_timer := snake_anim_timer st; player :=
     player st; gravity := gravity st; flap_strength := flap_strength st;
     bullets := bullets st; enemies := enemies st; particles := particles
     st; spawn_timer := spawn_timer st; score := score st; combo := combo
     st; combo_timer := combo_timer st; keys := keys st; running := running
     st; paused := paused st; last_shot := last_shot st; last_special :=
     last_special st; special_cooldown := special_cooldown st;
     difficulty_index := difficulty_index st; difficulty := difficulty st;
     high_score := high_score st; camera_shake := camera_shake st; health :=
     health st; shield := shield st; shield_timer := shield_timer st; clouds
     := clouds st; bg_clouds := bg_clouds st; theme_stage := theme_stage st;
     theme := theme st; theme_spawn_boost := theme_spawn_boost st;
     theme_enemy_speed_boost := theme_enemy_speed_boost st; raindrops :=
     raindrops st; bird_bmps := bird_bmps st; snake_bmp := snake_bmp st;
     eagle_bmp := eagle_bmp st; crocodile_bmp := crocodile_bmp st; owl_bmp
     := owl_bmp st; rng := rng st; rng_pos := rng_pos st; next_id := next_id
     st; highscore_txt := highscore_txt st; fs_writable := fs_writable st;
     exited := exited st |}.

Definition set_snake_frame (st : State) (v : Z) : State :=
  {| last_time := last_time st; dt := dt st; current_character :=
     current_character st; bird := bird st; bird_frame := bird_frame st;
     bird_anim_timer := bird_anim_timer st; snake := snake st; snake_frame
     := v; snake_anim_timer := snake_anim_timer st; player := player st;
     gravity := gravity st; flap_strength := flap_strength st; bullets :=
     bullets st; enemies := enemies st; particles := particles st;
     spawn_timer := spawn_timer st; score := score st; combo := combo st;
     combo_timer := combo_timer st; keys := keys st; running := running st;
     paused := paused st; last_shot := last_shot st; last_special :=
     last_special st; special_cooldown := special_cooldown st;
     difficulty_index := difficulty_index st; difficulty := difficulty st;
     high_score := high_score st; camera_shake := camera_shake st; health :=
     health st; shield := shield st; shield_timer := shield_timer st; clouds
     := clouds st; bg_clouds := bg_clouds st; theme_stage := theme_stage st;
     theme := theme st; theme_spawn_boost := theme_spawn_boost st;
     theme_enemy_speed_boost := theme_enemy_speed_boost st; raindrops :=
     raindrops st; bird_bmps := bird_bmps st; snake_bmp := snake_bmp st;
     eagle_bmp := eagle_bmp st; crocodile_bmp := crocodile_bmp st; owl_bmp
     := owl_bmp st; rng := rng st; rng_pos := rng_pos st; next_id := next_id
     st; highscore_txt := highscore_txt st; fs_writable := fs_writable st;
     exited := exited st |}.

Definition set_snake_anim_timer (st : State) (v : float) : State :=
  {| last_time := last_time st; dt := dt st; current_character :=
     current_character st; bird := bird st; bird_frame := bird_frame st;
     bird_anim_timer := bird_anim_timer st; snake := snake st; snake_frame
     := snake_frame st; snake_anim_timer := v; player := player st; gravity
     := gravity st; flap_strength := flap_strength st; bullets := bullets
     st; enemies := enemies st; particles := particles st; spawn_timer :=
     spawn_timer st; score := score st; combo := combo st; combo_timer :=
     combo_timer st; keys := keys st; running := running st; paused :=
     paused st; last_shot := last_shot st; last_special := last_special st;
     special_cooldown := special_cooldown st; difficulty_index :=
     difficulty_index st; difficulty := difficulty st; high_score :=
     high_score st; camera_shake := camera_shake st; health := health st;
     shield := shield st; shield_timer := shield_timer st; clouds := clouds
     st; bg_clouds := bg_clouds st; theme_stage := theme_stage st; theme :=
     theme st; theme_spawn_boost := theme_spawn_boost st;
     theme_enemy_speed_boost := theme_enemy_speed_boost st; raindrops :=
     raindrops st; bird_bmps := bird_bmps st; snake_bmp := snake_bmp st;
     eagle_bmp := eagle_bmp st; crocodile_bmp := crocodile_bmp st; owl_bmp
     := owl_bmp st; rng := rng st; rng_pos := rng_pos st; next_id := next_id
     st; highscore_txt := highscore_txt st; fs_writable := fs_writable st;
     exited := exited st |}.

Definition set_player (st : State) (v : Character) : State :=
  {| last_time := last_time st; dt := dt st; current_character :=
     current_character st; bird := bird st; bird_frame := bird_frame st;
     bird_anim_timer := bird_anim_timer st; snake := snake st; snake_frame
     := snake_frame st; snake_anim_timer := snake_anim_timer st; player :=
     v; gravity := gravity st; flap_strength := flap_strength st; bullets :=
     bullets st; enemies := enemies st; particles := particles st;
     spawn_timer := spawn_timer st; score := score st; combo := combo st;
     combo_timer := combo_timer st; keys := keys st; running := running st;
     paused := paused st; last_shot := last_shot st; last_special :=
     last_special st; special_cooldown := special_cooldown st;
     difficulty_index := difficulty_index st; difficulty := difficulty st;
     high_score := high_score st; camera_shake := camera_shake st; health :=
     health st; shield := shield st; shield_timer := shield_timer st; clouds
     := clouds st; bg_clouds := bg_clouds st; theme_stage := theme_stage st;
     theme := theme st; theme_spawn_boost := theme_spawn_boost st;
     theme_enemy_speed_boost := theme_enemy_speed_boost st; raindrops :=
     raindrops st; bird_bmps := bird_bmps st; snake_bmp := snake_bmp st;
     eagle_bmp := eagle_bmp st; crocodile_bmp := crocodile_bmp st; owl_bmp
     := owl_bmp st; rng := rng st; rng_pos := rng_pos st; next_id := next_id
     st; highscore_txt := highscore_txt st; fs_writable := fs_writable st;
     exited := exited st |}.

Definition set_bullets (st : State) (v : list Sprite) : State :=
  {| last_time := last_time st; dt := dt st; current_character :=
     current_character st; bird := bird st; bird_frame := bird_frame st;
     bird_anim_timer := bird_anim_timer st; snake := snake st; snake_frame
     := snake_frame st; snake_anim_timer := snake_anim_timer st; player :=
     player st; gravity := gravity st; flap_strength := flap_strength st;
     bullets := v; enemies := enemies st; particles := particles st;
     spawn_timer := spawn_timer st; score := score st; combo := combo st;
     combo_timer := combo_timer st; keys := keys st; running := running st;
     paused := paused st; last_shot := last_shot st; last_special :=
     last_special st; special_cooldown := special_cooldown st;
     difficulty_index := difficulty_index st; difficulty := difficulty st;
     high_score := high_score st; camera_shake := camera_shake st; health :=
     health st; shield := shield st; shield_timer := shield_timer st; clouds
     := clouds st; bg_clouds := bg_clouds st; theme_stage := theme_stage st;
     theme := theme st; theme_spawn_boost := theme_spawn_boost st;
     theme_enemy_speed_boost := theme_enemy_speed_boost st; raindrops :=
     raindrops st; bird_bmps := bird_bmps st; snake_bmp := snake_bmp st;
     eagle_bmp := eagle_bmp st; crocodile_bmp := crocodile_bmp st; owl_bmp
     := owl_bmp st; rng := rng st; rng_pos := rng_pos st; next_id := next_id
     st; highscore_txt := highscore_txt st; fs_writable := fs_writable st;
     exited := exited st |}.

Definition set_enemies (st : State) (v : list Sprite) : State :=
  {| last_time := last_time st; dt := dt st; current_character :=
     current_character st; bird := bird st; bird_frame := bird_frame st;
     bird_anim_timer := bird_anim_timer st; snake := snake st; snake_frame
     := snake_frame st; snake_anim_timer := snake_anim_timer st; player :=
     player st; gravity := gravity st; flap_strength := flap_strength st;
     bullets := bullets st; enemies := v; particles := particles st;
     spawn_timer := spawn_timer st; score := score st; combo := combo st;
     combo_timer := combo_timer st; keys := keys st; running := running st;
     paused := paused st; last_shot := last_shot st; last_special :=
     last_special st; special_cooldown := special_cooldown st;
     difficulty_index := difficulty_index st; difficulty := difficulty st;
     high_score := high_score st; camera_shake := camera_shake st; health :=
     health st; shield := shield st; shield_timer := shield_timer st; clouds
     := clouds st; bg_clouds := bg_clouds st; theme_stage := theme_stage st;
     theme := theme st; theme_spawn_boost := theme_spawn_boost st;
     theme_enemy_speed_boost := theme_enemy_speed_boost st; raindrops :=
     raindrops st; bird_bmps := bird_bmps st; snake_bmp := snake_bmp st;
     eagle_bmp := eagle_bmp st; crocodile_bmp := crocodile_bmp st; owl_bmp
     := owl_bmp st; rng := rng st; rng_pos := rng_pos st; next_id := next_id
     st; highscore_txt := highscore_txt st; fs_writable := fs_writable st;
     exited := exited st |}.

Definition set_particles (st : State) (v : list Particle) : State :=
  {| last_time := last_time st; dt := dt st; current_character :=
     current_character st; bird := bird st; bird_frame := bird_frame st;
     bird_anim_timer := bird_anim_timer st; snake := snake st; snake_frame
     := snake_frame st; snake_anim_timer := snake_anim_timer st; player :=
     player st; gravity := gravity st; flap_strength := flap_strength st;
     bullets := bullets st; enemies := enemies st; particles := v;
     spawn_timer := spawn_timer st; score := score st; combo := combo st;
     combo_timer := combo_timer st; keys := keys st; running := running st;
     paused := paused st; last_shot := last_shot st; last_special :=
     last_special st; special_cooldown := special_cooldown st;
     difficulty_index := difficulty_index st; difficulty := difficulty st;
     high_score := high_score st; camera_shake := camera_shake st; health :=
     health st; shield := shield st; shield_timer := shield_timer st; clouds
     := clouds st; bg_clouds := bg_clouds st; theme_stage := theme_stage st;
     theme := theme st; theme_spawn_boost := theme_spawn_boost st;
     theme_enemy_speed_boost := theme_enemy_speed_boost st; raindrops :=
     raindrops st; bird_bmps := bird_bmps st; snake_bmp := snake_bmp st;
     eagle_bmp := eagle_bmp st; crocodile_bmp := crocodile_bmp st; owl_bmp
     := owl_bmp st; rng := rng st; rng_pos := rng_pos st; next_id := next_id
     st; highscore_txt := highscore_txt st; fs_writable := fs_writable st;
     exited := exited st |}.

Definition set_spawn_timer (st : State) (v : float) : State :=
  {| last_time := last_time st; dt := dt st; current_character :=
     current_character st; bird := bird st; bird_frame := bird_frame st;
     bird_anim_timer := bird_anim_timer st; snake := snake st; snake_frame
     := snake_frame st; snake_anim_timer := snake_anim_timer st; player :=
     player st; gravity := gravity st; flap_strength := flap_strength st;
     bullets := bullets st; enemies := enemies st; particles := particles
     st; spawn_timer := v; score := score st; combo := combo st; combo_timer
     := combo_timer st; keys := keys st; running := running st; paused :=
     paused st; last_shot := last_shot st; last_special := last_special st;
     special_cooldown := special_cooldown st; difficulty_index :=
     difficulty_index st; difficulty := difficulty st; high_score :=
     high_score st; camera_shake := camera_shake st; health := health st;
     shield := shield st; shield_timer := shield_timer st; clouds := clouds
     st; bg_clouds := bg_clouds st; theme_stage := theme_stage st; theme :=
     theme st; theme_spawn_boost := theme_spawn_boost st;
     theme_enemy_speed_boost := theme_enemy_speed_boost st; raindrops :=
     raindrops st; bird_bmps := bird_bmps st; snake_bmp := snake_bmp st;
     eagle_bmp := eagle_bmp st; crocodile_bmp := crocodile_bmp st; owl_bmp
     := owl_bmp st; rng := rng st; rng_pos := rng_pos st; next_id := next_id
     st; highscore_txt := highscore_txt st; fs_writable := fs_writable st;
     exited := exited st |}.

Definition set_score (st : State) (v : Z) : State :=
  {| last_time := last_time st; dt := dt st; current_character :=
     current_character st; bird := bird st; bird_frame := bird_frame st;
     bird_anim_timer := bird_anim_timer st; snake := snake st; snake_frame
     := snake_frame st; snake_anim_timer := snake_anim_timer st; player :=
     player st; gravity := gravity st; flap_strength := flap_strength st;
     bullets := bullets st; enemies := enemies st; particles := particles
     st; spawn_timer := spawn_timer st; score := v; combo := combo st;
     combo_timer := combo_timer st; keys := keys st; running := running st;
     paused := paused st; last_shot := last_shot st; last_special :=
     last_special st; special_cooldown := special_cooldown st;
     difficulty_index := difficulty_index st; difficulty := difficulty st;
     high_score := high_score st; camera_shake := camera_shake st; health :=
     health st; shield := shield st; shield_timer := shield_timer st; clouds
     := clouds st; bg_clouds := bg_clouds st; theme_stage := theme_stage st;
     theme := theme st; theme_spawn_boost := theme_spawn_boost st;
     theme_enemy_speed_boost := theme_enemy_speed_boost st; raindrops :=
     raindrops st; bird_bmps := bird_bmps st; snake_bmp := snake_bmp st;
     eagle_bmp := eagle_bmp st; crocodile_bmp := crocodile_bmp st; owl_bmp
     := owl_bmp st; rng := rng st; rng_pos := rng_pos st; next_id := next_id
     st; highscore_txt := highscore_txt st; fs_writable := fs_writable st;
     exited := exited st |}.

Definition set_combo (st : State) (v : Z) : State :=
  {| last_time := last_time st; dt := dt st; current_character :=
     current_character st; bird := bird st; bird_frame := bird_frame st;
     bird_anim_timer := bird_anim_timer st; snake := snake st; snake_frame
     := snake_frame st; snake_anim_timer := snake_anim_timer st; player :=
     player st; gravity := gravity st; flap_strength := flap_strength st;
     bullets := bullets st; enemies := enemies st; particles := particles
     st; spawn_timer := spawn_timer st; score := score st; combo := v;
     combo_timer := combo_timer st; keys := keys st; running := running st;
     paused := paused st; last_shot := last_shot st; last_special :=
     last_special st; special_cooldown := special_cooldown st;
     difficulty_index := difficulty_index st; difficulty := difficulty st;
     high_score := high_score st; camera_shake := camera_shake st; health :=
     health st; shield := shield st; shield_timer := shield_timer st; clouds
     := clouds st; bg_clouds := bg_clouds st; theme_stage := theme_stage st;
     theme := theme st; theme_spawn_boost := theme_spawn_boost st;
     theme_enemy_speed_boost := theme_enemy_speed_boost st; raindrops :=
     raindrops st; bird_bmps := bird_bmps st; snake_bmp := snake_bmp st;
     eagle_bmp := eagle_bmp st; crocodile_bmp := crocodile_bmp st; owl_bmp
     := owl_bmp st; rng := rng st; rng_pos := rng_pos st; next_id := next_id
     st; highscore_txt := highscore_txt st; fs_writable := fs_writable st;
     exited := exited st |}.

Definition set_combo_timer (st : State) (v : float) : State :=
  {| last_time := last_time st; dt := dt st; current_character :=
     current_character st; bird := bird st; bird_frame := bird_frame st;
     bird_anim_timer := bird_anim_timer st; snake := snake st; snake_frame
     := snake_frame st; snake_anim_timer := snake_anim_timer st; player :=
     player st; gravity := gravity st; flap_strength := flap_strength st;
     bullets := bullets st; enemies := enemies st; particles := particles
     st; spawn_timer := spawn_timer st; score := score st; combo := combo
     st; combo_timer := v; keys := keys st; running := running st; paused :=
     paused st; last_shot := last_shot st; last_special := last_special st;
     special_cooldown := special_cooldown st; difficulty_index :=
     difficulty_index st; difficulty := difficulty st; high_score :=
     high_score st; camera_shake := camera_shake st; health := health st;
     shield := shield st; shield_timer := shield_timer st; clouds := clouds
     st; bg_clouds := bg_clouds st; theme_stage := theme_stage st; theme :=
     theme st; theme_spawn_boost := theme_spawn_boost st;
     theme_enemy_speed_boost := theme_enemy_speed_boost st; raindrops :=
     raindrops st; bird_bmps := bird_bmps st; snake_bmp := snake_bmp st;
     eagle_bmp := eagle_bmp st; crocodile_bmp := crocodile_bmp st; owl_bmp
     := owl_bmp st; rng := rng st; rng_pos := rng_pos st; next_id := next_id
     st; highscore_txt := highscore_txt st; fs_writable := fs_writable st;
     exited := exited st |}.

Definition set_keys (st : State) (v : list Z) : State :=
  {| last_time := last_time st; dt := dt st; current_character :=
     current_character st; bird := bird st; bird_frame := bird_frame st;
     bird_anim_timer := bird_anim_timer st; snake := snake st; snake_frame
     := snake_frame st; snake_anim_timer := snake_anim_timer st; player :=
     player st; gravity := gravity st; flap_strength := flap_strength st;
     bullets := bullets st; enemies := enemies st; particles := particles
     st; spawn_timer := spawn_timer st; score := score st; combo := combo
     st; combo_timer := combo_timer st; keys := v; running := running st;
     paused := paused st; last_shot := last_shot st; last_special :=
     last_special st; special_cooldown := special_cooldown st;
     difficulty_index := difficulty_index st; difficulty := difficulty st;
     high_score := high_score st; camera_shake := camera_shake st; health :=
     health st; shield := shield st; shield_timer := shield_timer st; clouds
     := clouds st; bg_clouds := bg_clouds st; theme_stage := theme_stage st;
     theme := theme st; theme_spawn_boost := theme_spawn_boost st;
     theme_enemy_speed_boost := theme_enemy_speed_boost st; raindrops :=
     raindrops st; bird_bmps := bird_bmps st; snake_bmp := snake_bmp st;
     eagle_bmp := eagle_bmp st; crocodile_bmp := crocodile_bmp st; owl_bmp
     := owl_bmp st; rng := rng st; rng_pos := rng_pos st; next_id := next_id
     st; highscore_txt := highscore_txt st; fs_writable := fs_writable st;
     exited := exited st |}.

Definition set_running (st : State) (v : bool) : State :=
  {| last_time := last_time st; dt := dt st; current_character :=
     current_character st; bird := bird st; bird_frame := bird_frame st;
     bird_anim_timer := bird_anim_timer st; snake := snake st; snake_frame
     := snake_frame st; snake_anim_timer := snake_anim_timer st; player :=
     player st; gravity := gravity st; flap_strength := flap_strength st;
     bullets := bullets st; enemies := enemies st; particles := particles
     st; spawn_timer := spawn_timer st; score := score st; combo := combo
     st; combo_timer := combo_timer st; keys := keys st; running := v;
     paused := paused st; last_shot := last_shot st; last_special :=
     last_special st; special_cooldown := special_cooldown st;
     difficulty_index := difficulty_index st; difficulty := difficulty st;
     high_score := high_score st; camera_shake := camera_shake st; health :=
     health st; shield := shield st; shield_timer := shield_timer st; clouds
     := clouds st; bg_clouds := bg_clouds st; theme_stage := theme_stage st;
     theme := theme st; theme_spawn_boost := theme_spawn_boost st;
     theme_enemy_speed_boost := theme_enemy_speed_boost st; raindrops :=
     raindrops st; bird_bmps := bird_bmps st; snake_bmp := snake_bmp st;
     eagle_bmp := eagle_bmp st; crocodile_bmp := crocodile_bmp st; owl_bmp
     := owl_bmp st; rng := rng st; rng_pos := rng_pos st; next_id := next_id
     st; highscore_txt := highscore_txt st; fs_writable := fs_writable st;
     exited := exited st |}.

Definition set_paused (st : State) (v : bool) : State :=
  {| last_time := last_time st; dt := dt st; current_character :=
     current_character st; bird := bird st; bird_frame := bird_frame st;
     bird_anim_timer := bird_anim_timer st; snake := snake st; snake_frame
     := snake_frame st; snake_anim_timer := snake_anim_timer st; player :=
     player st; gravity := gravity st; flap_strength := flap_strength st;
     bullets := bullets st; enemies := enemies st; particles := particles
     st; spawn_timer := spawn_timer st; score := score st; combo := combo
     st; combo_timer := combo_timer st; keys := keys st; running := running
     st; paused := v; last_shot := last_shot st; last_special :=
     last_special st; special_cooldown := special_cooldown st;
     difficulty_index := difficulty_index st; difficulty := difficulty st;
     high_score := high_score st; camera_shake := camera_shake st; health :=
     health st; shield := shield st; shield_timer := shield_timer st; clouds
     := clouds st; bg_clouds := bg_clouds st; theme_stage := theme_stage st;
     theme := theme st; theme_spawn_boost := theme_spawn_boost st;
     theme_enemy_speed_boost := theme_enemy_speed_boost st; raindrops :=
     raindrops st; bird_bmps := bird_bmps st; snake_bmp := snake_bmp st;
     eagle_bmp := eagle_bmp st; crocodile_bmp := crocodile_bmp st; owl_bmp
     := owl_bmp st; rng := rng st; rng_pos := rng_pos st; next_id := next_id
     st; highscore_txt := highscore_txt st; fs_writable := fs_writable st;
     exited := exited st |}.

Definition set_last_shot (st : State) (v : float) : State :=
  {| last_time := last_time st; dt := dt st; current_character :=
     current_character st; bird := bird st; bird_frame := bird_frame st;
     bird_anim_timer := bird_anim_timer st; snake := snake st; snake_frame
     := snake_frame st; snake_anim_timer := snake_anim_timer st; player :=
     player st; gravity := gravity st; flap_strength := flap_strength st;
     bullets := bullets st; enemies := enemies st; particles := particles
     st; spawn_timer := spawn_timer st; score := score st; combo := combo
     st; combo_timer := combo_timer st; keys := keys st; running := running
     st; paused := paused st; last_shot := v; last_special := last_special
     st; special_cooldown := special_cooldown st; difficulty_index :=
     difficulty_index st; difficulty := difficulty st; high_score :=
     high_score st; camera_shake := camera_shake st; health := health st;
     shield := shield st; shield_timer := shield_timer st; clouds := clouds
     st; bg_clouds := bg_clouds st; theme_stage := theme_stage st; theme :=
     theme st; theme_spawn_boost := theme_spawn_boost st;
     theme_enemy_speed_boost := theme_enemy_speed_boost st; raindrops :=
     raindrops st; bird_bmps := bird_bmps st; snake_bmp := snake_bmp st;
     eagle_bmp := eagle_bmp st; crocodile_bmp := crocodile_bmp st; owl_bmp
     := owl_bmp st; rng := rng st; rng_pos := rng_pos st; next_id := next_id
     st; highscore_txt := highscore_txt st; fs_writable := fs_writable st;
     exited := exited st |}.

Definition set_last_special (st : State) (v : float) : State :=
  {| last_time := last_time st; dt := dt st; current_character :=
     current_character st; bird := bird st; bird_frame := bird_frame st;
     bird_anim_timer := bird_anim_timer st; snake := snake st; snake_frame
     := snake_frame st; snake_anim_timer := snake_anim_timer st; player :=
     player st; gravity := gravity st; flap_strength := flap_strength st;
     bullets := bullets st; enemies := enemies st; particles := particles
     st; spawn_timer := spawn_timer st; score := score st; combo := combo
     st; combo_timer := combo_timer st; keys := keys st; running := running
     st; paused := paused st; last_shot := last_shot st; last_special := v;
     special_cooldown := special_cooldown st; difficulty_index :=
     difficulty_index st; difficulty := difficulty st; high_score :=
     high_score st; camera_shake := camera_shake st; health := health st;
     shield := shield st; shield_timer := shield_timer st; clouds := clouds
     st; bg_clouds := bg_clouds st; theme_stage := theme_stage st; theme :=
     theme st; theme_spawn_boost := theme_spawn_boost st;
     theme_enemy_speed_boost := theme_enemy_speed_boost st; raindrops :=
     raindrops st; bird_bmps := bird_bmps st; snake_bmp := snake_bmp st;
     eagle_bmp := eagle_bmp st; crocodile_bmp := crocodile_bmp st; owl_bmp
     := owl_bmp st; rng := rng st; rng_pos := rng_pos st; next_id := next_id
     st; highscore_txt := highscore_txt st; fs_writable := fs_writable st;
     exited := exited st |}.

Definition set_difficulty_index (st : State) (v : nat) : State :=
  {| last_time := last_time st; dt := dt st; current_character :=
     current_character st; bird := bird st; bird_frame := bird_frame st;
     bird_anim_timer := bird_anim_timer st; snake := snake st; snake_frame
     := snake_frame st; snake_anim_timer := snake_anim_timer st; player :=
     player st; gravity := gravity st; flap_strength := flap_strength st;
     bullets := bullets st; enemies := enemies st; particles := particles
     st; spawn_timer := spawn_timer st; score := score st; combo := combo
     st; combo_timer := combo_timer st; keys := keys st; running := running
     st; paused := paused st; last_shot := last_shot st; last_special :=
     last_special st; special_cooldown := special_cooldown st;
     difficulty_index := v; difficulty := difficulty st; high_score :=
     high_score st; camera_shake := camera_shake st; health := health st;
     shield := shield st; shield_timer := shield_timer st; clouds := clouds
     st; bg_clouds := bg_clouds st; theme_stage := theme_stage st; theme :=
     theme st; theme_spawn_boost := theme_spawn_boost st;
     theme_enemy_speed_boost := theme_enemy_speed_boost st; raindrops :=
     raindrops st; bird_bmps := bird_bmps st; snake_bmp := snake_bmp st;
     eagle_bmp := eagle_bmp st; crocodile_bmp := crocodile_bmp st; owl_bmp
     := owl_bmp st; rng := rng st; rng_pos := rng_pos st; next_id := next_id
     st; highscore_txt := highscore_txt st; fs_writable := fs_writable st;
     exited := exited st |}.

Definition set_difficulty (st : State) (v : float) : State :=
  {| last_time := last_time st; dt := dt st; current_character :=
     current_character st; bird := bird st; bird_frame := bird_frame st;
     bird_anim_timer := bird_anim_timer st; snake := snake st; snake_frame
     := snake_frame st; snake_anim_timer := snake_anim_timer st; player :=
     player st; gravity := gravity st; flap_strength := flap_strength st;
     bullets := bullets st; enemies := enemies st; particles := particles
     st; spawn_timer := spawn_timer st; score := score st; combo := combo
     st; combo_timer := combo_timer st; keys := keys st; running := running
     st; paused := paused st; last_shot := last_shot st; last_special :=
     last_special st; special_cooldown := special_cooldown st;
     difficulty_index := difficulty_index st; difficulty := v; high_score :=
     high_score st; camera_shake := camera_shake st; health := health st;
     shield := shield st; shield_timer := shield_timer st; clouds := clouds
     st; bg_clouds := bg_clouds st; theme_stage := theme_stage st; theme :=
     theme st; theme_spawn_boost := theme_spawn_boost st;
     theme_enemy_speed_boost := theme_enemy_speed_boost st; raindrops :=
     raindrops st; bird_bmps := bird_bmps st; snake_bmp := snake_bmp st;
     eagle_bmp := eagle_bmp st; crocodile_bmp := crocodile_bmp st; owl_bmp
     := owl_bmp st; rng := rng st; rng_pos := rng_pos st; next_id := next_id
     st; highscore_txt := highscore_txt st; fs_writable := fs_writable st;
     exited := exited st |}.

Definition set_high_score (st : State) (v : Z) : State :=
  {| last_time := last_time st; dt := dt st; current_character :=
     current_character st; bird := bird st; bird_frame := bird_frame st;
     bird_anim_timer := bird_anim_timer st; snake := snake st; snake_frame
     := snake_frame st; snake_anim_timer := snake_anim_timer st; player :=
     player st; gravity := gravity st; flap_strength := flap_strength st;
     bullets := bullets st; enemies := enemies st; particles := particles
     st; spawn_timer := spawn_timer st; score := score st; combo := combo
     st; combo_timer := combo_timer st; keys := keys st; running := running
     st; paused := paused st; last_shot := last_shot st; last_special :=
     last_special st; special_cooldown := special_cooldown st;
     difficulty_index := difficulty_index st; difficulty := difficulty st;
     high_score := v; camera_shake := camera_shake st; health := health st;
     shield := shield st; shield_timer := shield_timer st; clouds := clouds
     st; bg_clouds := bg_clouds st; theme_stage := theme_stage st; theme :=
     theme st; theme_spawn_boost := theme_spawn_boost st;
     theme_enemy_speed_boost := theme_enemy_speed_boost st; raindrops :=
     raindrops st; bird_bmps := bird_bmps st; snake_bmp := snake_bmp st;
     eagle_bmp := eagle_bmp st; crocodile_bmp := crocodile_bmp st; owl_bmp
     := owl_bmp st; rng := rng st; rng_pos := rng_pos st; next_id := next_id
     st; highscore_txt := highscore_txt st; fs_writable := fs_writable st;
     exited := exited st |}.

Definition set_camera_shake (st : State) (v : float) : State :=
  {| last_time := last_time st; dt := dt st; current_character :=
     current_character st; bird := bird st; bird_frame := bird_frame st;
     bird_anim_timer := bird_anim_timer st; snake := snake st; snake_frame
     := snake_frame st; snake_anim_timer := snake_anim_timer st; player :=
     player st; gravity := gravity st; flap_strength := flap_strength st;
     bullets := bullets st; enemies := enemies st; particles := particles
     st; spawn_timer := spawn_timer st; score := score st; combo := combo
     st; combo_timer := combo_timer st; keys := keys st; running := running
     st; paused := paused st; last_shot := last_shot st; last_special :=
     last_special st; special_cooldown := special_cooldown st;
     difficulty_index := difficulty_index st; difficulty := difficulty st;
     high_score := high_score st; camera_shake := v; health := health st;
     shield := shield st; shield_timer := shield_timer st; clouds := clouds
     st; bg_clouds := bg_clouds st; theme_stage := theme_stage st; theme :=
     theme st; theme_spawn_boost := theme_spawn_boost st;
     theme_enemy_speed_boost := theme_enemy_speed_boost st; raindrops :=
     raindrops st; bird_bmps := bird_bmps st; snake_bmp := snake_bmp st;
     eagle_bmp := eagle_bmp st; crocodile_bmp := crocodile_bmp st; owl_bmp
     := owl_bmp st; rng := rng st; rng_pos := rng_pos st; next_id := next_id
     st; highscore_txt := highscore_txt st; fs_writable := fs_writable st;
     exited := exited st |}.

Definition set_clouds (st : State) (v : list Cloud) : State :=
  {| last_time := last_time st; dt := dt st; current_character :=
     current_character st; bird := bird st; bird_frame := bird_frame st;
     bird_anim_timer := bird_anim_timer st; snake := snake st; snake_frame
     := snake_frame st; snake_anim_timer := snake_anim_timer st; player :=
     player st; gravity := gravity st; flap_strength := flap_strength st;
     bullets := bullets st; enemies := enemies st; particles := particles
     st; spawn_timer := spawn_timer st; score := score st; combo := combo
     st; combo_timer := combo_timer st; keys := keys st; running := running
     st; paused := paused st; last_shot := last_shot st; last_special :=
     last_special st; special_cooldown := special_cooldown st;
     difficulty_index := difficulty_index st; difficulty := difficulty st;
     high_score := high_score st; camera_shake := camera_shake st; health :=
     health st; shield := shield st; shield_timer := shield_timer st; clouds
     := v; bg_clouds := bg_clouds st; theme_stage := theme_stage st; theme
     := theme st; theme_spawn_boost := theme_spawn_boost st;
     theme_enemy_speed_boost := theme_enemy_speed_boost st; raindrops :=
     raindrops st; bird_bmps := bird_bmps st; snake_bmp := snake_bmp st;
     eagle_bmp := eagle_bmp st; crocodile_bmp := crocodile_bmp st; owl_bmp
     := owl_bmp st; rng := rng st; rng_pos := rng_pos st; next_id := next_id
     st; highscore_txt := highscore_txt st; fs_writable := fs_writable st;
     exited := exited st |}.

Definition set_bg_clouds (st : State) (v : list Cloud) : State :=
  {| last_time := last_time st; dt := dt st; current_character :=
     current_character st; bird := bird st; bird_frame := bird_frame st;
     bird_anim_timer := bird_anim_timer st; snake := snake st; snake_frame
     := snake_frame st; snake_anim_timer := snake_anim_timer st; player :=
     player st; gravity := gravity st; flap_strength := flap_strength st;
     bullets := bullets st; enemies := enemies st; particles := particles
     st; spawn_timer := spawn_timer st; score := score st; combo := combo
     st; combo_timer := combo_timer st; keys := keys st; running := running
     st; paused := paused st; last_shot := last_shot st; last_special :=
     last_special st; special_cooldown := special_cooldown st;
     difficulty_index := difficulty_index st; difficulty := difficulty st;
     high_score := high_score st; camera_shake := camera_shake st; health :=
     health st; shield := shield st; shield_timer := shield_timer st; clouds
     := clouds st; bg_clouds := v; theme_stage := theme_stage st; theme :=
     theme st; theme_spawn_boost := theme_spawn_boost st;
     theme_enemy_speed_boost := theme_enemy_speed_boost st; raindrops :=
     raindrops st; bird_bmps := bird_bmps st; snake_bmp := snake_bmp st;
     eagle_bmp := eagle_bmp st; crocodile_bmp := crocodile_bmp st; owl_bmp
     := owl_bmp st; rng := rng st; rng_pos := rng_pos st; next_id := next_id
     st; highscore_txt := highscore_txt st; fs_writable := fs_writable st;
     exited := exited st |}.

Definition set_theme_stage (st : State) (v : nat) : State :=
  {| last_time := last_time st; dt := dt st; current_character :=
     current_character st; bird := bird st; bird_frame := bird_frame st;
     bird_anim_timer := bird_anim_timer st; snake := snake st; snake_frame
     := snake_frame st; snake_anim_timer := snake_anim_timer st; player :=
     player st; gravity := gravity st; flap_strength := flap_strength st;
     bullets := bullets st; enemies := enemies st; particles := particles
     st; spawn_timer := spawn_timer st; score := score st; combo := combo
     st; combo_timer := combo_timer st; keys := keys st; running := running
     st; paused := paused st; last_shot := last_shot st; last_special :=
     last_special st; special_cooldown := special_cooldown st;
     difficulty_index := difficulty_index st; difficulty := difficulty st;
     high_score := high_score st; camera_shake := camera_shake st; health :=
     health st; shield := shield st; shield_timer := shield_timer st; clouds
     := clouds st; bg_clouds := bg_clouds st; theme_stage := v; theme :=
     theme st; theme_spawn_boost := theme_spawn_boost st;
     theme_enemy_speed_boost := theme_enemy_speed_boost st; raindrops :=
     raindrops st; bird_bmps := bird_bmps st; snake_bmp := snake_bmp st;
     eagle_bmp := eagle_bmp st; crocodile_bmp := crocodile_bmp st; owl_bmp
     := owl_bmp st; rng := rng st; rng_pos := rng_pos st; next_id := next_id
     st; highscore_txt := highscore_txt st; fs_writable := fs_writable st;
     exited := exited st |}.

Definition set_theme (st : State) (v : Theme) : State :=
  {| last_time := last_time st; dt := dt st; current_character :=
     current_character st; bird := bird st; bird_frame := bird_frame st;
     bird_anim_timer := bird_anim_timer st; snake := snake st; snake_frame
     := snake_frame st; snake_anim_timer := snake_anim_timer st; player :=
     player st; gravity := gravity st; flap_strength := flap_strength st;
     bullets := bullets st; enemies := enemies st; particles := particles
     st; spawn_timer := spawn_timer st; score := score st; combo := combo
     st; combo_timer := combo_timer st; keys := keys st; running := running
     st; paused := paused st; last_shot := last_shot st; last_special :=
     last_special st; special_cooldown := special_cooldown st;
     difficulty_index := difficulty_index st; difficulty := difficulty st;
     high_score := high_score st; camera_shake := camera_shake st; health :=
     health st; shield := shield st; shield_timer := shield_timer st; clouds
     := clouds st; bg_clouds := bg_clouds st; theme_stage := theme_stage st;
     theme := v; theme_spawn_boost := theme_spawn_boost st;
     theme_enemy_speed_boost := theme_enemy_speed_boost st; raindrops :=
     raindrops st; bird_bmps := bird_bmps st; snake_bmp := snake_bmp st;
     eagle_bmp := eagle_bmp st; crocodile_bmp := crocodile_bmp st; owl_bmp
     := owl_bmp st; rng := rng st; rng_pos := rng_pos st; next_id := next_id
     st; highscore_txt := highscore_txt st; fs_writable := fs_writable st;
     exited := exited st |}.

Definition set_theme_spawn_boost (st : State) (v : float) : State :=
  {| last_time := last_time st; dt := dt st; current_character :=
     current_character st; bird := bird st; bird_frame := bird_frame st;
     bird_anim_timer := bird_anim_timer st; snake := snake st; snake_frame
     := snake_frame st; snake_anim_timer := snake_anim_timer st; player :=
     player st; gravity := gravity st; flap_strength := flap_strength st;
     bullets := bullets st; enemies := enemies st; particles := particles
     st; spawn_timer := spawn_timer st; score := score st; combo := combo
     st; combo_timer := combo_timer st; keys := keys st; running := running
     st; paused := paused st; last_shot := last_shot st; last_special :=
     last_special st; special_cooldown := special_cooldown st;
     difficulty_index := difficulty_index st; difficulty := difficulty st;
     high_score := high_score st; camera_shake := camera_shake st; health :=
     health st; shield := shield st; shield_timer := shield_timer st; clouds
     := clouds st; bg_clouds := bg_clouds st; theme_stage := theme_stage st;
     theme := theme st; theme_spawn_boost := v; theme_enemy_speed_boost :=
     theme_enemy_speed_boost st; raindrops := raindrops st; bird_bmps :=
     bird_bmps st; snake_bmp := snake_bmp st; eagle_bmp := eagle_bmp st;
     crocodile_bmp := crocodile_bmp st; owl_bmp := owl_bmp st; rng := rng
     st; rng_pos := rng_pos st; next_id := next_id st; highscore_txt :=
     highscore_txt st; fs_writable := fs_writable st; exited := exited st |}.

Definition set_theme_enemy_speed_boost (st : State) (v : float) : State :=
  {| last_time := last_time st; dt := dt st; current_character :=
     current_character st; bird := bird st; bird_frame := bird_frame st;
     bird_anim_timer := bird_anim_timer st; snake := snake st; snake_frame
     := snake_frame st; snake_anim_timer := snake_anim_timer st; player :=
     player st; gravity := gravity st; flap_strength := flap_strength st;
     bullets := bullets st; enemies := enemies st; particles := particles
     st; spawn_timer := spawn_timer st; score := score st; combo := combo
     st; combo_timer := combo_timer st; keys := keys st; running := running
     st; paused := paused st; last_shot := last_shot st; last_special :=
     last_special st; special_cooldown := special_cooldown st;
     difficulty_index := difficulty_index st; difficulty := difficulty st;
     high_score := high_score st; camera_shake := camera_shake st; health :=
     health st; shield := shield st; shield_timer := shield_timer st; clouds
     := clouds st; bg_clouds := bg_clouds st; theme_stage := theme_stage st;
     theme := theme st; theme_spawn_boost := theme_spawn_boost st;
     theme_enemy_speed_boost := v; raindrops := raindrops st; bird_bmps :=
     bird_bmps st; snake_bmp := snake_bmp st; eagle_bmp := eagle_bmp st;
     crocodile_bmp := crocodile_bmp st; owl_bmp := owl_bmp st; rng := rng
     st; rng_pos := rng_pos st; next_id := next_id st; highscore_txt :=
     highscore_txt st; fs_writable := fs_writable st; exited := exited st |}.

Definition set_raindrops (st : State) (v : list Raindrop) : State :=
  {| last_time := last_time st; dt := dt st; current_character :=
     current_character st; bird := bird st; bird_frame := bird_frame st;
     bird_anim_timer := bird_anim_timer st; snake := snake st; snake_frame
     := snake_frame st; snake_anim_timer := snake_anim_timer st; player :=
     player st; gravity := gravity st; flap_strength := flap_strength st;
     bullets := bullets st; enemies := enemies st; particles := particles
     st; spawn_timer := spawn_timer st; score := score st; combo := combo
     st; combo_timer := combo_timer st; keys := keys st; running := running
     st; paused := paused st; last_shot := last_shot st; last_special :=
     last_special st; special_cooldown := special_cooldown st;
     difficulty_index := difficulty_index st; difficulty := difficulty st;
     high_score := high_score st; camera_shake := camera_shake st; health :=
     health st; shield := shield st; shield_timer := shield_timer st; clouds
     := clouds st; bg_clouds := bg_clouds st; theme_stage := theme_stage st;
     theme := theme st; theme_spawn_boost := theme_spawn_boost st;
     theme_enemy_speed_boost := theme_enemy_speed_boost st; raindrops := v;
     bird_bmps := bird_bmps st; snake_bmp := snake_bmp st; eagle_bmp :=
     eagle_bmp st; crocodile_bmp := crocodile_bmp st; owl_bmp := owl_bmp st;
     rng := rng st; rng_pos := rng_pos st; next_id := next_id st;
     highscore_txt := highscore_txt st; fs_writable := fs_writable st;
     exited := exited st |}.

Definition set_rng_pos (st : State) (v : nat) : State :=
  {| last_time := last_time st; dt := dt st; current_character :=
     current_character st; bird := bird st; bird_frame := bird_frame st;
     bird_anim_timer := bird_anim_timer st; snake := snake st; snake_frame
     := snake_frame st; snake_anim_timer := snake_anim_timer st; player :=
     player st; gravity := gravity st; flap_strength := flap_strength st;
     bullets := bullets st; enemies := enemies st; particles := particles
     st; spawn_timer := spawn_timer st; score := score st; combo := combo
     st; combo_timer := combo_timer st; keys := keys st; running := running
     st; paused := paused st; last_shot := last_shot st; last_special :=
     last_special st; special_cooldown := special_cooldown st;
     difficulty_index := difficulty_index st; difficulty := difficulty st;
     high_score := high_score st; camera_shake := camera_shake st; health :=
     health st; shield := shield st; shield_timer := shield_timer st; clouds
     := clouds st; bg_clouds := bg_clouds st; theme_stage := theme_stage st;
     theme := theme st; theme_spawn_boost := theme_spawn_boost st;
     theme_enemy_speed_boost := theme_enemy_speed_boost st; raindrops :=
     raindrops st; bird_bmps := bird_bmps st; snake_bmp := snake_bmp st;
     eagle_bmp := eagle_bmp st; crocodile_bmp := crocodile_bmp st; owl_bmp
     := owl_bmp st; rng := rng st; rng_pos := v; next_id := next_id st;
     highscore_txt := highscore_txt st; fs_writable := fs_writable st;
     exited := exited st |}.

Definition set_next_id (st : State) (v : nat) : State :=
  {| last_time := last_time st; dt := dt st; current_character :=
     current_character st; bird := bird st; bird_frame := bird_frame st;
     bird_anim_timer := bird_anim_timer st; snake := snake st; snake_frame
     := snake_frame st; snake_anim_timer := snake_anim_timer st; player :=
     player st; gravity := gravity st; flap_strength := flap_strength st;
     bullets := bullets st; enemies := enemies st; particles := particles
     st; spawn_timer := spawn_timer st; score := score st; combo := combo
     st; combo_timer := combo_timer st; keys := keys st; running := running
     st; paused := paused st; last_shot := last_shot st; last_special :=
     last_special st; special_cooldown := special_cooldown st;
     difficulty_index := difficulty_index st; difficulty := difficulty st;
     high_score := high_score st; camera_shake := camera_shake st; health :=
     health st; shield := shield st; shield_timer := shield_timer st; clouds
     := clouds st; bg_clouds := bg_clouds st; theme_stage := theme_stage st;
     theme := theme st; theme_spawn_boost := theme_spawn_boost st;
     theme_enemy_speed_boost := theme_enemy_speed_boost st; raindrops :=
     raindrops st; bird_bmps := bird_bmps st; snake_bmp := snake_bmp st;
     eagle_bmp := eagle_bmp st; crocodile_bmp := crocodile_bmp st; owl_bmp
     := owl_bmp st; rng := rng st; rng_pos := rng_pos st; next_id := v;
     highscore_txt := highscore_txt st; fs_writable := fs_writable st;
     exited := exited st |}.

Definition set_highscore_txt (st : State) (v : option string) : State :=
  {| last_time := last_time st; dt := dt st; current_character :=
     current_character st; bird := bird st; bird_frame := bird_frame st;
     bird_anim_timer := bird_anim_timer st; snake := snake st; snake_frame
     := snake_frame st; snake_anim_timer := snake_anim_timer st; player :=
     player st; gravity := gravity st; flap_strength := flap_strength st;
     bullets := bullets st; enemies := enemies st; particles := particles
     st; spawn_timer := spawn_timer st; score := score st; combo := combo
     st; combo_timer := combo_timer st; keys := keys st; running := running
     st; paused := paused st; last_shot := last_shot st; last_special :=
     last_special st; special_cooldown := special_cooldown st;
     difficulty_index := difficulty_index st; difficulty := difficulty st;
     high_score := high_score st; camera_shake := camera_shake st; health :=
     health st; shield := shield st; shield_timer := shield_timer st; clouds
     := clouds st; bg_clouds := bg_clouds st; theme_stage := theme_stage st;
     theme := theme st; theme_spawn_boost := theme_spawn_boost st;
     theme_enemy_speed_boost := theme_enemy_speed_boost st; raindrops :=
     raindrops st; bird_bmps := bird_bmps st; snake_bmp := snake_bmp st;
     eagle_bmp := eagle_bmp st; crocodile_bmp := crocodile_bmp st; owl_bmp
     := owl_bmp st; rng := rng st; rng_pos := rng_pos st; next_id := next_id
     st; highscore_txt := v; fs_writable := fs_writable st; exited := exited
     st |}.

Definition set_exited (st : State) (v : bool) : State :=
  {| last_time := last_time st; dt := dt st; current_character :=
     current_character st; bird := bird st; bird_frame := bird_frame st;
     bird_anim_timer := bird_anim_timer st; snake := snake st; snake_frame
     := snake_frame st; snake_anim_timer := snake_anim_timer st; player :=
     player st; gravity := gravity st; flap_strength := flap_strength st;
     bullets := bullets st; enemies := enemies st; particles := particles
     st; spawn_timer := spawn_timer st; score := score st; combo := combo
     st; combo_timer := combo_timer st; keys := keys st; running := running
     st; paused := paused st; last_shot := last_shot st; last_special :=
     last_special st; special_cooldown := special_cooldown st;
     difficulty_index := difficulty_index st; difficulty := difficulty st;
     high_score := high_score st; camera_shake := camera_shake st; health :=
     health st; shield := shield st; shield_timer := shield_timer st; clouds
     := clouds st; bg_clouds := bg_clouds st; theme_stage := theme_stage st;
     theme := theme st; theme_spawn_boost := theme_spawn_boost st;
     theme_enemy_speed_boost := theme_enemy_speed_boost st; raindrops :=
     raindrops st; bird_bmps := bird_bmps st; snake_bmp := snake_bmp st;
     eagle_bmp := eagle_bmp st; crocodile_bmp := crocodile_bmp st; owl_bmp
     := owl_bmp st; rng := rng st; rng_pos := rng_pos st; next_id := next_id
     st; highscore_txt := highscore_txt st; fs_writable := fs_writable st;
     exited := v |}.

(** ** Lists of objects

    A Python list holds references.  [l.remove(o)] deletes the first entry
    that is the object [o] (sprites define no [__eq__], so equality is
    identity) and raises [ValueError] when there is none; every call in the
    source is wrapped in [try ... except ValueError: pass], so a missing
    object leaves the list as it is. *)

Fixpoint list_remove (i : nat) (l : list Sprite) : list Sprite :=
  match l with
  | [] => []
  | s :: r => if Nat.eqb (sid s) i then r else s :: list_remove i r
  end.

(** An attribute write on the object [s]: every reference to it held by the
    list sees the new value. *)
Definition list_store (s : Sprite) (l : list Sprite) : list Sprite :=
  map (fun t => if Nat.eqb (sid t) (sid s) then s else t) l.

Definition has_sid (i : nat) (l : list Sprite) : bool :=
  existsb (fun t => Nat.eqb (sid t) i) l.

(** ** Difficulty presets and theme sequence (game.py, lines 332-337, 389) *)

Record Preset := mkPreset {
  name : string;
  mult : float;
  spawn_rate : float;
  enemy_speed : float;
  preset_gravity : float
}.

Definition difficulty_presets : list Preset :=
  [ mkPreset "Easy" 0.8 0.8 0.85 0.9;
    mkPreset "Normal" 1.0 1.0 1.0 1.0;
    mkPreset "Hard" 1.2 1.2 1.15 1.05;
    mkPreset "Insane" 1.5 1.5 1.4 1.1 ]%float.

(** [self.difficulty_presets[self.difficulty_index]]; the index stays below 4
    (it starts at 1 and is only advanced modulo the length). *)
Definition preset_at (i : nat) : Preset :=
  nth i difficulty_presets (mkPreset "Normal" 1.0 1.0 1.0 1.0)%float.

Definition theme_sequence : list (Theme * Z) := [(Rainy, 500); (Sunny, 1500)].

(** ** The [random] module

    [random.random()] reads the next draw of the tape.  [uniform] is
    CPython's [a + (b - a) * random()].  [randint(a, b)] is modelled as
    [a + int(random() * (b - a + 1))]: an integer of the same range, drawn
    with one read of the tape. *)

Definition M (A : Type) : Type := State -> A * State.

Definition ret {A} (a : A) : M A := fun st => (a, st).

Definition bind {A B} (c : M A) (k : A -> M B) : M B :=
  fun st => let (a, st') := c st in k a st'.

Notation "x <- c ;; k" := (bind c (fun x => k))
  (at level 61, c at next level, right associativity).

Definition random_random : M float :=
  fun st => (rng st (rng_pos st), set_rng_pos st (S (rng_pos st))).

Definition random_uniform (a b : float) : M float :=
  u <- random_random ;; ret (a + (b - a) * u)%float.

Definition random_randint (a b : Z) : M Z :=
  u <- random_random ;; ret (a + Py.int_of_float (fl (b - a + 1) * u)%float).

(** A fresh object identity. *)
Definition fresh : M nat :=
  fun st => (next_id st, set_next_id st (S (next_id st))).

(** ** Strings: [str.strip] and [int(str)] on ASCII text *)

Module PyStr.

Local Open Scope char_scope.

(** Characters [str.strip()] removes: tab, newline, vertical tab, form
    feed, carriage return, the separators 0x1c-0x1f and the space. *)
Definition is_space (c : ascii) : bool :=
  let n := nat_of_ascii c in
  ((9 <=? n) && (n <=? 13) || (28 <=? n) && (n <=? 32))%nat.

Definition is_digit (c : ascii) : bool :=
  let n := nat_of_ascii c in ((48 <=? n) && (n <=? 57))%nat.

Definition digit_val (c : ascii) : Z := Z.of_nat (nat_of_ascii c) - 48.

Fixpoint lstrip (s : string) : string :=
  match s with
  | String c r => if is_space c then lstrip r else s
  | EmptyString => EmptyString
  end.

Fixpoint rstrip (s : string) : string :=
  match s with
  | String c r =>
      match rstrip r with
      | EmptyString => if is_space c then EmptyString else String c EmptyString
      | r' => String c r'
      end
  | EmptyString => EmptyString
  end.

Definition strip (s : string) : string := rstrip (lstrip s).

(** The digits of a decimal literal: at least one digit, single underscores
    allowed between digits.  [acc] is the value read so far and [prev] says
    that the previous character was a digit. *)
Fixpoint digits (acc : Z) (prev : bool) (s : string) : option Z :=
  match s with
  | EmptyString => if prev then Some acc else None
  | String c r =>
      if is_digit c then digits (10 * acc + digit_val c) true r
      else if Ascii.eqb c "_" then (if prev then digits acc false r else None)
      else None
  end.

(** [int(s)] in base 10: surrounding whitespace, an optional sign, digits.
    [None] stands for [ValueError]. *)
Definition int (s : string) : option Z :=
  match strip s with
  | String "-" r => option_map Z.opp (digits 0 false r)
  | String "+" r => digits 0 false r
  | t => digits 0 false t
  end.

(** [str(z)] for an int. *)
Definition str (z : Z) : string := NilZero.string_of_int (Z.to_int z).

End PyStr.

(** ** High-score file (game.py, lines 621-635) *)

(** [load_high_score], with the file given as its content ([None] when
    [open] raises [FileNotFoundError]). *)
Definition load_high_score_from (file : option string) : Z :=
  match file with
  | None => 0
  | Some content =>
      match PyStr.int (PyStr.strip content) with
      | Some n => n
      | None => 0
      end
  end.

Definition load_high_score (st : State) : Z :=
  load_high_score_from (highscore_txt st).

(** [save_high_score]: any failure to write is swallowed. *)
Definition save_high_score (st : State) : State :=
  if fs_writable st
  then set_highscore_txt st (Some (PyStr.str (high_score st)))
  else st.

(** ** The callbacks of GamePanel *)

Section GamePanel.

(** [math.sin] and [math.cos]. *)
Variable sin cos : float -> float.

Local Open Scope float_scope.

(** [self.player] is a reference to [self.bird] or to [self.snake]. *)
Definition get_player (st : State) : Sprite :=
  match player st with Bird => bird st | Snake => snake st end.

Definition put_player (st : State) (s : Sprite) : State :=
  match player st with Bird => set_bird st s | Snake => set_snake st s end.

(** [trigger_shake(intensity)] (lines 637-639). *)
Definition trigger_shake (intensity : float) (st : State) : State :=
  set_camera_shake st intensity.

(** [play_sound] is a placeholder that does nothing (lines 641-644). *)
Definition play_sound (sound_name : string) (st : State) : State := st.

(** [toggle_character] (lines 646-657). *)
Definition toggle_character (st : State) : State :=
  let st1 :=
    match current_character st with
    | Bird => set_player (set_current_character st Snake) Snake
    | Snake => set_player (set_current_character st Bird) Bird
    end in
  let st2 := put_player st1 (set_x (get_player st1) (fl 60)) in
  let st3 := put_player st2 (set_y (get_player st2) (fl (WINDOW_H / 2))) in
  put_player st3 (set_vy (get_player st3) (fl 0)).

(** [shoot_bird] (lines 454-460). *)
Definition shoot_bird (st : State) : State :=
  let bx := x (bird st) + fl (w (bird st)) in
  let by_ := y (bird st) + fl (h (bird st) / 2) - fl 4 in
  let (i, st1) := fresh st in
  let bullet := new_Sprite i bx by_ 8 8 (fl 420) (fl 0) (255, 50, 50)%Z None in
  let bullet := set_bullet bullet Normal None None in
  set_bullets st1 (bullets st1 ++ [bullet]).

(** One pellet of [shoot_snake]: the body of its loop (lines 470-481). *)
Definition shoot_snake_pellet (bx by_ : float) (st : State) (angle : float)
    : State :=
  let speed := fl 380 in
  let vx0 := speed * cos angle in
  let vy0 := speed * sin angle in
  let (i, st1) := fresh st in
  let pellet := new_Sprite i bx by_ 6 6 vx0 vy0 (100, 220, 80)%Z None in
  let pellet := set_bullet pellet Venom (Some 3.0) (Some 0.0) in
  set_bullets st1 (bullets st1 ++ [pellet]).

(** [shoot_snake] (lines 462-481). *)
Definition shoot_snake (st : State) : State :=
  let bx := x (snake st) + fl (w (snake st)) in
  let by_ := y (snake st) + fl (h (snake st) / 2) in
  let angles := [fl 0; - 0.3; 0.3] in
  fold_left (shoot_snake_pellet bx by_) angles st.

(** [shoot] (lines 446-452). *)
Definition shoot (st : State) : State :=
  let st1 := match current_character st with
             | Bird => shoot_bird st
             | Snake => shoot_snake st
             end in
  play_sound "shoot" st1.

(** [try_shoot] at time [now] (lines 437-444). *)
Definition try_shoot (now : float) (st : State) : State :=
  if now - last_shot st <? SHOOT_COOLDOWN then st
  else if (Z.of_nat (List.length (bullets st)) >=? MAX_BULLETS)%Z then st
  else set_last_shot (shoot st) now.

(** One bullet of [special_bird_attack]: the body of its loop. *)
Definition special_bird_bullet (bx by_ : float) (st : State) (angle : float)
    : State :=
  let speed := fl 450 in
  let vx0 := speed * cos angle in
  let vy0 := speed * sin angle in
  let (i, st1) := fresh st in
  let bullet := new_Sprite i bx by_ 8 8 vx0 vy0 (255, 100, 50)%Z None in
  let bullet := set_bullet bullet Special None None in
  set_bullets st1 (bullets st1 ++ [bullet]).

(** [special_bird_attack] (lines 500-514). *)
Definition special_bird_attack (st : State) : State :=
  let bx := x (bird st) + fl (w (bird st)) in
  let by_ := y (bird st) + fl (h (bird st) / 2) in
  let angles := [- 0.4; - 0.2; fl 0; 0.2; 0.4] in
  fold_left (special_bird_bullet bx by_) angles st.

(** One pellet of [special_snake_attack]: the body of its loop. *)
Definition special_snake_pellet (cx cy : float) (num_pellets : Z) (st : State)
    (i : Z) : State :=
  let angle := (fl 2 * Py.pi * fl i) / fl num_pellets in
  let speed := fl 250 in
  let vx0 := speed * cos angle in
  let vy0 := speed * sin angle in
  let (j, st1) := fresh st in
  let pellet := new_Sprite j cx cy 7 7 vx0 vy0 (150, 255, 100)%Z None in
  let pellet := set_bullet pellet SpecialVenom (Some 2.0) (Some 0.0) in
  set_bullets st1 (bullets st1 ++ [pellet]).

(** [range(n)]. *)
Definition range (n : nat) : list Z := map Z.of_nat (seq 0 n).

(** [special_snake_attack] (lines 516-533). *)
Definition special_snake_attack (st : State) : State :=
  let cx := x (snake st) + fl (w (snake st) / 2) in
  let cy := y (snake st) + fl (h (snake st) / 2) in
  let num_pellets := 8%Z in
  fold_left (special_snake_pellet cx cy num_pellets)
            (range (Z.to_nat num_pellets)) st.

(** [special_attack] (lines 491-498). *)
Definition special_attack (st : State) : State :=
  let st1 := match current_character st with
             | Bird => special_bird_attack st
             | Snake => special_snake_attack st
             end in
  trigger_shake 6.0 (play_sound "special" st1).

(** [try_special_attack] at time [now] (lines 483-489). *)
Definition try_special_attack (now : float) (st : State) : State :=
  if now - last_special st <? special_cooldown st then st
  else set_last_special (special_attack st) now.

(** [spawn_enemy] (lines 535-580). *)
Definition spawn_enemy : M unit :=
  t <- random_random ;;
  fun st =>
  let preset_speed := enemy_speed (preset_at (difficulty_index st)) in
  let speed_factor :=
    (1.0 + (difficulty st - 1.0) * 0.3) * preset_speed
    * theme_enemy_speed_boost st in
  let finish (k : EnemyType) (e : Sprite) (amp_lo amp_hi sp_lo sp_hi : float)
      : M unit :=
    amp <- random_uniform amp_lo amp_hi ;;
    sp <- random_uniform sp_lo sp_hi ;;
    fun st' =>
      let e' := set_enemy_type (set_bob e amp sp) k in
      (tt, set_enemies st' (enemies st' ++ [e'])) in
  if t <? 0.25 then
    (h0 <- random_randint 20 36 ;;
     let y0 := (WINDOW_H - 60 - h0)%Z in
     r <- random_random ;;
     i <- fresh ;;
     finish ESnake
       (new_Sprite i (fl WINDOW_W) (fl y0) 48 h0
          (- (fl 150 + r * fl 40) * speed_factor) (fl 0) (10, 150, 20)%Z
          (snake_bmp st))
       2.0 6.0 1.0 2.0) st
  else if t <? 0.50 then
    (h0 <- random_randint 28 44 ;;
     y0 <- random_randint 20 (WINDOW_H - 160) ;;
     r <- random_random ;;
     i <- fresh ;;
     finish EEagle
       (new_Sprite i (fl WINDOW_W) (fl y0) 52 h0
          (- (fl 200 + r * fl 80) * speed_factor) (fl 0) (120, 80, 40)%Z
          (eagle_bmp st))
       6.0 14.0 0.8 1.6) st
  else if t <? 0.75 then
    (h0 <- random_randint 22 32 ;;
     let y0 := (WINDOW_H - 60 - h0)%Z in
     r <- random_random ;;
     i <- fresh ;;
     finish ECrocodile
       (new_Sprite i (fl WINDOW_W) (fl y0) 56 h0
          (- (fl 100 + r * fl 30) * speed_factor) (fl 0) (40, 120, 50)%Z
          (crocodile_bmp st))
       1.0 3.0 0.6 1.2) st
  else
    (h0 <- random_randint 30 42 ;;
     y0 <- random_randint 40 (WINDOW_H - 140) ;;
     r <- random_random ;;
     i <- fresh ;;
     finish EOwl
       (new_Sprite i (fl WINDOW_W) (fl y0) 44 h0
          (- (fl 120 + r * fl 50) * speed_factor) (fl 0) (80, 60, 40)%Z
          (owl_bmp st))
       8.0 16.0 1.5 2.5) st.

(** [reset] (lines 582-603). *)
Definition reset (st : State) : State :=
  let st := set_bullets st [] in
  let st := set_enemies st [] in
  let st := set_particles st [] in
  let st := if (score st >? high_score st)%Z
            then save_high_score (set_high_score st (score st))
            else st in
  let st := set_score st 0%Z in
  let st := set_combo st 0%Z in
  let st := set_combo_timer st 0.0 in
  let st := set_bird st (set_x (bird st) (fl 60)) in
  let st := set_bird st (set_y (bird st) (fl (WINDOW_H / 2))) in
  let st := set_bird st (set_vx (bird st) (fl 0)) in
  let st := set_bird st (set_vy (bird st) (fl 0)) in
  let st := set_snake st (set_x (snake st) (fl 60)) in
  let st := set_snake st (set_y (snake st) (fl (WINDOW_H / 2))) in
  let st := set_snake st (set_vx (snake st) (fl 0)) in
  let st := set_snake st (set_vy (snake st) (fl 0)) in
  let st := set_running st true in
  let st := set_paused st false in
  let st := set_camera_shake st 0.0 in
  set_difficulty st 1.0.

(** One particle of [spawn_particles]: the body of its loop. *)
Definition spawn_particle (x0 y0 : float) (c : Colour) : M unit :=
  angle <- random_uniform (fl 0) (fl 2 * Py.pi) ;;
  speed <- random_uniform (fl 80) (fl 200) ;;
  let vx0 := speed * cos angle in
  let vy0 := speed * sin angle in
  r <- random_random ;;
  let p_color0 := if r <? 0.3 then (255, 255, 200)%Z else c in
  let p := new_Particle x0 y0 vx0 vy0 p_color0 0.5 in
  fun st => (tt, set_particles st (particles st ++ [p])).

(** [spawn_particles(x, y, color, count)] (lines 605-619). *)
Fixpoint spawn_particles (x0 y0 : float) (c : Colour) (count : nat)
    (st : State) : State :=
  match count with
  | O => st
  | S n => spawn_particles x0 y0 c n (snd (spawn_particle x0 y0 c st))
  end.

(** *** [on_timer] (lines 659-857), phase by phase *)

(** Physics of the active player (lines 670-679). *)
Definition player_physics (dt : float) (st : State) : State :=
  let gravity_scale := preset_gravity (preset_at (difficulty_index st)) in
  let p := get_player st in
  let p := set_vy p (vy p + gravity st * gravity_scale * dt) in
  let p := set_y p (y p + vy p * dt) in
  let p := if y p <? fl 0 then set_vy (set_y p (fl 0)) (fl 0) else p in
  let p := if Py.gtb (y p + fl (h p)) (fl (WINDOW_H - 60))
           then set_vy (set_y p (fl (WINDOW_H - 60 - h p))) (fl 0)
           else p in
  put_player st p.

Definition getattr {A} (o : option A) (default : A) : A :=
  match o with Some a => a | None => default end.

Definition is_venom (k : option BulletType) : bool :=
  match k with
  | Some Venom | Some SpecialVenom => true
  | _ => false
  end.

(** The body of the loop [for b in list(self.bullets)] (lines 682-698).  The
    object [b] is written in place, so the list sees its new position, and
    is then removed when it expired or left the window. *)
Definition update_bullet (dt : float) (st : State) (b : Sprite) : State :=
  let b := Sprite_update b dt in
  let st := set_bullets st (list_store b (bullets st)) in
  let leave (b : Sprite) (st : State) : State :=
    if Py.gtb (x b) (fl WINDOW_W)
    then set_bullets st (list_remove (sid b) (bullets st))
    else st in
  if is_venom (bullet_type b) then
    let b := set_age b (getattr (age b) (fl 0) + dt) in
    let st := set_bullets st (list_store b (bullets st)) in
    if Py.geb (getattr (age b) (fl 0)) (getattr (lifetime b) 3.0)
    then set_bullets st (list_remove (sid b) (bullets st))
    else leave b st
  else leave b st.

Definition update_bullets (dt : float) (st : State) : State :=
  fold_left (update_bullet dt) (bullets st) st.

(** Spawning (lines 700-707). *)
Definition spawn_phase (dt : float) (st : State) : State :=
  let st := set_spawn_timer st (spawn_timer st + dt) in
  let base_spawn := Py.max 0.6 (1.2 - fl (score st) / 1000.0) in
  let spawn_rate_mul :=
    spawn_rate (preset_at (difficulty_index st)) * theme_spawn_boost st in
  let spawn_interval := Py.max 0.18 (base_spawn / spawn_rate_mul) in
  if Py.gtb (spawn_timer st) spawn_interval
  then snd (spawn_enemy (set_spawn_timer st 0.0))
  else st.

(** Difficulty follows the score (line 710). *)
Definition difficulty_phase (st : State) : State :=
  set_difficulty st (1.0 + fl (score st) / 5000.0).

(** One raindrop of the rainy transition (lines 723-726). *)
Definition spawn_raindrop : M unit :=
  rx <- random_randint 0 WINDOW_W ;;
  ry <- random_randint (- WINDOW_H) 0 ;;
  rv <- random_uniform (fl 200) (fl 400) ;;
  fun st => (tt, set_raindrops st (raindrops st ++ [mkRaindrop (fl rx) (fl ry) rv])).

Fixpoint spawn_raindrops (count : nat) (st : State) : State :=
  match count with
  | O => st
  | S n => spawn_raindrops n (snd (spawn_raindrop st))
  end.

(** Theme transitions (lines 712-731). *)
Definition theme_phase (st : State) : State :=
  match nth_error theme_sequence (theme_stage st) with
  | None => st
  | Some (next_theme, threshold) =>
      if (score st >=? threshold)%Z then
        let st := set_theme st next_theme in
        let st :=
          match theme st with
          | Rainy =>
              let st := set_theme_spawn_boost st 1.25 in
              let st := set_theme_enemy_speed_boost st 1.15 in
              spawn_raindrops 120 st
          | Sunny =>
              let st := set_theme_spawn_boost st 1.0 in
              let st := set_theme_enemy_speed_boost st 1.0 in
              set_raindrops st []
          end in
        set_theme_stage st (S (theme_stage st))
      else st
  end.

(** The points of a kill at combo [c]:
    [int(base_score * (1 + (c - 1) * 0.2))] (lines 764-766). *)
Definition kill_points (c : Z) : Z :=
  let base_score := 100%Z in
  let multiplier := fl 1 + fl (c - 1) * 0.2 in
  Py.int_of_float (fl base_score * multiplier).

(** The body of the loop over the bullets for one enemy [e]
    (lines 752-772). *)
Definition hit_bullet (e : Sprite) (st : State) (b : Sprite) : State :=
  if intersects e b then
    let st := set_enemies st (list_remove (sid e) (enemies st)) in
    let st := set_bullets st (list_remove (sid b) (bullets st)) in
    let st := set_combo st (combo st + 1)%Z in
    let st := set_combo_timer st 3.0 in
    let st := set_score st (score st + kill_points (combo st))%Z in
    let ex := x e + fl (w e / 2) in
    let ey := y e + fl (h e / 2) in
    let st := spawn_particles ex ey (color e) 6 st in
    let st := trigger_shake 3.0 st in
    play_sound "hit" st
  else st.

(** The bobbing and the move of an enemy (lines 736-739). *)
Definition move_enemy (dt : float) (e : Sprite) : Sprite :=
  let e :=
    if Py.truthy (bob_amp e) && Py.truthy (bob_speed e) then
      let e := set_bob_phase e (bob_phase e + bob_speed e * dt) in
      set_y e (base_y e + sin (bob_phase e) * bob_amp e)
    else e in
  Sprite_update e dt.

(** The body of the loop [for e in list(self.enemies)] (lines 734-772). *)
Definition update_enemy (dt : float) (st : State) (e : Sprite) : State :=
  let e := move_enemy dt e in
  let st := set_enemies st (list_store e (enemies st)) in
  if x e + fl (w e) <? fl 0 then
    set_enemies st (list_remove (sid e) (enemies st))
  else
    let st :=
      if intersects e (get_player st) then
        let st := set_running st false in
        let st := set_combo st 0%Z in
        let st := trigger_shake 8.0 st in
        play_sound "hit" st
      else st in
    fold_left (hit_bullet e) (bullets st) st.

Definition update_enemies (dt : float) (st : State) : State :=
  fold_left (update_enemy dt) (enemies st) st.

(** [any(self.bird_bmps)]. *)
Definition any_bmp (l : list (option Bitmap)) : bool :=
  existsb (fun b => match b with Some _ => true | None => false end) l.

(** Animation of the active character (lines 774-811). *)
Definition animation_phase (dt : float) (st : State) : State :=
  match current_character st with
  | Bird =>
      let st := set_bird_anim_timer st (bird_anim_timer st + dt) in
      let st :=
        if Py.gtb (bird_anim_timer st) 0.12 && any_bmp (bird_bmps st) then
          let st := set_bird_anim_timer st 0.0 in
          let st := set_bird_frame st
                      ((bird_frame st + 1)
                       mod Z.of_nat (List.length (bird_bmps st)))%Z in
          match nth (Z.to_nat (bird_frame st)) (bird_bmps st) None with
          | Some b => set_bird st (set_bmp (bird st) (Some b))
          | None => st
          end
        else st in
      let max_tilt := 1.0 in
      let tilt0 :=
        Py.max (- max_tilt) (Py.min max_tilt (- vy (bird st) / 300.0)) in
      let squash0 :=
        1.0 - Py.max 0.0 ((0.12 - Py.min (bird_anim_timer st) 0.12) / 0.12)
              * 0.12 in
      let wing_offset0 :=
        if negb (any_bmp (bird_bmps st))
        then (if (bird_frame st mod 2 =? 0)%Z then (-6)%Z else 4%Z)
        else 0%Z in
      set_bird st (set_visual (bird st) tilt0 squash0 (Some wing_offset0))
  | Snake =>
      let st := set_snake_anim_timer st (snake_anim_timer st + dt) in
      let st :=
        if Py.gtb (snake_anim_timer st) 0.15 then
          let st := set_snake_anim_timer st 0.0 in
          set_snake_frame st ((snake_frame st + 1) mod 4)%Z
        else st in
      let squash0 := 1.0 - abs (sin (snake_anim_timer st * Py.pi)) * 0.1 in
      let tilt0 := sin (snake_anim_timer st * Py.pi * fl 2) * 0.5 in
      set_snake st (set_visual (snake st) tilt0 squash0 (wing_offset (snake st)))
  end.

(** One cloud of the foreground layer (lines 814-821). *)
Definition update_cloud (dt : float) (c : Cloud) : M Cloud :=
  let c := mkCloud (c_x c + c_vx c * dt) (c_y c) (c_w c) (c_h c) (c_vx c) (c_a c) in
  if c_x c + fl (c_w c) <? fl (-20) then
    dx <- random_randint 10 120 ;;
    y0 <- random_randint 20 (WINDOW_H / 2) ;;
    w0 <- random_randint 80 180 ;;
    h0 <- random_randint 30 60 ;;
    ret (mkCloud (fl (WINDOW_W + dx)) (fl y0) w0 h0 (c_vx c) (c_a c))
  else ret c.

(** One cloud of the background layer (lines 824-830). *)
Definition update_bg_cloud (dt : float) (c : Cloud) : M Cloud :=
  let c := mkCloud (c_x c + c_vx c * dt) (c_y c) (c_w c) (c_h c) (c_vx c) (c_a c) in
  if c_x c + fl (c_w c) <? fl (-20) then
    dx <- random_randint 20 200 ;;
    y0 <- random_randint 10 (WINDOW_H / 3) ;;
    w0 <- random_randint 150 280 ;;
    h0 <- random_randint 50 100 ;;
    ret (mkCloud (fl (WINDOW_W + dx)) (fl y0) w0 h0 (c_vx c) (c_a c))
  else ret c.

(** A loop that rewrites every element of a list in place, in order. *)
Fixpoint for_each {A} (f : A -> M A) (l : list A) : M (list A) :=
  match l with
  | [] => ret []
  | a :: r => a' <- f a ;; r' <- for_each f r ;; ret (a' :: r')
  end.

Definition clouds_phase (dt : float) (st : State) : State :=
  let (cs, st) := for_each (update_cloud dt) (clouds st) st in
  let st := set_clouds st cs in
  let (bs, st) := for_each (update_bg_cloud dt) (bg_clouds st) st in
  set_bg_clouds st bs.

(** The combo window (lines 833-835). *)
Definition combo_phase (dt : float) (st : State) : State :=
  let st := set_combo_timer st (combo_timer st - dt) in
  if combo_timer st <=? fl 0 then set_combo st 0%Z else st.

(** Particles move and die (lines 838-843). *)
Definition update_particles (dt : float) (l : list Particle) : list Particle :=
  map fst (filter snd (map (fun p => Particle_update p dt) l)).

Definition particles_phase (dt : float) (st : State) : State :=
  set_particles st (update_particles dt (particles st)).

(** Camera shake decays (line 846). *)
Definition shake_phase (dt : float) (st : State) : State :=
  set_camera_shake st (Py.max (fl 0) (camera_shake st - dt * fl 15)).

(** One raindrop (lines 851-855). *)
Definition update_raindrop (dt : float) (rd : Raindrop) : M Raindrop :=
  let rd := mkRaindrop (rd_x rd) (rd_y rd + rd_v rd * dt) (rd_v rd) in
  if Py.gtb (rd_y rd) (fl WINDOW_H) then
    y0 <- random_uniform (fl (- WINDOW_H) * 0.5) (fl (-5)) ;;
    x0 <- random_uniform (fl 0) (fl WINDOW_W) ;;
    ret (mkRaindrop x0 y0 (rd_v rd))
  else ret rd.

Definition raindrops_phase (dt : float) (st : State) : State :=
  match theme st with
  | Rainy =>
      let (rs, st) := for_each (update_raindrop dt) (raindrops st) st in
      set_raindrops st rs
  | Sunny => st
  end.

(** The clamped time step (lines 660-665). *)
Definition clamp_dt (d : float) : float :=
  if Py.gtb d 0.05 then 0.05 else d.

(** What a frame does once it is known to be live (lines 670-857). *)
Definition run_frame (dt : float) (st : State) : State :=
  let st := player_physics dt st in
  let st := update_bullets dt st in
  let st := spawn_phase dt st in
  let st := difficulty_phase st in
  let st := theme_phase st in
  let st := update_enemies dt st in
  let st := animation_phase dt st in
  let st := clouds_phase dt st in
  let st := combo_phase dt st in
  let st := particles_phase dt st in
  let st := shake_phase dt st in
  raindrops_phase dt st.

(** [on_timer], called when [time.time()] is [now]. *)
Definition on_timer (now : float) (st : State) : State :=
  let dt0 := clamp_dt (now - last_time st) in
  let st := set_last_time st now in
  let st := set_dt st dt0 in
  if negb (running st) || paused st then st
  else run_frame dt0 st.

(** *** Key events (lines 404-435) *)

Fixpoint set_add (k : Z) (l : list Z) : list Z :=
  match l with
  | [] => [k]
  | a :: r => if (a =? k)%Z then l else a :: set_add k r
  end.

Definition set_discard (k : Z) (l : list Z) : list Z :=
  filter (fun a => negb (a =? k)%Z) l.

(** [key in (a, b)]. *)
Definition key_in (k a b : Z) : bool := ((k =? a) || (k =? b))%Z.

(** [on_key_down] for the key code [key], delivered at time [now]. *)
Definition on_key_down (now : float) (key : Z) (st : State) : State :=
  let st := set_keys st (set_add key (keys st)) in
  if (key =? WXK_SPACE)%Z then
    play_sound "flap" (put_player st (set_vy (get_player st) (flap_strength st)))
  else if key_in key (ord "P") (ord "p") then
    set_paused st (negb (paused st))
  else if key_in key (ord "R") (ord "r") then
    reset st
  else if key_in key WXK_CONTROL (ord "Z") then
    try_shoot now st
  else if key_in key (ord "C") (ord "c") then
    toggle_character st
  else if key_in key (ord "X") (ord "x") then
    try_special_attack now st
  else if key_in key (ord "D") (ord "d") then
    let st := set_difficulty_index st
                (Nat.modulo (difficulty_index st + 1)
                            (List.length difficulty_presets)) in
    let preset := preset_at (difficulty_index st) in
    let st := set_difficulty st (mult preset) in
    play_sound "special" st
  else if (key =? WXK_ESCAPE)%Z then
    set_exited st true
  else st.

(** [on_key_up]. *)
Definition on_key_up (key : Z) (st : State) : State :=
  set_keys st (set_discard key (keys st)).

End GamePanel.

(** ** [GamePanel.__init__] (lines 262-402)

    The panel is built at time [now] from the loaded assets, the tape of
    random draws and the high-score file. *)

Record Assets := mkAssets {
  a_bird : list (option Bitmap);
  a_snake : option Bitmap;
  a_eagle : option Bitmap;
  a_crocodile : option Bitmap;
  a_owl : option Bitmap
}.

(** No image could be loaded: every sprite is drawn as a shape. *)
Definition no_assets : Assets := mkAssets [None; None; None] None None None None.

Definition first_bmp (l : list (option Bitmap)) : option Bitmap :=
  match filter (fun b => match b with Some _ => true | None => false end) l with
  | b :: _ => b
  | [] => None
  end.

Definition new_cloud (w_lo w_hi h_lo h_hi y_lo y_hi : Z) (v_lo v_hi : float)
    (a_lo a_hi : Z) : M Cloud :=
  cw <- random_randint w_lo w_hi ;;
  ch <- random_randint h_lo h_hi ;;
  cx <- random_randint 0 WINDOW_W ;;
  cy <- random_randint y_lo y_hi ;;
  cvx <- random_uniform v_lo v_hi ;;
  ca <- random_randint a_lo a_hi ;;
  ret (mkCloud (fl cx) (fl cy) cw ch cvx ca).

Fixpoint repeat_m {A} (n : nat) (c : M A) : M (list A) :=
  match n with
  | O => ret []
  | S k => a <- c ;; r <- repeat_m k c ;; ret (a :: r)
  end.

Definition GamePanel_init (now : float) (assets : Assets) (tape : nat -> float)
    (file : option string) (writable : bool) : State :=
  let bird_bmps0 :=
    if any_bmp (a_bird assets) then a_bird assets else [None; None; None] in
  let bird0 :=
    new_Sprite 0 (fl 60) (fl (WINDOW_H / 2)) 34 24 (fl 0) (fl 0) (255, 200, 0)
               (first_bmp bird_bmps0) in
  let snake0 :=
    set_character_type
      (new_Sprite 1 (fl 60) (fl (WINDOW_H / 2)) 40 20 (fl 0) (fl 0)
                  (50, 180, 80) None) Snake in
  let st :=
    {| last_time := now; dt := 0.0;
       current_character := Bird;
       bird := bird0; bird_frame := 0; bird_anim_timer := 0.0;
       snake := snake0; snake_frame := 0; snake_anim_timer := 0.0;
       player := Bird;
       gravity := 900.0; flap_strength := (-320.0);
       bullets := []; enemies := []; particles := [];
       spawn_timer := 0.0; score := 0; combo := 0; combo_timer := 0.0;
       keys := []; running := true; paused := false;
       last_shot := (-10.0); last_special := (-10.0);
       special_cooldown := 3.0;
       difficulty_index := 1; difficulty := mult (preset_at 1);
       high_score := load_high_score_from file; camera_shake := 0.0;
       health := 1; shield := false; shield_timer := 0.0;
       clouds := []; bg_clouds := [];
       theme_stage := 0; theme := Sunny;
       theme_spawn_boost := 1.0; theme_enemy_speed_boost := 1.0;
       raindrops := [];
       bird_bmps := bird_bmps0; snake_bmp := a_snake assets;
       eagle_bmp := a_eagle assets; crocodile_bmp := a_crocodile assets;
       owl_bmp := a_owl assets;
       rng := tape; rng_pos := 0; next_id := 2;
       highscore_txt := file; fs_writable := writable;
       exited := false |}%float in
  let (cs, st) :=
    repeat_m 6 (new_cloud 80 180 30 60 30 (WINDOW_H / 2)
                          (-10.0)%float (-40.0)%float 140 255) st in
  let st := set_clouds st cs in
  let (bs, st) :=
    repeat_m 3 (new_cloud 150 280 50 100 10 (WINDOW_H / 3)
                          (-2.0)%float (-10.0)%float 80 140) st in
  set_bg_clouds st bs.

(** ** Running the model

    The theorems below hold for every [sin] and [cos].  To evaluate a frame
    on concrete data the examples use the Taylor polynomials of degree 9 and
    8, which agree with libm to more than ten digits for the small angles
    that occur in them, and a tape that repeats a few draws. *)

Definition sin_taylor (a : float) : float :=
  let a2 := (a * a)%float in
  (a * (1 - a2 / 6 * (1 - a2 / 20 * (1 - a2 / 42 * (1 - a2 / 72)))))%float.

Definition cos_taylor (a : float) : float :=
  let a2 := (a * a)%float in
  (1 - a2 / 2 * (1 - a2 / 12 * (1 - a2 / 30 * (1 - a2 / 56))))%float.

Definition sample_tape (n : nat) : float :=
  nth (Nat.modulo n 5) [0.1; 0.6; 0.35; 0.85; 0.5]%float 0.5%float.

(** A freshly started game, with no assets and no high-score file. *)
Definition fresh_game : State :=
  GamePanel_init 1000.0%float no_assets sample_tape None true.

(** ** Vocabulary of the properties *)

(** The edges of a sprite's box, as [intersects] computes them. *)
Definition right_edge (s : Sprite) : float := (x s + fl (w s))%float.
Definition bottom_edge (s : Sprite) : float := (y s + fl (h s))%float.

(** Strict separation on an axis: a gap between the two boxes. *)
Definition separated_x (s o : Sprite) : bool :=
  (right_edge s <? x o)%float || (right_edge o <? x s)%float.
Definition separated_y (s o : Sprite) : bool :=
  (bottom_edge s <? y o)%float || (bottom_edge o <? y s)%float.

(** A box whose right edge is not left of its left edge, and whose bottom is
    not above its top. *)
Definition box_ok (s : Sprite) : bool :=
  (x s <=? right_edge s)%float && (y s <=? bottom_edge s)%float.

(** The extents of the two boxes on an axis share at least one coordinate. *)
Definition meets_x (s o : Sprite) : bool :=
  (x s <=? right_edge o)%float && (x o <=? right_edge s)%float.
Definition meets_y (s o : Sprite) : bool :=
  (y s <=? bottom_edge o)%float && (y o <=? bottom_edge s)%float.

(** Two boxes exactly touch: an edge of one equals the facing edge of the
    other, and on the other axis their extents meet. *)
Definition touching (s o : Sprite) : bool :=
  box_ok s && box_ok o &&
  ((((right_edge s =? x o)%float || (right_edge o =? x s)%float) && meets_y s o)
   || (((bottom_edge s =? y o)%float || (bottom_edge o =? y s)%float)
       && meets_x s o)).

(** A sprite that is only a box. *)
Definition box (i : nat) (x0 y0 : float) (w0 h0 : Z) : Sprite :=
  new_Sprite i x0 y0 w0 h0 0%float 0%float (0, 0, 0) None.

(** Key codes of the letters. *)
Definition KEY_P : Z := ord "P".
Definition KEY_R : Z := ord "R".
Definition KEY_Z : Z := ord "Z".
Definition KEY_C : Z := ord "C".
Definition KEY_X : Z := ord "X".

(** The session is paused or over: [on_timer] skips the update. *)
Definition idle (st : State) : bool := negb (running st) || paused st.

(** A game paused right after it started. *)
Definition paused_game : State :=
  on_key_down sin_taylor cos_taylor 1000.0%float KEY_P fresh_game.

(** A game that ended: an enemy reached the player. *)
Definition over_game : State := set_running fresh_game false.

(** The spawn point of both player characters. *)
Definition SPAWN_X : float := 60%float.
Definition SPAWN_Y : float := 320%float.

(** The gates of [try_shoot]: its cooldown is over, and fewer than
    [MAX_BULLETS] entries are in the shared bullet list. *)
Definition shoot_cooled (now : float) (st : State) : bool :=
  negb (now - last_shot st <? SHOOT_COOLDOWN)%float.
Definition below_cap (st : State) : bool :=
  negb (Z.of_nat (List.length (bullets st)) >=? MAX_BULLETS).

(** The gate of [try_special_attack]: its cooldown is over. *)
Definition special_cooled (now : float) (st : State) : bool :=
  negb (now - last_special st <? special_cooldown st)%float.

(** How many projectiles one primary shot and one special attack emit. *)
Definition volley (c : Character) : nat :=
  match c with Bird => 1 | Snake => 3 end.
Definition special_volley (c : Character) : nat :=
  match c with Bird => 5 | Snake => 8 end.

(** Projectiles of primary fire and of special attacks. *)
Definition is_primary (b : Sprite) : bool :=
  match bullet_type b with
  | Some Normal | Some Venom => true
  | _ => false
  end.
Definition is_special (b : Sprite) : bool :=
  match bullet_type b with
  | Some Special | Some SpecialVenom => true
  | _ => false
  end.
Definition count_primary (st : State) : nat :=
  List.length (filter is_primary (bullets st)).

(** *** A snake volley fired while three pellets are in flight

    The player switches to the snake and fires at t = 1000.0; six frames of
    0.05 s pass; the player fires again at t = 1000.3. *)
Definition frames (sin cos : float -> float) (times : list float) (st : State)
    : State :=
  fold_left (fun s t => on_timer sin cos t s) times st.

Definition snake_first_volley : State :=
  on_key_down sin_taylor cos_taylor 1000.0%float KEY_Z
    (on_key_down sin_taylor cos_taylor 1000.0%float KEY_C fresh_game).

Definition snake_before_second_volley : State :=
  frames sin_taylor cos_taylor
    [1000.05; 1000.1; 1000.15; 1000.2; 1000.25; 1000.3]%float
    snake_first_volley.

Definition snake_second_volley : State :=
  on_key_down sin_taylor cos_taylor 1000.3%float KEY_Z
    snake_before_second_volley.

(** *** A primary shot attempted after a special attack

    The bird uses its special attack at t = 1000.0 and the player presses
    the fire key at t = 1000.1. *)
Definition bird_after_special : State :=
  on_key_down sin_taylor cos_taylor 1000.0%float KEY_X fresh_game.

Definition bird_fire_after_special : State :=
  on_key_down sin_taylor cos_taylor 1000.1%float KEY_Z bird_after_special.

(** *** Sessions

    What happens to a panel is a sequence of events: timer ticks and key
    events, each delivered at some time. *)
Inductive Event :=
| Timer (now : float)
| KeyDown (now : float) (key : Z)
| KeyUp (key : Z).

Definition deliver (sin cos : float -> float) (st : State) (ev : Event)
    : State :=
  match ev with
  | Timer now => on_timer sin cos now st
  | KeyDown now key => on_key_down sin cos now key st
  | KeyUp key => on_key_up key st
  end.

Definition run (sin cos : float -> float) (evs : list Event) (st : State)
    : State :=
  fold_left (deliver sin cos) evs st.

(** The weather of a session: theme, stage reached in [theme_sequence], the
    two boosts, and the size of the raindrop pool. *)
Definition weather (st : State) : Theme * nat * float * float * nat :=
  (theme st, theme_stage st, theme_spawn_boost st,
   theme_enemy_speed_boost st, List.length (raindrops st)).

(** The phases of a live frame that come before the theme check. *)
Definition before_theme (dt : float) (st : State) : State :=
  difficulty_phase (spawn_phase dt (update_bullets dt (player_physics dt st))).

(** A live game whose score has passed the first threshold. *)
Definition game_at_600 : State := set_score fresh_game 600.

(** *** Footprints

    What a callback leaves alone is stated through observations: an
    observation [P] of the state ignores an attribute when assigning that
    attribute does not change it, and an operation that assigns only ignored
    attributes does not change the observation. *)

Definition ignores {T V : Type} (set : State -> V -> State) (P : State -> T)
    : Prop :=
  forall st v, P (set st v) = P st.

(** Once stage 1 is reached with a pool of [pool] raindrops, the pool never
    grows again, and while the stage is still 1 the rainy settings stand. *)
Definition settled (pool : nat) (st : State) : Prop :=
  (1 <= theme_stage st)%nat /\
  (List.length (raindrops st) <= pool)%nat /\
  (theme_stage st = 1%nat ->
   theme st = Rainy /\ theme_spawn_boost st = 1.25%float /\
   theme_enemy_speed_boost st = 1.15%float /\
   List.length (raindrops st) = pool).

(** A text that does not start with whitespace. *)
Definition no_lead (s : string) : Prop :=
  match s with
  | String c _ => PyStr.is_space c = false
  | EmptyString => True
  end.

(** *** Kill sequences

    The combo is moved by two things: a hit, which is one turn of the loop
    over the bullets with a bullet that overlaps the enemy, and the check of
    the combo window at the end of a frame. *)
Inductive ComboStep :=
| Kill (e b : Sprite)
| Tick (dt : float).

Definition combo_step (sin cos : float -> float) (st : State) (s : ComboStep)
    : State :=
  match s with
  | Kill e b => hit_bullet sin cos e st b
  | Tick dt => combo_phase dt st
  end.

Definition combo_run (sin cos : float -> float) (steps : list ComboStep)
    (st : State) : State :=
  fold_left (combo_step sin cos) steps st.

Definition is_kill (s : ComboStep) : bool :=
  match s with Kill _ _ => true | Tick _ => false end.

Definition kills (steps : list ComboStep) : nat :=
  List.length (filter is_kill steps).

(** Every kill of the sequence is a hit: its bullet overlaps its enemy. *)
Definition real_kills (steps : list ComboStep) : bool :=
  forallb (fun s => match s with
                    | Kill e b => intersects e b
                    | Tick _ => true
                    end) steps.

(** The kills land within the combo window: no check of the window finds
    the timer run out while a combo is on. *)
Fixpoint within_window (sin cos : float -> float) (steps : list ComboStep)
    (st : State) : bool :=
  match steps with
  | [] => true
  | s :: r =>
      match s with
      | Kill _ _ => true
      | Tick dt =>
          (combo st =? 0) || negb (combo_timer st - dt <=? fl 0)%float
      end
      && within_window sin cos r (combo_step sin cos st s)
  end.

(** Five kills, with frames of 0.05 s between them. *)
Definition five_kills : list ComboStep :=
  let e := box 10 200 300 52 36 in
  let b := box 11 210 310 8 8 in
  [Kill e b; Tick 0.05; Tick 0.05; Kill e b; Tick 0.05; Kill e b;
   Tick 0.05; Tick 0.05; Tick 0.05; Kill e b]%float.

(** What a hit writes before the particles and the shake: the two removals,
    the combo, its timer and the score (lines 753-766). *)
Definition kill_credit (e b : Sprite) (st : State) : State :=
  let st := set_enemies st (list_remove (sid e) (enemies st)) in
  let st := set_bullets st (list_remove (sid b) (bullets st)) in
  let st := set_combo st (combo st + 1) in
  let st := set_combo_timer st 3.0%float in
  set_score st (score st + kill_points (combo st)).

(** *** Two bullets on one enemy

    A game is left alone until the first enemy, a crocodile, has come in;
    the player pauses, presses the fire key twice, 0.3 s apart, and resumes:
    the two bullets leave from the same place and reach the crocodile in
    the same frame. *)
Fixpoint ticks (n : nat) (t0 : float) : list Event :=
  match n with
  | O => []
  | S k => Timer (t0 + 0.05)%float :: ticks k (t0 + 0.05)%float
  end.

Definition two_bullets_fired : State :=
  run sin_taylor cos_taylor
    (ticks 25 1000.0%float
     ++ [KeyDown 1001.26 KEY_P; KeyDown 1001.3 KEY_Z; KeyDown 1001.6 KEY_Z;
         KeyDown 1001.62 KEY_P]%float)
    fresh_game.

(** The state at the start of the frame in which the bullets arrive. *)
Definition before_double_hit : State :=
  run sin_taylor cos_taylor (ticks 13 1001.62%float) two_bullets_fired.

Definition after_double_hit : State :=
  on_timer sin_taylor cos_taylor 1002.32%float before_double_hit.

(** The same frame, stopped where the loop over the enemies starts. *)
Definition at_enemy_loop : State :=
  theme_phase
    (before_theme (clamp_dt (1002.32 - last_time before_double_hit))
       (set_dt (set_last_time before_double_hit 1002.32)
          (clamp_dt (1002.32 - last_time before_double_hit))))%float.

(** The points of [k] hits in a row on top of a combo of [c]. *)
Fixpoint combo_points (c : Z) (k : nat) : Z :=
  match k with
  | O => 0
  | S k' => kill_points (c + 1) + combo_points (c + 1) k'
  end.

(** The crocodile and the two bullets of that frame. *)
Definition croc : Sprite := nth 0 (enemies at_enemy_loop) (box 0 0 0 0 0).
Definition shot1 : Sprite := nth 0 (bullets at_enemy_loop) (box 0 0 0 0 0).
Definition shot2 : Sprite := nth 1 (bullets at_enemy_loop) (box 0 0 0 0 0).

(** *** Vocabulary of the further properties *)

(** The active player stands between the top of the window and the ground
    line at [WINDOW_H - 60]. *)
Definition in_playfield (p : Sprite) : bool :=
  negb (y p <? fl 0)%float && negb (Py.gtb (y p + fl (h p)) (fl (WINDOW_H - 60)))%float.

(** The heights the two characters are created with. *)
Definition character_height (p : Sprite) : Prop := h p = 24 \/ h p = 20.

(** A game in which the bird has been flapping up for a while. *)
Definition bird_at_ceiling : State :=
  set_bird fresh_game (set_vy (set_y (bird fresh_game) 2%float) (-320)%float).

(** The actions of [on_key_down], one per branch of its [if] chain. *)
Inductive KeyAction :=
| AFlap | APause | AReset | AFire | AToggle | ASpecial | ADifficulty | AExit
| ANone.

Definition key_action (key : Z) : KeyAction :=
  if key =? WXK_SPACE then AFlap
  else if key_in key (ord "P") (ord "p") then APause
  else if key_in key (ord "R") (ord "r") then AReset
  else if key_in key WXK_CONTROL (ord "Z") then AFire
  else if key_in key (ord "C") (ord "c") then AToggle
  else if key_in key (ord "X") (ord "x") then ASpecial
  else if key_in key (ord "D") (ord "d") then ADifficulty
  else if key =? WXK_ESCAPE then AExit
  else ANone.

Definition flap (st : State) : State :=
  put_player st (set_vy (get_player st) (flap_strength st)).

Definition toggle_pause (st : State) : State :=
  set_paused st (negb (paused st)).

Definition cycle_difficulty (st : State) : State :=
  let st := set_difficulty_index st
              (Nat.modulo (difficulty_index st + 1)
                          (List.length difficulty_presets)) in
  set_difficulty st (mult (preset_at (difficulty_index st))).

Definition act (sin cos : float -> float) (now : float) (a : KeyAction)
    (st : State) : State :=
  match a with
  | AFlap => flap st
  | APause => toggle_pause st
  | AReset => reset st
  | AFire => try_shoot sin cos now st
  | AToggle => toggle_character st
  | ASpecial => try_special_attack sin cos now st
  | ADifficulty => cycle_difficulty st
  | AExit => set_exited st true
  | ANone => st
  end.

(** An event that restarts the session: the R key going down. *)
Definition is_restart (ev : Event) : bool :=
  match ev with
  | KeyDown _ key =>
      match key_action key with AReset => true | _ => false end
  | _ => false
  end.

(** The objects of the two lists are distinct and were all created before
    the next identity to be given out. *)
Definition distinct_objects (st : State) : Prop :=
  NoDup (map sid (bullets st)) /\ NoDup (map sid (enemies st)) /\
  (forall i, In i (map sid (bullets st)) -> (i < next_id st)%nat) /\
  (forall i, In i (map sid (enemies st)) -> (i < next_id st)%nat).

(** What stays frozen while the session is over. *)
Definition frozen (st : State) : bool * Z * Z * list Sprite * Z :=
  (running st, score st, combo st, enemies st, high_score st).

(** A finished game in which keys are pressed and the timer keeps ticking. *)
Definition game_over_events : list Event :=
  [Timer 1000.05; KeyDown 1000.1 KEY_Z; KeyDown 1000.2 KEY_C;
   Timer 1000.25; KeyDown 1000.3 WXK_SPACE; Timer 1000.35]%float.

Definition after_game_over : State :=
  run sin_taylor cos_taylor game_over_events over_game.

(** *** The bullet loop, bullet by bullet *)

(** What the loop writes into a bullet: its move and, for venom, its age. *)
Definition move_bullet (dt : float) (b : Sprite) : Sprite :=
  let b := Sprite_update b dt in
  if is_venom (bullet_type b)
  then set_age b (getattr (age b) (fl 0) + dt)%float
  else b.

(** A moved bullet that the loop removes: a venom pellet that has reached
    its lifetime, or any bullet beyond the right edge. *)
Definition bullet_gone (b : Sprite) : bool :=
  (is_venom (bullet_type b)
   && Py.geb (getattr (age b) (fl 0)) (getattr (lifetime b) 3.0%float))
  || Py.gtb (x b) (fl WINDOW_W).

(** The list the body of the loop leaves for the bullet [b]. *)
Definition bullets_after (dt : float) (b : Sprite) (l : list Sprite)
    : list Sprite :=
  let b := Sprite_update b dt in
  let l := list_store b l in
  if is_venom (bullet_type b) then
    let b := set_age b (getattr (age b) (fl 0) + dt)%float in
    let l := list_store b l in
    if Py.geb (getattr (age b) (fl 0)) (getattr (lifetime b) 3.0%float)
    then list_remove (sid b) l
    else if Py.gtb (x b) (fl WINDOW_W) then list_remove (sid b) l else l
  else if Py.gtb (x b) (fl WINDOW_W) then list_remove (sid b) l else l.

(** The objects a session holds in its two lists, and the next identity. *)
Definition objects (st : State) : list Sprite * list Sprite * nat :=
  (bullets st, enemies st, next_id st).

(** *** The high score and its file *)

(** The three attributes a restart reads or writes for the high score:
    the value shown, the text of [highscore.txt] and whether the file can
    be written. *)
Definition high_score_view (st : State) : Z * option string * bool :=
  (high_score st, highscore_txt st, fs_writable st).

(** The file agrees with the high score of a session started with the
    file [file]: a writable file holds a text that loads as the high
    score, a file that cannot be written still holds what it held. *)
Definition high_score_on_file (file : option string) (writable : bool)
    (st : State) : Prop :=
  fs_writable st = writable /\
  if writable then load_high_score st = high_score st
  else highscore_txt st = file.

(** * Properties *)

(** ** Order of binary64 numbers *)

Module FloatOrder.

Lemma SFcompare_antisym (f1 f2 : spec_float) :
  SFcompare f2 f1 = option_map CompOpp (SFcompare f1 f2).
Proof.
  destruct f1 as [s1|s1| |s1 m1 e1], f2 as [s2|s2| |s2 m2 e2]; simpl;
    try reflexivity;
    try (destruct s1; reflexivity);
    try (destruct s2; reflexivity);
    try (destruct s1, s2; reflexivity).
  change (Pos.compare_cont Eq m1 m2) with (Pos.compare m1 m2).
  change (Pos.compare_cont Eq m2 m1) with (Pos.compare m2 m1).
  rewrite (Z.compare_antisym e1 e2), (Pos.compare_antisym m1 m2).
  destruct s1, s2; simpl; try reflexivity;
    destruct (e1 ?= e2); simpl; try reflexivity;
    destruct (m1 ?= m2)%positive; reflexivity.
Qed.

Lemma SFleb_trans (a b c : spec_float) :
  SFleb a b = true -> SFleb b c = true -> SFleb a c = true.
Proof.
  unfold SFleb.
  destruct a as [s1|s1| |s1 m1 e1], b as [s2|s2| |s2 m2 e2],
           c as [s3|s3| |s3 m3 e3]; simpl;
    try discriminate; try reflexivity;
    try (destruct s1; simpl; try discriminate; try reflexivity);
    try (destruct s2; simpl; try discriminate; try reflexivity);
    try (destruct s3; simpl; try discriminate; try reflexivity).
  all: change (Pos.compare_cont Eq) with Pos.compare.
  all: destruct (Z.compare_spec e1 e2), (Z.compare_spec e2 e3),
         (Z.compare_spec e1 e3); simpl; try discriminate; try reflexivity;
       try lia; subst.
  all: destruct (Pos.compare_spec m1 m2), (Pos.compare_spec m2 m3),
         (Pos.compare_spec m1 m3); simpl; try discriminate; try reflexivity;
       try lia.
Qed.

Local Open Scope float_scope.

(** [a <= b] excludes [b < a]. *)
Lemma leb_not_gt (a b : float) : (a <=? b) = true -> (b <? a) = false.
Proof.
  rewrite leb_spec, ltb_spec. unfold SFleb, SFltb.
  rewrite (SFcompare_antisym (Prim2SF a) (Prim2SF b)).
  destruct (SFcompare (Prim2SF a) (Prim2SF b)) as [[]|]; simpl;
    intros; try discriminate; reflexivity.
Qed.

(** [a == b] gives [a <= b]. *)
Lemma eqb_leb (a b : float) : (a =? b) = true -> (a <=? b) = true.
Proof.
  rewrite eqb_spec, leb_spec. unfold SFeqb, SFleb.
  destruct (SFcompare (Prim2SF a) (Prim2SF b)) as [[]|];
    intros; try discriminate; reflexivity.
Qed.

(** [a == b] excludes [a < b]. *)
Lemma eqb_not_lt (a b : float) : (a =? b) = true -> (a <? b) = false.
Proof.
  rewrite eqb_spec, ltb_spec. unfold SFeqb, SFltb.
  destruct (SFcompare (Prim2SF a) (Prim2SF b)) as [[]|];
    intros; try discriminate; reflexivity.
Qed.

Lemma leb_trans (a b c : float) :
  (a <=? b) = true -> (b <=? c) = true -> (a <=? c) = true.
Proof. rewrite !leb_spec. apply SFleb_trans. Qed.

(** A chain [a <= b == c <= d] excludes [d < a]. *)
Lemma chain_not_gt (a b c d : float) :
  (a <=? b) = true -> (b =? c) = true -> (c <=? d) = true -> (d <? a) = false.
Proof.
  intros H1 H2 H3. apply leb_not_gt.
  eapply leb_trans; [exact H1|]. eapply leb_trans; [|exact H3].
  now apply eqb_leb.
Qed.

End FloatOrder.

(** ** Sprite.intersects *)

(** [intersects] says no exactly when a strict comparison finds a gap. *)
Lemma intersects_separated (s o : Sprite) :
  intersects s o = negb (separated_x s o || separated_y s o).
Proof.
  unfold intersects, separated_x, separated_y, right_edge, bottom_edge, Py.gtb.
  now rewrite <- !orb_assoc.
Qed.

(** C7: two boxes that exactly touch (an edge of one equals the facing edge
    of the other, with no gap) intersect, and [intersects] answers false
    only when the boxes are strictly separated on the horizontal or on the
    vertical axis. *)
Theorem intersects_boundary_inclusive (s o : Sprite) :
  (touching s o = true -> intersects s o = true) /\
  (intersects s o = false <-> separated_x s o = true \/ separated_y s o = true).
Proof.
  split.
  - unfold touching, box_ok, meets_x, meets_y. intros T.
    apply andb_prop in T as [B T]. apply andb_prop in B as [Bs Bo].
    apply andb_prop in Bs as [Bsx Bsy]. apply andb_prop in Bo as [Box Boy].
    rewrite intersects_separated. unfold separated_x, separated_y.
    apply orb_prop in T as [T | T]; apply andb_prop in T as [E M];
      apply andb_prop in M as [M1 M2]; apply orb_prop in E as [E | E].
    + rewrite (FloatOrder.eqb_not_lt E).
      rewrite (FloatOrder.chain_not_gt Bsx E Box).
      rewrite (FloatOrder.leb_not_gt M1), (FloatOrder.leb_not_gt M2).
      reflexivity.
    + rewrite (FloatOrder.eqb_not_lt E).
      rewrite (FloatOrder.chain_not_gt Box E Bsx).
      rewrite (FloatOrder.leb_not_gt M1), (FloatOrder.leb_not_gt M2).
      reflexivity.
    + rewrite (FloatOrder.eqb_not_lt E).
      rewrite (FloatOrder.chain_not_gt Bsy E Boy).
      rewrite (FloatOrder.leb_not_gt M1), (FloatOrder.leb_not_gt M2).
      reflexivity.
    + rewrite (FloatOrder.eqb_not_lt E).
      rewrite (FloatOrder.chain_not_gt Boy E Bsy).
      rewrite (FloatOrder.leb_not_gt M1), (FloatOrder.leb_not_gt M2).
      reflexivity.
  - rewrite intersects_separated, negb_false_iff. apply orb_true_iff.
Qed.

(** An enemy whose left edge is exactly the player's right edge. *)
Lemma intersects_boundary_inclusive_witness :
  touching (box 0 60 320 34 24) (box 1 94 330 48 30) = true /\
  intersects (box 0 60 320 34 24) (box 1 94 330 48 30) = true.
Proof.
  split; [reflexivity |].
  apply (proj1 (intersects_boundary_inclusive
                  (box 0 60 320 34 24) (box 1 94 330 48 30))).
  reflexivity.
Defined.

(** ** Frames of a paused or finished session *)

(** C5: a frame processed while the session is paused or over changes
    nothing but the clock ([last_time] and [dt]): the players, the bullets,
    the enemies, the particles, the decoration and the score are what they
    were, the spawn timer has not advanced and no random draw was made. *)
Theorem on_timer_idle (sin cos : float -> float) (now : float) (st : State) :
  running st = false \/ paused st = true ->
  let st' := on_timer sin cos now st in
  st' = set_dt (set_last_time st now) (clamp_dt (now - last_time st)) /\
  bird st' = bird st /\ snake st' = snake st /\
  bullets st' = bullets st /\ enemies st' = enemies st /\
  particles st' = particles st /\
  clouds st' = clouds st /\ bg_clouds st' = bg_clouds st /\
  raindrops st' = raindrops st /\
  score st' = score st /\ combo st' = combo st /\
  spawn_timer st' = spawn_timer st /\ rng_pos st' = rng_pos st.
Proof.
  intros H. unfold on_timer. cbn zeta.
  assert (E : negb (running (set_dt (set_last_time st now)
                       (clamp_dt (now - last_time st))))
              || paused (set_dt (set_last_time st now)
                       (clamp_dt (now - last_time st))) = true).
  { simpl. destruct H as [H | H]; rewrite H; [reflexivity | apply orb_true_r]. }
  rewrite E. repeat split.
Qed.

Lemma on_timer_idle_witness :
  paused paused_game = true /\
  bullets (on_timer sin_taylor cos_taylor 1000.016 paused_game)
  = bullets paused_game /\
  score (on_timer sin_taylor cos_taylor 1000.016 paused_game)
  = score paused_game /\
  bird (on_timer sin_taylor cos_taylor 1000.016 paused_game)
  = bird paused_game.
Proof.
  split; [vm_compute; reflexivity |].
  pose proof (on_timer_idle sin_taylor cos_taylor 1000.016 paused_game
                (or_intror (eq_refl true))) as H.
  cbv zeta in H.
  destruct H as (_ & Hbird & _ & Hbullets & _ & _ & _ & _ & _ & Hscore & _).
  split; [exact Hbullets | split; [exact Hscore | exact Hbird]].
Defined.

(** ** Restart *)

Lemma fl_values :
  fl 60 = SPAWN_X /\ fl (WINDOW_H / 2) = SPAWN_Y /\ fl 0 = 0%float.
Proof. repeat split; vm_compute; reflexivity. Qed.

(** C10, as the code has it: a restart empties the bullet, enemy and
    particle lists (and no other collection), zeroes score, combo, combo
    timer, the velocities of both player characters and the camera shake,
    and puts both characters back at the spawn point (60, 320); it leaves the
    theme, the theme stage, both theme boosts, the raindrops, the spawn
    timer and the selected difficulty preset as they were. *)
Theorem reset_effect (st : State) :
  let st' := reset st in
  (bullets st' = [] /\ enemies st' = [] /\ particles st' = []) /\
  (score st' = 0 /\ combo st' = 0 /\ combo_timer st' = 0%float /\
   camera_shake st' = 0%float) /\
  (x (bird st') = SPAWN_X /\ y (bird st') = SPAWN_Y /\
   vx (bird st') = 0%float /\ vy (bird st') = 0%float) /\
  (x (snake st') = SPAWN_X /\ y (snake st') = SPAWN_Y /\
   vx (snake st') = 0%float /\ vy (snake st') = 0%float) /\
  (theme st' = theme st /\ theme_stage st' = theme_stage st /\
   theme_spawn_boost st' = theme_spawn_boost st /\
   theme_enemy_speed_boost st' = theme_enemy_speed_boost st /\
   raindrops st' = raindrops st /\ spawn_timer st' = spawn_timer st /\
   difficulty_index st' = difficulty_index st) /\
  (clouds st' = clouds st /\ bg_clouds st' = bg_clouds st /\
   keys st' = keys st).
Proof.
  destruct fl_values as (F60 & F320 & F0).
  unfold reset, save_high_score. cbv zeta.
  cbn [bullets enemies particles score combo combo_timer camera_shake
       high_score fs_writable bird snake theme theme_stage theme_spawn_boost
       theme_enemy_speed_boost raindrops spawn_timer difficulty_index clouds
       bg_clouds keys set_bullets set_enemies set_particles set_high_score].
  destruct (score st >? high_score st); [destruct (fs_writable st) |];
    cbn; rewrite ?F60, ?F320, ?F0; repeat split.
Qed.

(** The restart of C10 does not zero the positions: after it the bird is at
    x = 60, y = 320, which are not 0. *)
Lemma reset_position_counterexample :
  x (bird (reset over_game)) = 60%float /\
  y (bird (reset over_game)) = 320%float /\
  (x (bird (reset over_game)) =? 0)%float = false /\
  (y (bird (reset over_game)) =? 0)%float = false.
Proof. vm_compute. repeat split. Qed.

(** ** Weapons *)

Section Weapons.

Variable sin cos : float -> float.

(** A loop whose every turn appends one projectile of a kind [P] appends
    as many projectiles of that kind as it has turns. *)
Lemma fold_appends (A : Type) (f : State -> A -> State) (P : Sprite -> bool) :
  (forall st a, exists b, bullets (f st a) = bullets st ++ [b] /\ P b = true) ->
  forall l st, exists new,
    bullets (fold_left f l st) = bullets st ++ new /\
    List.length new = List.length l /\ forallb P new = true.
Proof.
  intros step l. induction l as [| a l IH]; intros st; simpl.
  - exists []. now rewrite app_nil_r.
  - destruct (step st a) as (b & Hb & Pb).
    destruct (IH (f st a)) as (new & Hnew & Hlen & Hall).
    exists (b :: new). rewrite Hnew, Hb, <- app_assoc. simpl.
    rewrite Hlen, Pb, Hall. auto.
Qed.

(** What one primary shot appends. *)
Lemma shoot_appends (st : State) :
  exists new,
    bullets (shoot sin cos st) = bullets st ++ new /\
    List.length new = volley (current_character st) /\
    forallb is_primary new = true.
Proof.
  unfold shoot, play_sound. destruct (current_character st); simpl volley.
  - unfold shoot_bird. simpl. eexists. split; [reflexivity |]. split; reflexivity.
  - unfold shoot_snake. apply fold_appends with (P := is_primary).
    intros st0 a. unfold shoot_snake_pellet. simpl.
    eexists. split; reflexivity.
Qed.

(** What one special attack appends. *)
Lemma special_attack_appends (st : State) :
  exists new,
    bullets (special_attack sin cos st) = bullets st ++ new /\
    List.length new = special_volley (current_character st) /\
    forallb is_special new = true.
Proof.
  unfold special_attack, play_sound, trigger_shake.
  cbn [bullets set_camera_shake].
  destruct (current_character st); simpl special_volley.
  - unfold special_bird_attack. apply fold_appends with (P := is_special).
    intros st0 a. unfold special_bird_bullet. simpl.
    eexists. split; reflexivity.
  - unfold special_snake_attack. apply fold_appends with (P := is_special).
    intros st0 a. unfold special_snake_pellet. simpl.
    eexists. split; reflexivity.
Qed.

(** [try_shoot] fires exactly when both of its gates are open. *)
Lemma try_shoot_fires (now : float) (st : State) :
  shoot_cooled now st = true -> below_cap st = true ->
  try_shoot sin cos now st = set_last_shot (shoot sin cos st) now.
Proof.
  unfold shoot_cooled, below_cap, try_shoot. intros C B.
  apply negb_true_iff in C. apply negb_true_iff in B. now rewrite C, B.
Qed.

Lemma try_shoot_blocked (now : float) (st : State) :
  shoot_cooled now st = false \/ below_cap st = false ->
  try_shoot sin cos now st = st.
Proof.
  unfold shoot_cooled, below_cap, try_shoot. intros [C | B].
  - apply negb_false_iff in C. now rewrite C.
  - apply negb_false_iff in B. rewrite B. now destruct (_ <? _)%float.
Qed.

(** [try_special_attack] has one gate: its own cooldown. *)
Lemma try_special_attack_fires (now : float) (st : State) :
  special_cooled now st = true ->
  try_special_attack sin cos now st
  = set_last_special (special_attack sin cos st) now.
Proof.
  unfold special_cooled, try_special_attack. intros C.
  apply negb_true_iff in C. now rewrite C.
Qed.

(** The dispatch of [on_key_down] on the keys of the claims. *)
Lemma on_key_down_fire (now : float) (key : Z) (st : State) :
  key_in key WXK_CONTROL KEY_Z = true ->
  on_key_down sin cos now key st
  = try_shoot sin cos now (set_keys st (set_add key (keys st))).
Proof.
  unfold key_in. intros H. apply orb_prop in H.
  destruct H as [H | H]; apply Z.eqb_eq in H; subst key; reflexivity.
Qed.

Lemma on_key_down_special (now : float) (key : Z) (st : State) :
  key_in key KEY_X (ord "x") = true ->
  on_key_down sin cos now key st
  = try_special_attack sin cos now (set_keys st (set_add key (keys st))).
Proof.
  unfold key_in. intros H. apply orb_prop in H.
  destruct H as [H | H]; apply Z.eqb_eq in H; subst key; reflexivity.
Qed.

Lemma on_key_down_flap (now : float) (st : State) :
  on_key_down sin cos now WXK_SPACE st
  = put_player (set_keys st (set_add WXK_SPACE (keys st)))
      (set_vy (get_player st) (flap_strength st)).
Proof. reflexivity. Qed.

End Weapons.

(** ** Key events *)

(** C9: the one-shot actions of a key event do not look at the session
    state.  In every state, so also while the session is paused or over, a
    fire key whose cooldown is over and whose cap is not reached appends the
    shot of the active character to the shared bullet list, a special-attack
    key whose cooldown is over appends the special volley, and the flap key
    sets the vertical velocity of the active player to the flap impulse. *)
Theorem key_events_unconditional (sin cos : float -> float) (now : float)
    (st : State) :
  (forall key, key_in key WXK_CONTROL KEY_Z = true ->
     shoot_cooled now st = true -> below_cap st = true ->
     exists new,
       bullets (on_key_down sin cos now key st) = bullets st ++ new /\
       List.length new = volley (current_character st)) /\
  (forall key, key_in key KEY_X (ord "x") = true ->
     special_cooled now st = true ->
     exists new,
       bullets (on_key_down sin cos now key st) = bullets st ++ new /\
       List.length new = special_volley (current_character st)) /\
  vy (get_player (on_key_down sin cos now WXK_SPACE st)) = flap_strength st.
Proof.
  split; [| split].
  - intros key K C B. rewrite (on_key_down_fire sin cos now key st K).
    rewrite try_shoot_fires by assumption. cbn [bullets set_last_shot].
    destruct (shoot_appends sin cos (set_keys st (set_add key (keys st))))
      as (new & Hnew & Hlen & _).
    exists new. split; [exact Hnew | exact Hlen].
  - intros key K C. rewrite (on_key_down_special sin cos now key st K).
    rewrite try_special_attack_fires by assumption.
    cbn [bullets set_last_special].
    destruct (special_attack_appends sin cos
                (set_keys st (set_add key (keys st))))
      as (new & Hnew & Hlen & _).
    exists new. split; [exact Hnew | exact Hlen].
  - rewrite on_key_down_flap. unfold get_player, put_player.
    change (player (set_keys st (set_add WXK_SPACE (keys st))))
      with (player st).
    destruct (player st) eqn:E; simpl; rewrite E; reflexivity.
Qed.

(** In the paused game the fire key still adds a bullet and the flap key
    still sets the impulse. *)
Lemma key_events_unconditional_witness :
  idle paused_game = true /\
  (exists new,
     bullets (on_key_down sin_taylor cos_taylor 1000.5 KEY_Z paused_game)
     = bullets paused_game ++ new /\
     List.length new = volley (current_character paused_game)) /\
  vy (get_player (on_key_down sin_taylor cos_taylor 1000.5 WXK_SPACE
                    paused_game))
  = flap_strength paused_game.
Proof.
  split; [vm_compute; reflexivity |].
  pose proof (key_events_unconditional sin_taylor cos_taylor 1000.5
                paused_game) as (Hfire & _ & Hflap).
  split; [| exact Hflap].
  apply Hfire; vm_compute; reflexivity.
Defined.

(** ** The cap on bullets in flight *)

(** The gate of [try_shoot] looks at the length of the shared list: with
    [MAX_BULLETS] or more entries of any kind the attempt changes nothing. *)
Lemma try_shoot_at_cap (sin cos : float -> float) (now : float) (st : State) :
  MAX_BULLETS <= Z.of_nat (List.length (bullets st)) ->
  try_shoot sin cos now st = st.
Proof.
  intros H. apply try_shoot_blocked. right. unfold below_cap.
  apply negb_false_iff. apply Z.geb_le. exact H.
Qed.

(** In particular an attempt made with four primary projectiles in flight
    appends nothing, for the bird and for the snake. *)
Lemma try_shoot_four_primary (sin cos : float -> float) (now : float)
    (st : State) :
  count_primary st = 4%nat -> try_shoot sin cos now st = st.
Proof.
  intros H. apply try_shoot_at_cap. unfold count_primary in H.
  pose proof (filter_length_le is_primary (bullets st)) as L.
  unfold MAX_BULLETS. lia.
Qed.

(** C2, on the code: the gate is passed with three pellets in flight and the
    snake's shot then adds three more, so six primary projectiles fly at
    once.  Here the snake fires at t = 1000.0 and again at t = 1000.3. *)
Theorem snake_volley_exceeds_cap :
  count_primary snake_before_second_volley = 3%nat /\
  List.length (bullets snake_before_second_volley) = 3%nat /\
  count_primary snake_second_volley = 6%nat /\
  List.length (bullets snake_second_volley) = 6%nat /\
  running snake_second_volley = true.
Proof. vm_compute. repeat split. Qed.

(** C3 as stated fails: after the bird's special attack no primary
    projectile is in flight and the fire cooldown is over, yet the five
    special projectiles fill the cap and the fire key adds nothing. *)
Lemma special_bullets_fill_cap :
  count_primary bird_after_special = 0%nat /\
  List.length (filter is_special (bullets bird_after_special)) = 5%nat /\
  shoot_cooled 1000.1 bird_after_special = true /\
  bullets bird_fire_after_special = bullets bird_after_special.
Proof. vm_compute. repeat split. Qed.

(** C3, as the code has it: a special attack whose cooldown is over
    succeeds however many projectiles are in flight, and the cap of primary
    fire counts every entry of the shared bullet list, special projectiles
    included: with four or more entries a primary shot is refused, with
    fewer (and the cooldown over) it is fired. *)
Theorem cap_counts_every_bullet (sin cos : float -> float) (now : float)
    (st : State) :
  (special_cooled now st = true ->
   exists new,
     bullets (try_special_attack sin cos now st) = bullets st ++ new /\
     List.length new = special_volley (current_character st) /\
     forallb is_special new = true) /\
  (MAX_BULLETS <= Z.of_nat (List.length (bullets st)) ->
   try_shoot sin cos now st = st) /\
  (Z.of_nat (List.length (bullets st)) < MAX_BULLETS ->
   shoot_cooled now st = true ->
   exists new,
     bullets (try_shoot sin cos now st) = bullets st ++ new /\
     List.length new = volley (current_character st) /\
     forallb is_primary new = true).
Proof.
  split; [| split].
  - intros C. rewrite try_special_attack_fires by assumption.
    cbn [bullets set_last_special]. apply special_attack_appends.
  - apply try_shoot_at_cap.
  - intros L C. rewrite try_shoot_fires; [| assumption |].
    + cbn [bullets set_last_shot]. apply shoot_appends.
    + unfold below_cap. apply negb_true_iff.
      destruct (Z.geb_spec (Z.of_nat (List.length (bullets st))) MAX_BULLETS);
        [lia | reflexivity].
Qed.

(** With the five special projectiles of the bird in flight, primary fire
    is refused and a special attack (cooldown over) would still go off. *)
Lemma cap_counts_every_bullet_witness :
  (MAX_BULLETS <= Z.of_nat (List.length (bullets bird_after_special))) /\
  try_shoot sin_taylor cos_taylor 1000.1 bird_after_special
  = bird_after_special /\
  (special_cooled 1003.5 bird_after_special = true) /\
  (exists new,
     bullets (try_special_attack sin_taylor cos_taylor 1003.5
                bird_after_special)
     = bullets bird_after_special ++ new /\
     List.length new = special_volley (current_character bird_after_special) /\
     forallb is_special new = true).
Proof.
  pose proof (cap_counts_every_bullet sin_taylor cos_taylor 1000.1
                bird_after_special) as (_ & Hcap & _).
  pose proof (cap_counts_every_bullet sin_taylor cos_taylor 1003.5
                bird_after_special) as (Hspecial & _ & _).
  assert (L : MAX_BULLETS <= Z.of_nat (List.length (bullets bird_after_special)))
    by (vm_compute; discriminate).
  assert (C : special_cooled 1003.5 bird_after_special = true)
    by (vm_compute; reflexivity).
  split; [exact L |]. split; [exact (Hcap L) |].
  split; [exact C | exact (Hspecial C)].
Defined.

(** ** Loading the high score *)

Module PyStrFacts.

Import PyStr.

Lemma lstrip_no_lead (s : string) : no_lead (lstrip s).
Proof.
  induction s as [| c r IH]; simpl; [exact I |].
  destruct (is_space c) eqn:E; [exact IH | exact E].
Qed.

Lemma lstrip_fixed (s : string) : no_lead s -> lstrip s = s.
Proof. destruct s as [| c r]; simpl; [reflexivity |]. now intros ->. Qed.

Lemma rstrip_no_lead (s : string) : no_lead s -> no_lead (rstrip s).
Proof.
  destruct s as [| c r]; simpl; [exact (fun H => H) |]. intros H.
  destruct (rstrip r); simpl; [rewrite H; simpl |]; exact H.
Qed.

Lemma rstrip_idempotent (s : string) : rstrip (rstrip s) = rstrip s.
Proof.
  induction s as [| c r IH]; simpl; [reflexivity |].
  destruct (rstrip r) as [| c' r'] eqn:E.
  - destruct (is_space c) eqn:S; simpl; [reflexivity | now rewrite S].
  - change (rstrip (String c (String c' r')))
      with (match rstrip (String c' r') with
            | EmptyString =>
                if is_space c then EmptyString else String c EmptyString
            | r'' => String c r''
            end).
    now rewrite IH.
Qed.

Lemma strip_idempotent (s : string) : strip (strip s) = strip s.
Proof.
  unfold strip.
  rewrite lstrip_fixed by (apply rstrip_no_lead, lstrip_no_lead).
  apply rstrip_idempotent.
Qed.

(** [int] strips by itself: stripping first changes nothing. *)
Lemma int_strip (s : string) : int (strip s) = int s.
Proof. unfold int. now rewrite strip_idempotent. Qed.

Lemma digit_val_nonneg (c : ascii) : is_digit c = true -> 0 <= digit_val c.
Proof.
  unfold is_digit, digit_val. intros D. apply andb_prop in D as [D _].
  apply Nat.leb_le in D. lia.
Qed.

(** Digits without a sign never read as a negative number. *)
Lemma digits_nonneg (s : string) :
  forall acc prev n, 0 <= acc -> digits acc prev s = Some n -> 0 <= n.
Proof.
  induction s as [| c r IH]; cbn [digits]; intros acc prev n Hacc H.
  - destruct prev; [injection H as <-; exact Hacc | discriminate].
  - destruct (is_digit c) eqn:D.
    + pose proof (digit_val_nonneg c D) as V.
      apply (IH (10 * acc + digit_val c) true n); [lia | exact H].
    + destruct (Ascii.eqb c "_"); [| discriminate].
      destruct prev; [| discriminate]. exact (IH _ _ _ Hacc H).
Qed.

(** A negative result needs a minus sign in front of the stripped text. *)
Lemma int_negative (s : string) (n : Z) :
  int s = Some n -> n < 0 -> exists rest, strip s = String "-" rest.
Proof.
  unfold int. intros H Hn.
  destruct (strip s) as [| c r] eqn:E.
  - simpl in H. discriminate.
  - destruct (Ascii.eqb_spec c "-") as [-> | Hm]; [now exists r |].
    exfalso.
    assert (D : digits 0 false r = Some n \/
                digits 0 false (String c r) = Some n).
    { destruct c as [[] [] [] [] [] [] [] []]; cbn in H; auto;
        exfalso; apply Hm; reflexivity. }
    destruct D as [D | D]; apply digits_nonneg in D; lia.
Qed.

End PyStrFacts.




(** ** Footprints *)

Ltac ignored := intros ? ?; reflexivity.

Ltac frame_rewrite :=
  match goal with
  | H : forall st v, ?P (_ st v) = ?P st |- _ => rewrite H
  end.

Ltac frame_case :=
  match goal with
  | |- context [if ?c then _ else _] => destruct c
  | |- context [match player ?s with _ => _ end] => destruct (player s)
  | |- context [match current_character ?s with _ => _ end] =>
      destruct (current_character s)
  | |- context [match theme ?s with _ => _ end] => destruct (theme s)
  end.

Ltac frame := unfold ignores in *; intros;
  repeat first [frame_rewrite | frame_case]; try reflexivity.

Section Footprints.

Variable sin cos : float -> float.
Variable T : Type.
Variable P : State -> T.

Lemma fold_frame (A : Type) (f : State -> A -> State) :
  (forall st a, P (f st a) = P st) ->
  forall l st, P (fold_left f l st) = P st.
Proof.
  intros H l. induction l as [| a l IH]; intros st; simpl; [reflexivity |].
  now rewrite IH, H.
Qed.

Lemma for_each_frame (A : Type) (f : A -> M A) :
  (forall a st, P (snd (f a st)) = P st) ->
  forall l st, P (snd (for_each f l st)) = P st.
Proof.
  intros H l. induction l as [| a l IH]; intros st; [reflexivity |].
  cbn [for_each]. unfold bind, ret.
  specialize (H a st). destruct (f a st) as [a' st1]. cbn [snd] in H.
  specialize (IH st1). destruct (for_each f l st1) as [r' st2].
  cbn [snd] in *. now rewrite IH, H.
Qed.

Lemma random_randint_frame (a b : Z) (st : State) :
  ignores set_rng_pos P -> P (snd (random_randint a b st)) = P st.
Proof. unfold random_randint, bind, random_random, ret. cbn [snd]. frame. Qed.

Lemma random_uniform_frame (a b : float) (st : State) :
  ignores set_rng_pos P -> P (snd (random_uniform a b st)) = P st.
Proof. unfold random_uniform, bind, random_random, ret. cbn [snd]. frame. Qed.

(** [player_physics] writes the two characters. *)
Lemma player_physics_frame (dt : float) (st : State) :
  ignores set_bird P -> ignores set_snake P ->
  P (player_physics dt st) = P st.
Proof. unfold player_physics, put_player. cbv zeta. frame. Qed.

(** The bullet loop writes the bullet list. *)
Lemma update_bullets_frame (dt : float) (st : State) :
  ignores set_bullets P -> P (update_bullets dt st) = P st.
Proof.
  intros H. unfold update_bullets. apply fold_frame.
  intros st0 b. unfold update_bullet. cbv zeta. frame.
Qed.

(** [spawn_enemy] draws, creates an object and appends an enemy. *)
Lemma spawn_enemy_frame (st : State) :
  ignores set_rng_pos P -> ignores set_next_id P -> ignores set_enemies P ->
  P (snd (spawn_enemy st)) = P st.
Proof.
  cbv beta iota zeta delta [spawn_enemy bind random_randint random_uniform
    random_random fresh ret snd fst].
  frame.
Qed.

Lemma spawn_phase_frame (dt : float) (st : State) :
  ignores set_spawn_timer P -> ignores set_rng_pos P ->
  ignores set_next_id P -> ignores set_enemies P ->
  P (spawn_phase dt st) = P st.
Proof.
  intros H1 H2 H3 H4. unfold spawn_phase. cbv zeta.
  destruct (Py.gtb _ _).
  - rewrite spawn_enemy_frame by assumption. frame.
  - frame.
Qed.

Lemma difficulty_phase_frame (st : State) :
  ignores set_difficulty P -> P (difficulty_phase st) = P st.
Proof. unfold difficulty_phase. frame. Qed.

(** [spawn_particles] draws and appends particles. *)
Lemma spawn_particles_frame (x0 y0 : float) (c : Colour) (n : nat) :
  ignores set_rng_pos P -> ignores set_particles P ->
  forall st, P (spawn_particles sin cos x0 y0 c n st) = P st.
Proof.
  intros H1 H2. induction n as [| n IH]; intros st; [reflexivity |].
  cbn [spawn_particles]. rewrite IH.
  unfold spawn_particle, bind, random_uniform, bind, random_random, ret.
  cbn [snd]. frame.
Qed.

(** A hit writes the two lists, the combo, the score, the shake, and what
    [spawn_particles] writes. *)
Lemma hit_bullet_frame (e b : Sprite) (st : State) :
  ignores set_enemies P -> ignores set_bullets P -> ignores set_combo P ->
  ignores set_combo_timer P -> ignores set_score P ->
  ignores set_camera_shake P ->
  ignores set_rng_pos P -> ignores set_particles P ->
  P (hit_bullet sin cos e st b) = P st.
Proof.
  intros H1 H2 H3 H4 H5 H6 H7 H8. unfold hit_bullet, play_sound, trigger_shake.
  cbv zeta. destruct (intersects e b); [| reflexivity].
  rewrite H6, spawn_particles_frame by assumption. frame.
Qed.

Lemma update_enemy_frame (dt : float) (e : Sprite) (st : State) :
  ignores set_enemies P -> ignores set_bullets P -> ignores set_combo P ->
  ignores set_combo_timer P -> ignores set_score P ->
  ignores set_camera_shake P ->
  ignores set_rng_pos P -> ignores set_particles P -> ignores set_running P ->
  P (update_enemy sin cos dt st e) = P st.
Proof.
  intros H1 H2 H3 H4 H5 H6 H7 H8 H9.
  unfold update_enemy, play_sound, trigger_shake. cbv zeta.
  destruct (_ <? _)%float; [frame |].
  rewrite fold_frame by (intros; now apply hit_bullet_frame).
  frame.
Qed.

Lemma update_enemies_frame (dt : float) (st : State) :
  ignores set_enemies P -> ignores set_bullets P -> ignores set_combo P ->
  ignores set_combo_timer P -> ignores set_score P ->
  ignores set_camera_shake P ->
  ignores set_rng_pos P -> ignores set_particles P -> ignores set_running P ->
  P (update_enemies sin cos dt st) = P st.
Proof.
  intros. unfold update_enemies. apply fold_frame.
  intros. now apply update_enemy_frame.
Qed.

Lemma animation_phase_frame (dt : float) (st : State) :
  ignores set_bird P -> ignores set_snake P ->
  ignores set_bird_anim_timer P -> ignores set_bird_frame P ->
  ignores set_snake_anim_timer P -> ignores set_snake_frame P ->
  P (animation_phase sin dt st) = P st.
Proof.
  unfold animation_phase. cbv zeta. intros.
  destruct (current_character st).
  - destruct (_ && _); [destruct (nth _ _ _) |]; frame.
  - frame.
Qed.

Lemma update_cloud_frame (dt : float) (c : Cloud) (st : State) :
  ignores set_rng_pos P -> P (snd (update_cloud dt c st)) = P st.
Proof.
  unfold update_cloud, bind, random_randint, bind, random_random, ret.
  cbv zeta. intros. destruct (_ <? _)%float; cbn [snd]; frame.
Qed.

Lemma update_bg_cloud_frame (dt : float) (c : Cloud) (st : State) :
  ignores set_rng_pos P -> P (snd (update_bg_cloud dt c st)) = P st.
Proof.
  unfold update_bg_cloud, bind, random_randint, bind, random_random, ret.
  cbv zeta. intros. destruct (_ <? _)%float; cbn [snd]; frame.
Qed.

Lemma clouds_phase_frame (dt : float) (st : State) :
  ignores set_rng_pos P -> ignores set_clouds P -> ignores set_bg_clouds P ->
  P (clouds_phase dt st) = P st.
Proof.
  intros H1 H2 H3. unfold clouds_phase.
  pose proof (for_each_frame (update_cloud dt)
                (fun c s => update_cloud_frame dt c s H1) (clouds st) st) as E1.
  destruct (for_each (update_cloud dt) (clouds st) st) as [cs st1].
  cbn [snd] in E1.
  pose proof (for_each_frame (update_bg_cloud dt)
                (fun c s => update_bg_cloud_frame dt c s H1)
                (bg_clouds (set_clouds st1 cs)) (set_clouds st1 cs)) as E2.
  destruct (for_each (update_bg_cloud dt) (bg_clouds (set_clouds st1 cs))
              (set_clouds st1 cs)) as [bs st2].
  cbn [snd] in E2. now rewrite H3, E2, H2, E1.
Qed.

Lemma combo_phase_frame (dt : float) (st : State) :
  ignores set_combo_timer P -> ignores set_combo P ->
  P (combo_phase dt st) = P st.
Proof. unfold combo_phase. cbv zeta. frame. Qed.

Lemma particles_phase_frame (dt : float) (st : State) :
  ignores set_particles P -> P (particles_phase dt st) = P st.
Proof. unfold particles_phase. frame. Qed.

Lemma shake_phase_frame (dt : float) (st : State) :
  ignores set_camera_shake P -> P (shake_phase dt st) = P st.
Proof. unfold shake_phase. frame. Qed.

End Footprints.

(** ** Theme transitions *)

Section Themes.

Variable sin cos : float -> float.

Section KeyFootprints.

Variable T : Type.
Variable P : State -> T.

Lemma reset_frame (st : State) :
  ignores set_bullets P -> ignores set_enemies P -> ignores set_particles P ->
  ignores set_high_score P -> ignores set_highscore_txt P ->
  ignores set_score P -> ignores set_combo P -> ignores set_combo_timer P ->
  ignores set_bird P -> ignores set_snake P -> ignores set_running P ->
  ignores set_paused P -> ignores set_camera_shake P ->
  ignores set_difficulty P ->
  P (reset st) = P st.
Proof. unfold reset, save_high_score. cbv zeta. frame. Qed.

Lemma toggle_character_frame (st : State) :
  ignores set_current_character P -> ignores set_player P ->
  ignores set_bird P -> ignores set_snake P ->
  P (toggle_character st) = P st.
Proof. unfold toggle_character, put_player. cbv zeta. frame. Qed.

Lemma try_shoot_frame (now : float) (st : State) :
  ignores set_bullets P -> ignores set_next_id P -> ignores set_last_shot P ->
  P (try_shoot sin cos now st) = P st.
Proof.
  intros H1 H2 H3. unfold try_shoot, shoot, play_sound.
  destruct (_ <? _)%float; [reflexivity |].
  destruct (_ >=? _); [reflexivity |]. rewrite H3.
  destruct (current_character st).
  - unfold shoot_bird, fresh. cbv zeta. frame.
  - unfold shoot_snake. apply fold_frame. intros.
    unfold shoot_snake_pellet, fresh. cbv zeta. frame.
Qed.

Lemma try_special_attack_frame (now : float) (st : State) :
  ignores set_bullets P -> ignores set_next_id P ->
  ignores set_last_special P -> ignores set_camera_shake P ->
  P (try_special_attack sin cos now st) = P st.
Proof.
  intros H1 H2 H3 H4.
  unfold try_special_attack, special_attack, play_sound, trigger_shake.
  destruct (_ <? _)%float; [reflexivity |]. rewrite H3, H4.
  destruct (current_character st).
  - unfold special_bird_attack. apply fold_frame. intros.
    unfold special_bird_bullet, fresh. cbv zeta. frame.
  - unfold special_snake_attack. apply fold_frame. intros.
    unfold special_snake_pellet, fresh. cbv zeta. frame.
Qed.

(** Every attribute a key event can write. *)
Lemma on_key_down_frame (now : float) (key : Z) (st : State) :
  ignores set_keys P ->
  ignores set_bullets P -> ignores set_enemies P -> ignores set_particles P ->
  ignores set_high_score P -> ignores set_highscore_txt P ->
  ignores set_score P -> ignores set_combo P -> ignores set_combo_timer P ->
  ignores set_bird P -> ignores set_snake P -> ignores set_running P ->
  ignores set_paused P -> ignores set_camera_shake P ->
  ignores set_difficulty P -> ignores set_difficulty_index P ->
  ignores set_current_character P -> ignores set_player P ->
  ignores set_next_id P -> ignores set_last_shot P ->
  ignores set_last_special P -> ignores set_exited P ->
  P (on_key_down sin cos now key st) = P st.
Proof.
  intros Hk. intros. unfold on_key_down, play_sound. cbv zeta.
  rewrite <- (Hk st (set_add key (keys st))).
  destruct (key =? WXK_SPACE); [unfold put_player; frame |].
  destruct (key_in key (ord "P") (ord "p")); [frame |].
  destruct (key_in key (ord "R") (ord "r")); [now apply reset_frame |].
  destruct (key_in key WXK_CONTROL (ord "Z")); [now apply try_shoot_frame |].
  destruct (key_in key (ord "C") (ord "c"));
    [now apply toggle_character_frame |].
  destruct (key_in key (ord "X") (ord "x"));
    [now apply try_special_attack_frame |].
  destruct (key_in key (ord "D") (ord "d")); [frame |].
  destruct (key =? WXK_ESCAPE); frame.
Qed.

End KeyFootprints.

(** Only the theme check and the raindrop update touch the weather. *)
Lemma before_theme_weather (dt : float) (st : State) :
  weather (before_theme dt st) = weather st /\
  score (before_theme dt st) = score st.
Proof.
  unfold before_theme. split.
  - rewrite difficulty_phase_frame by ignored.
    rewrite spawn_phase_frame by ignored.
    rewrite update_bullets_frame by ignored.
    now rewrite player_physics_frame by ignored.
  - rewrite difficulty_phase_frame by ignored.
    rewrite spawn_phase_frame by ignored.
    rewrite update_bullets_frame by ignored.
    now rewrite player_physics_frame by ignored.
Qed.

Lemma for_each_length (A : Type) (f : A -> M A) (l : list A) :
  forall st, List.length (fst (for_each f l st)) = List.length l.
Proof.
  induction l as [| a l IH]; intros st; [reflexivity |].
  cbn [for_each]. unfold bind, ret.
  destruct (f a st) as [a' st1]. specialize (IH st1).
  destruct (for_each f l st1) as [r' st2]. cbn [fst] in *. simpl.
  now rewrite IH.
Qed.

Lemma raindrops_phase_weather (dt : float) (st : State) :
  weather (raindrops_phase dt st) = weather st.
Proof.
  unfold raindrops_phase. destruct (theme st) eqn:E; [reflexivity |].
  pose proof (for_each_length (update_raindrop dt) (raindrops st) st) as L.
  pose proof (for_each_frame (fun s => (theme s, theme_stage s,
                 theme_spawn_boost s, theme_enemy_speed_boost s))
                (update_raindrop dt)) as F.
  specialize (F (fun rd s => ltac:(
    unfold update_raindrop, bind, random_uniform, bind, random_random, ret;
    cbv zeta; destruct (Py.gtb _ _); reflexivity)) (raindrops st) st).
  destruct (for_each (update_raindrop dt) (raindrops st) st) as [rs st1].
  cbn [fst snd] in *. unfold weather. cbn [theme theme_stage theme_spawn_boost
    theme_enemy_speed_boost raindrops set_raindrops].
  injection F as F1 F2 F3 F4. now rewrite F1, F2, F3, F4, L.
Qed.

Lemma run_frame_weather (dt : float) (st : State) :
  weather (run_frame sin cos dt st)
  = weather (theme_phase (before_theme dt st)).
Proof.
  unfold run_frame. cbv zeta. fold (before_theme dt st).
  rewrite raindrops_phase_weather.
  rewrite shake_phase_frame by ignored.
  rewrite particles_phase_frame by ignored.
  rewrite combo_phase_frame by ignored.
  rewrite clouds_phase_frame by ignored.
  rewrite animation_phase_frame by ignored.
  now rewrite update_enemies_frame by ignored.
Qed.

End Themes.

(** An equation between weathers, read attribute by attribute. *)
Lemma weather_eq (st : State) (th : Theme) (sg : nat) (b eb : float) (n : nat) :
  weather st = (th, sg, b, eb, n) ->
  theme st = th /\ theme_stage st = sg /\ theme_spawn_boost st = b /\
  theme_enemy_speed_boost st = eb /\ List.length (raindrops st) = n.
Proof. unfold weather. intros H. injection H. auto. Qed.

Section RainyOnce.

Variable sin cos : float -> float.

Lemma spawn_raindrops_weather (n : nat) :
  forall st,
    weather (spawn_raindrops n st)
    = (theme st, theme_stage st, theme_spawn_boost st,
       theme_enemy_speed_boost st, (List.length (raindrops st) + n)%nat).
Proof.
  induction n as [| n IH]; intros st.
  - unfold weather. cbn [spawn_raindrops]. now rewrite Nat.add_0_r.
  - cbn [spawn_raindrops]. rewrite IH.
    cbv beta iota zeta delta [spawn_raindrop bind random_randint
      random_uniform random_random ret snd fst].
    cbn [theme theme_stage theme_spawn_boost theme_enemy_speed_boost
         raindrops set_raindrops set_rng_pos].
    rewrite length_app. cbn [List.length]. f_equal. lia.
Qed.

Lemma weather_set_theme_stage (X : State) (k : nat) :
  weather (set_theme_stage X k)
  = (theme X, k, theme_spawn_boost X, theme_enemy_speed_boost X,
     List.length (raindrops X)).
Proof. reflexivity. Qed.

(** The check when the threshold of the current stage is reached. *)
Lemma theme_phase_at (st : State) (next : Theme) (threshold : Z) :
  nth_error theme_sequence (theme_stage st) = Some (next, threshold) ->
  (score st >=? threshold) = true ->
  theme_phase st
  = match next with
    | Rainy =>
        let s := spawn_raindrops 120
                   (set_theme_enemy_speed_boost
                      (set_theme_spawn_boost (set_theme st Rainy) 1.25) 1.15) in
        set_theme_stage s (S (theme_stage s))
    | Sunny =>
        let s := set_raindrops
                   (set_theme_enemy_speed_boost
                      (set_theme_spawn_boost (set_theme st Sunny) 1.0) 1.0) [] in
        set_theme_stage s (S (theme_stage s))
    end.
Proof.
  intros N G. unfold theme_phase. rewrite N, G. destruct next; reflexivity.
Qed.

(** The check at stage 0 with the threshold reached. *)
Lemma theme_phase_rainy (st : State) :
  theme_stage st = 0%nat -> 500 <= score st ->
  weather (theme_phase st)
  = (Rainy, 1%nat, 1.25%float, 1.15%float,
     (List.length (raindrops st) + 120)%nat).
Proof.
  intros S H.
  rewrite (theme_phase_at st (next := Rainy) (threshold := 500)).
  - cbv zeta. rewrite weather_set_theme_stage.
    pose proof (spawn_raindrops_weather 120
                (set_theme_enemy_speed_boost
                   (set_theme_spawn_boost (set_theme st Rainy) 1.25) 1.15))
      as W.
    apply weather_eq in W. destruct W as (W1 & W2 & W3 & W4 & W5).
    rewrite W1, W2, W3, W4, W5.
    cbn [theme theme_stage theme_spawn_boost theme_enemy_speed_boost raindrops
       set_theme_enemy_speed_boost set_theme_spawn_boost set_theme].
    now rewrite S.
  - now rewrite S.
  - apply Z.geb_le. lia.
Qed.

(** The check at a later stage: nothing, or the step from stage 1 to the
    sunny stage, which empties the pool. *)
Lemma theme_phase_later (st : State) :
  (1 <= theme_stage st)%nat ->
  weather (theme_phase st) = weather st \/
  (theme_stage st = 1%nat /\
   weather (theme_phase st) = (Sunny, 2%nat, 1.0%float, 1.0%float, 0%nat)).
Proof.
  intros S. unfold theme_phase.
  destruct (theme_stage st) as [| [| k]] eqn:E; [lia | |].
  - cbn [nth_error theme_sequence].
    destruct (score st >=? 1500); [right | left; reflexivity].
    split; [reflexivity |]. unfold weather. cbv zeta.
    cbn [theme theme_stage theme_spawn_boost theme_enemy_speed_boost
         raindrops set_theme set_theme_spawn_boost
         set_theme_enemy_speed_boost set_raindrops set_theme_stage
         List.length].
    now rewrite E.
  - left. cbn [nth_error theme_sequence]. now destruct k.
Qed.

Lemma on_timer_weather (now : float) (st : State) :
  weather (on_timer sin cos now st) = weather st \/
  weather (on_timer sin cos now st)
  = weather (theme_phase
               (before_theme (clamp_dt (now - last_time st))
                  (set_dt (set_last_time st now)
                     (clamp_dt (now - last_time st))))).
Proof.
  unfold on_timer. cbv zeta.
  destruct (negb _ || _); [left; reflexivity | right].
  apply run_frame_weather.
Qed.

(** An event delivered at stage 1 or later leaves the weather as it is, or
    is the frame that moves from stage 1 to the sunny stage. *)
Lemma deliver_weather (ev : Event) (st : State) :
  (1 <= theme_stage st)%nat ->
  weather (deliver sin cos st ev) = weather st \/
  (theme_stage st = 1%nat /\
   weather (deliver sin cos st ev) = (Sunny, 2%nat, 1.0%float, 1.0%float, 0%nat)).
Proof.
  intros S. destruct ev as [now | now key | key]; cbn [deliver].
  - destruct (on_timer_weather now st) as [E | E]; [now left |].
    rewrite E.
    set (s0 := set_dt (set_last_time st now) (clamp_dt (now - last_time st))).
    destruct (before_theme_weather (clamp_dt (now - last_time st)) s0)
      as [W _].
    assert (S0 : theme_stage (before_theme (clamp_dt (now - last_time st)) s0)
                 = theme_stage st).
    { apply weather_eq in W. tauto. }
    destruct (theme_phase_later
                (before_theme (clamp_dt (now - last_time st)) s0))
      as [L | [L1 L2]]; [lia | left | right].
    + now rewrite L, W.
    + split; [lia | exact L2].
  - left. apply on_key_down_frame; ignored.
  - left. reflexivity.
Qed.

Lemma settled_deliver (pool : nat) (ev : Event) (st : State) :
  settled pool st -> settled pool (deliver sin cos st ev).
Proof.
  intros (S & L & R).
  destruct (deliver_weather ev st S) as [W | [S1 W]];
    apply weather_eq in W; destruct W as (W1 & W2 & W3 & W4 & W5);
    unfold settled.
  - rewrite W1, W2, W3, W4, W5. auto.
  - rewrite W2, W5. repeat split; try lia.
Qed.

Lemma settled_run (pool : nat) (evs : list Event) :
  forall st, settled pool st -> settled pool (run sin cos evs st).
Proof.
  unfold run. induction evs as [| ev evs IH]; intros st H; [exact H |].
  cbn [fold_left]. apply IH. now apply settled_deliver.
Qed.


End RainyOnce.


(** ** Combo and score *)

Section Combo.

Variable sin cos : float -> float.

(** A hit, unfolded: the credit, the burst of six particles, the shake. *)
Lemma hit_bullet_hit (e b : Sprite) (st : State) :
  intersects e b = true ->
  hit_bullet sin cos e st b
  = set_camera_shake
      (spawn_particles sin cos (x e + fl (w e / 2))%float
         (y e + fl (h e / 2))%float (color e) 6 (kill_credit e b st))
      3.0%float.
Proof. intros H. unfold hit_bullet. rewrite H. reflexivity. Qed.

Lemma kill_credit_fields (e b : Sprite) (st : State) :
  combo (kill_credit e b st) = combo st + 1 /\
  combo_timer (kill_credit e b st) = 3.0%float /\
  score (kill_credit e b st) = score st + kill_points (combo st + 1) /\
  enemies (kill_credit e b st) = list_remove (sid e) (enemies st) /\
  bullets (kill_credit e b st) = list_remove (sid b) (bullets st) /\
  running (kill_credit e b st) = running st /\
  bird (kill_credit e b st) = bird st /\ snake (kill_credit e b st) = snake st /\
  player (kill_credit e b st) = player st.
Proof. repeat split. Qed.

(** An observation that ignores the particles, the tape and the shake sees
    a hit as its credit. *)
Lemma hit_bullet_observed (T : Type) (P : State -> T) (e b : Sprite)
    (st : State) :
  ignores set_camera_shake P -> ignores set_rng_pos P ->
  ignores set_particles P ->
  intersects e b = true ->
  P (hit_bullet sin cos e st b) = P (kill_credit e b st).
Proof.
  intros H1 H2 H3 H. rewrite (hit_bullet_hit e b st H), H1.
  now apply spawn_particles_frame.
Qed.

(** What a hit does to the combo, the timer and the score. *)
Lemma hit_bullet_combo (e b : Sprite) (st : State) :
  intersects e b = true ->
  combo (hit_bullet sin cos e st b) = combo st + 1 /\
  combo_timer (hit_bullet sin cos e st b) = 3.0%float /\
  score (hit_bullet sin cos e st b) = score st + kill_points (combo st + 1).
Proof.
  intros H.
  rewrite (hit_bullet_observed (P := combo) e b st) by (ignored || exact H).
  rewrite (hit_bullet_observed (P := combo_timer) e b st) by (ignored || exact H).
  rewrite (hit_bullet_observed (P := score) e b st) by (ignored || exact H).
  pose proof (kill_credit_fields e b st) as F. tauto.
Qed.

(** A miss does nothing. *)
Lemma hit_bullet_miss (e b : Sprite) (st : State) :
  intersects e b = false -> hit_bullet sin cos e st b = st.
Proof. intros H. unfold hit_bullet. now rewrite H. Qed.

(** The check of the window keeps a combo whose timer has not run out, and
    has nothing to reset when no combo is on. *)
Lemma combo_phase_combo (dt : float) (st : State) :
  (combo st =? 0) || negb (combo_timer st - dt <=? fl 0)%float = true ->
  combo (combo_phase dt st) = combo st.
Proof.
  unfold combo_phase. cbv zeta. cbn [combo_timer set_combo_timer].
  intros H. destruct (combo_timer st - dt <=? fl 0)%float.
  - cbn [combo set_combo set_combo_timer]. rewrite orb_false_r in H.
    apply Z.eqb_eq in H. now rewrite H.
  - reflexivity.
Qed.

(** Within the window the combo counts the kills. *)
Lemma combo_run_counts (steps : list ComboStep) :
  forall st,
    real_kills steps = true -> within_window sin cos steps st = true ->
    combo (combo_run sin cos steps st) = combo st + Z.of_nat (kills steps).
Proof.
  unfold combo_run, kills.
  induction steps as [| s steps IH]; intros st R W.
  - cbn. lia.
  - cbn [real_kills forallb] in R. apply andb_prop in R as [R1 R2].
    cbn [within_window] in W. apply andb_prop in W as [W1 W2].
    cbn [fold_left]. rewrite (IH _ R2 W2).
    destruct s as [e b | dt]; cbn [combo_step filter is_kill List.length].
    + destruct (hit_bullet_combo e b st R1) as (C & _). rewrite C. lia.
    + rewrite (combo_phase_combo dt st W1). lia.
Qed.

End Combo.

(** [int] truncates; on a float that is not negative this is the floor of
    its value [m * 2^e]. *)
Lemma int_of_float_floor (f : float) (m : positive) (e : Z) :
  Prim2SF f = S754_finite false m e ->
  Py.int_of_float f
  = if 0 <=? e then Zpos m * 2 ^ e else Zpos m / 2 ^ (- e).
Proof.
  intros H. unfold Py.int_of_float. rewrite H.
  destruct (Z.leb_spec 0 e); [reflexivity |].
  apply Z.shiftr_div_pow2. lia.
Qed.

(** The points of the first kills of a combo, as binary64 computes them.
    The nineteenth kill is worth 459: 1 + 18 * 0.2 rounds to a number just
    below 4.6. *)
Lemma kill_points_values :
  map kill_points [1; 2; 3; 4; 5; 19] = [100; 120; 140; 160; 180; 459].
Proof. vm_compute. reflexivity. Qed.



(** ** Hits *)

(** *** Removal by identity *)

Lemma has_sid_false (i : nat) (l : list Sprite) :
  has_sid i l = false <-> ~ In i (map sid l).
Proof.
  unfold has_sid. induction l as [| s l IH]; cbn [existsb map In].
  - tauto.
  - rewrite orb_false_iff, IH, Nat.eqb_neq. tauto.
Qed.

(** Removing an object that is not in the list is the swallowed
    [ValueError]: the list stays as it is. *)
Lemma list_remove_absent (i : nat) (l : list Sprite) :
  has_sid i l = false -> list_remove i l = l.
Proof.
  unfold has_sid. induction l as [| s l IH]; cbn [existsb list_remove].
  - reflexivity.
  - intros H. apply orb_false_iff in H as [H1 H2]. rewrite H1.
    now rewrite (IH H2).
Qed.

(** In a list of distinct objects, a removed object is gone. *)
Lemma list_remove_gone (i : nat) (l : list Sprite) :
  NoDup (map sid l) -> has_sid i (list_remove i l) = false.
Proof.
  induction l as [| s l IH]; cbn [map list_remove]; intros N.
  - reflexivity.
  - inversion N as [| ? ? Hin N']; subst.
    destruct (Nat.eqb_spec (sid s) i) as [E | E].
    + subst i. now apply has_sid_false.
    + unfold has_sid. cbn [existsb].
      apply orb_false_iff. split; [now apply Nat.eqb_neq | now apply IH].
Qed.

Lemma list_remove_twice (i : nat) (l : list Sprite) :
  NoDup (map sid l) -> list_remove i (list_remove i l) = list_remove i l.
Proof. intros N. apply list_remove_absent. now apply list_remove_gone. Qed.

(** Removing the object that follows a run of other objects. *)
Lemma list_remove_middle (kept : list Sprite) (b : Sprite) (rest : list Sprite) :
  ~ In (sid b) (map sid kept) ->
  list_remove (sid b) (kept ++ b :: rest) = kept ++ rest.
Proof.
  induction kept as [| s kept IH]; cbn [app map In list_remove]; intros H.
  - now rewrite Nat.eqb_refl.
  - destruct (Nat.eqb_spec (sid s) (sid b)) as [E | E]; [tauto |].
    rewrite IH; [reflexivity | tauto].
Qed.

(** A write to an object keeps the identities of the list. *)
Lemma list_store_sids (s : Sprite) (l : list Sprite) :
  map sid (list_store s l) = map sid l.
Proof.
  unfold list_store. rewrite map_map. apply map_ext_in. intros t _.
  destruct (Nat.eqb_spec (sid t) (sid s)) as [E | E]; [now rewrite E | reflexivity].
Qed.

Section Hits.

Variable sin cos : float -> float.

Lemma sid_move_enemy (dt : float) (e : Sprite) :
  sid (move_enemy sin dt e) = sid e.
Proof. unfold move_enemy. destruct (_ && _); reflexivity. Qed.

(** The loop over the bullets for one enemy [e], started with the bullets
    [kept ++ rest] in the list and [rest] still to visit: every bullet of
    [rest] that overlaps [e] is removed and credited, the others stay, in
    order; the enemy is removed once per hit. *)
Lemma hit_bullets_loop (e : Sprite) (rest : list Sprite) :
  forall (kept : list Sprite) (st : State),
    bullets st = kept ++ rest ->
    NoDup (map sid (kept ++ rest)) ->
    let st' := fold_left (hit_bullet sin cos e) rest st in
    let k := List.length (filter (intersects e) rest) in
    bullets st' = kept ++ filter (fun b => negb (intersects e b)) rest /\
    combo st' = combo st + Z.of_nat k /\
    score st' = score st + combo_points (combo st) k /\
    enemies st' = Nat.iter k (list_remove (sid e)) (enemies st) /\
    (k <> 0%nat -> combo_timer st' = 3.0%float) /\
    running st' = running st.
Proof.
  induction rest as [| b rest IH]; intros kept st B N; cbv zeta.
  - cbn [fold_left filter List.length Nat.iter combo_points].
    rewrite B. repeat split; try lia; try tauto.
  - cbn [fold_left filter]. destruct (intersects e b) eqn:H; cbn [negb].
    + pose proof (kill_credit_fields e b st) as (F1 & F2 & F3 & F4 & F5 & F6 & _).
      assert (Nk : ~ In (sid b) (map sid kept)).
      { rewrite map_app in N. cbn [map] in N.
        apply NoDup_remove_2 in N. rewrite in_app_iff in N. tauto. }
      assert (N' : NoDup (map sid (kept ++ rest))).
      { rewrite map_app in *. cbn [map] in N. now apply NoDup_remove_1 in N. }
      assert (B' : bullets (hit_bullet sin cos e st b) = kept ++ rest).
      { rewrite (hit_bullet_observed sin cos (P := bullets) e b st)
          by (ignored || exact H).
        rewrite F5, B. now apply list_remove_middle. }
      destruct (IH kept (hit_bullet sin cos e st b) B' N')
        as (I1 & I2 & I3 & I4 & I5 & I6).
      rewrite (hit_bullet_observed sin cos (P := combo) e b st) in I2, I3
        by (ignored || exact H).
      rewrite (hit_bullet_observed sin cos (P := score) e b st) in I3
        by (ignored || exact H).
      rewrite (hit_bullet_observed sin cos (P := enemies) e b st) in I4
        by (ignored || exact H).
      rewrite (hit_bullet_observed sin cos (P := running) e b st) in I6
        by (ignored || exact H).
      rewrite F1 in I2, I3. rewrite F3 in I3. rewrite F4 in I4.
      rewrite F6 in I6.
      cbn [List.length combo_points]. rewrite I1, I2, I3, I4, I6.
      rewrite Nat.iter_succ_r.
      repeat split; try lia.
      intros _.
      destruct (List.length (filter (intersects e) rest)) eqn:K.
      * cbn [Nat.iter fold_left] in *.
        assert (R : filter (intersects e) rest = []) by
          (now apply length_zero_iff_nil).
        clear - R H F2.
        assert (G : forall s, fold_left (hit_bullet sin cos e) rest s = s).
        { induction rest as [| a r IHr]; intros s; [reflexivity |].
          cbn [filter] in R. destruct (intersects e a) eqn:Ha; [discriminate |].
          cbn [fold_left]. rewrite (hit_bullet_miss sin cos e a s Ha).
          now apply IHr. }
        rewrite G.
        now rewrite (hit_bullet_observed sin cos (P := combo_timer) e b st)
          by (ignored || exact H).
      * apply I5. discriminate.
    + rewrite (hit_bullet_miss sin cos e b st H).
      assert (B' : bullets st = (kept ++ [b]) ++ rest)
        by (now rewrite <- app_assoc).
      assert (N' : NoDup (map sid ((kept ++ [b]) ++ rest)))
        by (now rewrite <- app_assoc).
      destruct (IH (kept ++ [b]) st B' N') as (I1 & I2 & I3 & I4 & I5 & I6).
      rewrite I1, <- app_assoc. repeat split; assumption.
Qed.

End Hits.




(** * Further properties of the callbacks *)

(** ** More order facts on binary64 *)

Module FloatOrderMore.

Local Open Scope float_scope.

(** [a < b] excludes [b < a]. *)
Lemma ltb_asym (a b : float) : (a <? b) = true -> (b <? a) = false.
Proof.
  rewrite !ltb_spec. unfold SFltb.
  rewrite (FloatOrder.SFcompare_antisym (Prim2SF a) (Prim2SF b)).
  destruct (SFcompare (Prim2SF a) (Prim2SF b)) as [[]|]; simpl;
    intros; try discriminate; reflexivity.
Qed.

(** [a < b] gives [a <= b]. *)
Lemma ltb_leb (a b : float) : (a <? b) = true -> (a <=? b) = true.
Proof.
  rewrite ltb_spec, leb_spec. unfold SFltb, SFleb.
  destruct (SFcompare (Prim2SF a) (Prim2SF b)) as [[]|];
    intros; try discriminate; reflexivity.
Qed.

(** The builtin [max] never returns less than its first argument, when that
    argument is a number. *)
Lemma max_not_below (a b : float) :
  (a <=? a) = true -> (a <=? Py.max a b) = true.
Proof.
  intros R. unfold Py.max, Py.gtb. destruct (a <? b) eqn:E.
  - now apply ltb_leb.
  - exact R.
Qed.

(** [max(0, v)] is never negative. *)
Lemma max_zero_not_negative (v : float) : (Py.max (fl 0) v <? fl 0) = false.
Proof.
  unfold Py.max, Py.gtb. destruct (fl 0 <? v) eqn:E.
  - now apply ltb_asym.
  - vm_compute. reflexivity.
Qed.

End FloatOrderMore.

(** ** What a frame touches *)

Section FrameFootprint.

Variable sin cos : float -> float.
Variable T : Type.
Variable P : State -> T.

Lemma spawn_raindrops_frame (n : nat) :
  ignores set_rng_pos P -> ignores set_raindrops P ->
  forall st, P (spawn_raindrops n st) = P st.
Proof.
  intros H1 H2. induction n as [| n IH]; intros st; [reflexivity |].
  cbn [spawn_raindrops]. rewrite IH.
  cbv beta iota zeta delta [spawn_raindrop bind random_randint random_uniform
    random_random ret snd fst].
  frame.
Qed.

Lemma theme_phase_frame (st : State) :
  ignores set_theme P -> ignores set_theme_spawn_boost P ->
  ignores set_theme_enemy_speed_boost P -> ignores set_raindrops P ->
  ignores set_rng_pos P -> ignores set_theme_stage P ->
  P (theme_phase st) = P st.
Proof.
  intros H1 H2 H3 H4 H5 H6.
  destruct (nth_error theme_sequence (theme_stage st)) as [[next thr] |] eqn:N.
  - destruct (score st >=? thr) eqn:G.
    + rewrite (theme_phase_at st N G). destruct next; cbv zeta; rewrite H6.
      * frame.
      * rewrite spawn_raindrops_frame by assumption. frame.
    + unfold theme_phase. now rewrite N, G.
  - unfold theme_phase. now rewrite N.
Qed.

Lemma update_raindrop_frame (dt : float) (rd : Raindrop) (st : State) :
  ignores set_rng_pos P -> P (snd (update_raindrop dt rd st)) = P st.
Proof.
  cbv beta iota zeta delta [update_raindrop bind random_uniform random_random
    ret].
  intros. destruct (Py.gtb _ _); cbn [snd]; frame.
Qed.

Lemma raindrops_phase_frame (dt : float) (st : State) :
  ignores set_rng_pos P -> ignores set_raindrops P ->
  P (raindrops_phase dt st) = P st.
Proof.
  intros H1 H2. unfold raindrops_phase. destruct (theme st); [reflexivity |].
  pose proof (for_each_frame P (update_raindrop dt)
                (fun rd s => update_raindrop_frame dt rd s H1)
                (raindrops st) st) as E.
  destruct (for_each (update_raindrop dt) (raindrops st) st) as [rs st1].
  cbn [snd] in E. now rewrite H2.
Qed.

(** Every attribute a live frame can write. *)
Lemma run_frame_frame (dt : float) (st : State) :
  ignores set_bird P -> ignores set_snake P -> ignores set_bullets P ->
  ignores set_spawn_timer P -> ignores set_rng_pos P ->
  ignores set_next_id P -> ignores set_enemies P ->
  ignores set_difficulty P ->
  ignores set_theme P -> ignores set_theme_spawn_boost P ->
  ignores set_theme_enemy_speed_boost P -> ignores set_raindrops P ->
  ignores set_theme_stage P ->
  ignores set_combo P -> ignores set_combo_timer P -> ignores set_score P ->
  ignores set_camera_shake P -> ignores set_particles P ->
  ignores set_running P ->
  ignores set_bird_anim_timer P -> ignores set_bird_frame P ->
  ignores set_snake_anim_timer P -> ignores set_snake_frame P ->
  ignores set_clouds P -> ignores set_bg_clouds P ->
  P (run_frame sin cos dt st) = P st.
Proof.
  intros. unfold run_frame. cbv zeta.
  rewrite raindrops_phase_frame by assumption.
  rewrite shake_phase_frame by assumption.
  rewrite particles_phase_frame by assumption.
  rewrite combo_phase_frame by assumption.
  rewrite clouds_phase_frame by assumption.
  rewrite animation_phase_frame by assumption.
  rewrite update_enemies_frame by assumption.
  rewrite theme_phase_frame by assumption.
  rewrite difficulty_phase_frame by assumption.
  rewrite spawn_phase_frame by assumption.
  rewrite update_bullets_frame by assumption.
  now rewrite player_physics_frame by assumption.
Qed.

End FrameFootprint.

(** ** The clock of a frame *)

Lemma clamp_dt_bound (d : float) : Py.gtb (clamp_dt d) 0.05 = false.
Proof.
  unfold clamp_dt. destruct (Py.gtb d 0.05) eqn:E; [| exact E].
  vm_compute. reflexivity.
Qed.

(** What [on_timer] does to an attribute that no phase of a frame writes. *)
Lemma on_timer_observed (sin cos : float -> float) (T : Type)
    (P : State -> T) (now : float) (st : State) :
  ignores set_bird P -> ignores set_snake P -> ignores set_bullets P ->
  ignores set_spawn_timer P -> ignores set_rng_pos P ->
  ignores set_next_id P -> ignores set_enemies P ->
  ignores set_difficulty P ->
  ignores set_theme P -> ignores set_theme_spawn_boost P ->
  ignores set_theme_enemy_speed_boost P -> ignores set_raindrops P ->
  ignores set_theme_stage P ->
  ignores set_combo P -> ignores set_combo_timer P -> ignores set_score P ->
  ignores set_camera_shake P -> ignores set_particles P ->
  ignores set_running P ->
  ignores set_bird_anim_timer P -> ignores set_bird_frame P ->
  ignores set_snake_anim_timer P -> ignores set_snake_frame P ->
  ignores set_clouds P -> ignores set_bg_clouds P ->
  P (on_timer sin cos now st)
  = P (set_dt (set_last_time st now) (clamp_dt (now - last_time st))).
Proof.
  intros. unfold on_timer. cbv zeta.
  destruct (negb _ || _); [reflexivity |].
  now apply run_frame_frame.
Qed.

(** X1: whatever the state, live or idle, a timer tick stores the current
    time and a step that is never above 0.05 s, and it never touches the key
    set, the pause flag, the two cooldown stamps, the selected preset, the
    high score and its file, the selected character or the exit flag. *)
Theorem on_timer_clock (sin cos : float -> float) (now : float) (st : State) :
  let st' := on_timer sin cos now st in
  last_time st' = now /\
  dt st' = clamp_dt (now - last_time st) /\
  Py.gtb (dt st') 0.05 = false /\
  keys st' = keys st /\ paused st' = paused st /\
  last_shot st' = last_shot st /\ last_special st' = last_special st /\
  difficulty_index st' = difficulty_index st /\
  high_score st' = high_score st /\ highscore_txt st' = highscore_txt st /\
  current_character st' = current_character st /\ player st' = player st /\
  exited st' = exited st.
Proof.
  cbv zeta.
  rewrite (on_timer_observed sin cos (P := last_time)) by ignored.
  rewrite (on_timer_observed sin cos (P := dt)) by ignored.
  rewrite (on_timer_observed sin cos (P := keys)) by ignored.
  rewrite (on_timer_observed sin cos (P := paused)) by ignored.
  rewrite (on_timer_observed sin cos (P := last_shot)) by ignored.
  rewrite (on_timer_observed sin cos (P := last_special)) by ignored.
  rewrite (on_timer_observed sin cos (P := difficulty_index)) by ignored.
  rewrite (on_timer_observed sin cos (P := high_score)) by ignored.
  rewrite (on_timer_observed sin cos (P := highscore_txt)) by ignored.
  rewrite (on_timer_observed sin cos (P := current_character)) by ignored.
  rewrite (on_timer_observed sin cos (P := player)) by ignored.
  rewrite (on_timer_observed sin cos (P := exited)) by ignored.
  cbn. repeat split. apply clamp_dt_bound.
Qed.

(** ** Camera shake *)

Lemma camera_shake_set (st : State) (v : float) :
  camera_shake (set_camera_shake st v) = v.
Proof. reflexivity. Qed.

(** X2: after a live frame the camera shake is never negative: the decay
    stops at zero, whatever the shake was and however long the step. *)
Theorem shake_never_negative (sin cos : float -> float) (dt0 : float)
    (st : State) :
  (camera_shake (run_frame sin cos dt0 st) <? 0)%float = false.
Proof.
  unfold run_frame. cbv zeta.
  rewrite (raindrops_phase_frame (P := camera_shake)) by ignored.
  unfold shake_phase. rewrite camera_shake_set.
  destruct fl_values as (_ & _ & F0).
  rewrite <- F0. apply FloatOrderMore.max_zero_not_negative.
Qed.

(** ** The floor of the spawn interval *)

(** X3: while the spawn timer, advanced by the step, is at or below 0.18 s,
    a frame spawns nothing, at any score, preset and theme boost: no enemy
    is added, no random draw is made, and the timer just advances. *)
Theorem spawn_floor (dt0 : float) (st : State) :
  (spawn_timer st + dt0 <=? 0.18)%float = true ->
  spawn_phase dt0 st = set_spawn_timer st (spawn_timer st + dt0)%float.
Proof.
  intros H. unfold spawn_phase. cbv zeta.
  cbn [spawn_timer set_spawn_timer score difficulty_index theme_spawn_boost].
  set (q := (Py.max 0.6 (1.2 - fl (score st) / 1000.0)
             / (spawn_rate (preset_at (difficulty_index st))
                * theme_spawn_boost st))%float).
  assert (F : (0.18 <=? Py.max 0.18 q)%float = true)
    by (apply FloatOrderMore.max_not_below; vm_compute; reflexivity).
  unfold Py.gtb at 1.
  rewrite (FloatOrder.leb_not_gt (FloatOrder.leb_trans H F)).
  reflexivity.
Qed.

Lemma spawn_floor_witness :
  enemies (spawn_phase 0.05%float fresh_game) = enemies fresh_game /\
  rng_pos (spawn_phase 0.05%float fresh_game) = rng_pos fresh_game.
Proof.
  assert (H : (spawn_timer fresh_game + 0.05 <=? 0.18)%float = true)
    by (vm_compute; reflexivity).
  rewrite (@spawn_floor 0.05%float fresh_game H).
  split; vm_compute; reflexivity.
Defined.

(** ** The player stays in the playfield *)

(** X4: after the physics of a frame the active player is neither above the
    top of the window nor below the ground line, wherever it was and
    whatever its speed and the step; its horizontal position is unchanged.
    (For the heights of the two characters, 24 and 20, which nothing
    changes.) *)
Theorem player_physics_in_playfield (dt0 : float) (st : State) :
  character_height (get_player st) ->
  in_playfield (get_player (player_physics dt0 st)) = true /\
  x (get_player (player_physics dt0 st)) = x (get_player st) /\
  h (get_player (player_physics dt0 st)) = h (get_player st).
Proof.
  intros Hh. unfold player_physics. cbv zeta.
  set (p0 := get_player st) in *.
  set (p1 := set_vy p0 _).
  set (p2 := set_y p1 _).
  set (p3 := if (y p2 <? fl 0)%float then _ else p2).
  set (p4 := if Py.gtb _ _ then _ else p3).
  assert (G : get_player (put_player st p4) = p4).
  { unfold get_player, put_player.
    destruct (player st) eqn:E; cbn [player set_bird set_snake bird snake];
      now rewrite E. }
  rewrite G.
  assert (H3 : h p3 = h p0 /\ x p3 = x p0 /\ (y p3 <? fl 0)%float = false).
  { unfold p3. destruct (y p2 <? fl 0)%float eqn:E.
    - repeat split.
    - repeat split. exact E. }
  destruct H3 as (H3h & H3x & H3y).
  unfold in_playfield, p4.
  destruct (Py.gtb (y p3 + fl (h p3)) (fl (WINDOW_H - 60))) eqn:E.
  - cbn [h x y set_y set_vy]. rewrite H3h, H3x.
    repeat split.
    destruct Hh as [Hh | Hh]; rewrite Hh; vm_compute; reflexivity.
  - rewrite H3y, E, H3h, H3x. repeat split.
Qed.

(** The bird near the ceiling with an upward speed is stopped at the top. *)
Lemma player_physics_in_playfield_witness :
  in_playfield (get_player (player_physics 0.05%float bird_at_ceiling)) = true /\
  y (get_player (player_physics 0.05%float bird_at_ceiling)) = 0%float.
Proof.
  split; [| vm_compute; reflexivity].
  apply (@player_physics_in_playfield 0.05%float bird_at_ceiling).
  left. vm_compute. reflexivity.
Defined.

(** ** Key events as a table *)

Section KeyTable.

Variable sin cos : float -> float.

(** The [if] chain of [on_key_down] records the key and then runs the one
    action the key selects. *)
Lemma on_key_down_dispatch (now : float) (key : Z) (st : State) :
  on_key_down sin cos now key st
  = act sin cos now (key_action key) (set_keys st (set_add key (keys st))).
Proof.
  unfold on_key_down, key_action, play_sound. cbv zeta.
  destruct (key =? WXK_SPACE); [reflexivity |].
  destruct (key_in key (ord "P") (ord "p")); [reflexivity |].
  destruct (key_in key (ord "R") (ord "r")); [reflexivity |].
  destruct (key_in key WXK_CONTROL (ord "Z")); [reflexivity |].
  destruct (key_in key (ord "C") (ord "c")); [reflexivity |].
  destruct (key_in key (ord "X") (ord "x")); [reflexivity |].
  destruct (key_in key (ord "D") (ord "d")); [reflexivity |].
  destruct (key =? WXK_ESCAPE); reflexivity.
Qed.

(** No action writes the key set. *)
Lemma act_keys (now : float) (a : KeyAction) (st : State) :
  keys (act sin cos now a st) = keys st.
Proof.
  destruct a; cbn [act].
  - unfold flap, put_player. destruct (player st); reflexivity.
  - reflexivity.
  - apply (reset_frame (P := keys)); ignored.
  - apply (try_shoot_frame sin cos (P := keys)); ignored.
  - apply (toggle_character_frame (P := keys)); ignored.
  - apply (try_special_attack_frame sin cos (P := keys)); ignored.
  - reflexivity.
  - reflexivity.
  - reflexivity.
Qed.

End KeyTable.

(** ** The set of pressed keys *)

Lemma set_add_in (k : Z) (l : list Z) : In k (set_add k l).
Proof.
  induction l as [| a l IH]; cbn [set_add]; [now left |].
  destruct (Z.eqb_spec a k) as [E | E]; [left; exact E | right; exact IH].
Qed.

Lemma set_add_other (k j : Z) (l : list Z) :
  j <> k -> (In j (set_add k l) <-> In j l).
Proof.
  intros N. induction l as [| a l IH]; cbn [set_add In].
  - split; [intros [E | []]; congruence | tauto].
  - destruct (Z.eqb_spec a k); cbn [In]; tauto.
Qed.

Lemma set_add_NoDup (k : Z) (l : list Z) : NoDup l -> NoDup (set_add k l).
Proof.
  induction l as [| a l IH]; cbn [set_add]; intros N.
  - constructor; [tauto | constructor].
  - destruct (Z.eqb_spec a k) as [E | E]; [exact N |].
    inversion N as [| ? ? Hin N']; subst. constructor; [| now apply IH].
    intros H. apply Hin. apply (set_add_other l (k := k)) in H; congruence.
Qed.

(** X5: the key set behaves as a set.  A key going down is recorded, once;
    a key going up is forgotten; the other keys are not affected; and no
    action run by a key event touches the set. *)
Theorem keys_are_a_set (sin cos : float -> float) (now : float) (key : Z)
    (st : State) :
  keys (on_key_down sin cos now key st) = set_add key (keys st) /\
  In key (keys (on_key_down sin cos now key st)) /\
  ~ In key (keys (on_key_up key st)) /\
  (forall j, j <> key ->
     (In j (keys (on_key_down sin cos now key st)) <-> In j (keys st)) /\
     (In j (keys (on_key_up key st)) <-> In j (keys st))) /\
  (NoDup (keys st) ->
   NoDup (keys (on_key_down sin cos now key st)) /\
   NoDup (keys (on_key_up key st))).
Proof.
  assert (K : keys (on_key_down sin cos now key st) = set_add key (keys st))
    by (rewrite on_key_down_dispatch; apply act_keys).
  rewrite K. unfold on_key_up, set_discard. cbn [keys set_keys].
  split; [reflexivity |]. split; [apply set_add_in |]. split; [| split].
  - rewrite filter_In. intros [_ H]. now rewrite Z.eqb_refl in H.
  - intros j N. split; [now apply set_add_other |].
    rewrite filter_In. split; [tauto |]. intros H. split; [exact H |].
    apply negb_true_iff. now apply Z.eqb_neq.
  - intros N. split; [now apply set_add_NoDup | now apply NoDup_filter].
Qed.

(** ** Sessions *)

(** A property kept by every event holds along every session. *)
Lemma run_invariant (sin cos : float -> float) (I : State -> Prop) :
  (forall ev st, I st -> I (deliver sin cos st ev)) ->
  forall evs st, I st -> I (run sin cos evs st).
Proof.
  intros step evs. unfold run.
  induction evs as [| ev evs IH]; intros st H; [exact H |].
  cbn [fold_left]. apply IH. now apply step.
Qed.

Section Init.

Variable T : Type.
Variable P : State -> T.

Lemma repeat_m_frame (A : Type) (c : M A) (n : nat) :
  (forall st, P (snd (c st)) = P st) ->
  forall st, P (snd (repeat_m n c st)) = P st.
Proof.
  intros H. induction n as [| n IH]; intros st; [reflexivity |].
  cbn [repeat_m]. unfold bind, ret.
  specialize (H st). destruct (c st) as [a st1]. cbn [snd] in H.
  specialize (IH st1). destruct (repeat_m n c st1) as [r st2].
  cbn [snd] in *. now rewrite IH, H.
Qed.

Lemma new_cloud_frame (w_lo w_hi h_lo h_hi y_lo y_hi : Z) (v_lo v_hi : float)
    (a_lo a_hi : Z) (st : State) :
  ignores set_rng_pos P ->
  P (snd (new_cloud w_lo w_hi h_lo h_hi y_lo y_hi v_lo v_hi a_lo a_hi st))
  = P st.
Proof.
  cbv beta iota zeta delta [new_cloud bind random_randint random_uniform
    random_random ret snd fst].
  frame.
Qed.

End Init.

(** The attributes of a new panel that the sessions below start from. *)
Lemma init_fields (now : float) (assets : Assets) (tape : nat -> float)
    (file : option string) (writable : bool) :
  let st := GamePanel_init now assets tape file writable in
  player st = Bird /\ current_character st = Bird /\
  difficulty_index st = 1%nat /\ bullets st = [] /\ enemies st = [] /\
  next_id st = 2%nat /\ keys st = [] /\ theme_stage st = 0%nat /\
  running st = true /\ paused st = false.
Proof.
  cbv zeta. unfold GamePanel_init. cbv zeta.
  set (base := mkState _ _ _ _ _ _ _ _ _ _ _ _ _ _ _ _ _ _ _ _ _ _ _ _ _ _ _ _
                 _ _ _ _ _ _ _ _ _ _ _ _ _ _ _ _ _ _ _ _ _ _).
  set (Q := fun s : State =>
              (player s, current_character s, difficulty_index s, bullets s,
               enemies s, next_id s, keys s, theme_stage s, running s,
               paused s)).
  set (c1 := new_cloud 80 180 30 60 30 (WINDOW_H / 2) (-10) (-40) 140 255).
  set (c2 := new_cloud 150 280 50 100 10 (WINDOW_H / 3) (-2) (-10) 80 140).
  pose proof (@repeat_m_frame _ Q _ c1 6
                (fun s => @new_cloud_frame _ Q _ _ _ _ _ _ _ _ _ _ s
                            ltac:(ignored)) base) as E1.
  destruct (repeat_m 6 c1 base) as [cs s1]. cbn [snd] in E1.
  pose proof (@repeat_m_frame _ Q _ c2 3
                (fun s => @new_cloud_frame _ Q _ _ _ _ _ _ _ _ _ _ s
                            ltac:(ignored)) (set_clouds s1 cs)) as E2.
  destruct (repeat_m 3 c2 (set_clouds s1 cs)) as [bs s2]. cbn [snd] in E2.
  assert (E : Q (set_bg_clouds s2 bs) = Q base).
  { transitivity (Q s2); [reflexivity |]. rewrite E2.
    transitivity (Q s1); [reflexivity | exact E1]. }
  unfold Q in E. injection E as F1 F2 F3 F4 F5 F6 F7 F8 F9 F10.
  cbn [player current_character difficulty_index bullets enemies next_id
       keys theme_stage running paused set_bg_clouds].
  repeat split; assumption.
Qed.

Lemma put_player_frame (T : Type) (P : State -> T) (st : State) (p : Sprite) :
  ignores set_bird P -> ignores set_snake P -> P (put_player st p) = P st.
Proof. unfold put_player. frame. Qed.

Section SessionInvariants.

Variable sin cos : float -> float.

(** *** The active player and the selected character *)

Lemma act_player (now : float) (a : KeyAction) (st : State) :
  player st = current_character st ->
  player (act sin cos now a st) = current_character (act sin cos now a st).
Proof.
  intros H. destruct a; cbn [act].
  - unfold flap.
    rewrite (put_player_frame (P := player)) by ignored.
    rewrite (put_player_frame (P := current_character)) by ignored.
    exact H.
  - exact H.
  - rewrite (reset_frame (P := player)) by ignored.
    now rewrite (reset_frame (P := current_character)) by ignored.
  - rewrite (try_shoot_frame sin cos (P := player)) by ignored.
    now rewrite (try_shoot_frame sin cos (P := current_character)) by ignored.
  - unfold toggle_character, put_player. cbv zeta.
    destruct (current_character st); reflexivity.
  - rewrite (try_special_attack_frame sin cos (P := player)) by ignored.
    now rewrite (try_special_attack_frame sin cos (P := current_character))
      by ignored.
  - exact H.
  - exact H.
  - exact H.
Qed.

Lemma deliver_player (ev : Event) (st : State) :
  player st = current_character st ->
  player (deliver sin cos st ev) = current_character (deliver sin cos st ev).
Proof.
  intros H. destruct ev as [now | now key | key]; cbn [deliver].
  - rewrite (on_timer_observed sin cos (P := player)) by ignored.
    now rewrite (on_timer_observed sin cos (P := current_character))
      by ignored.
  - rewrite on_key_down_dispatch. now apply act_player.
  - exact H.
Qed.

(** X6: [self.player] is always the sprite of the selected character.  In
    every session that starts from a new panel, after any sequence of timer
    ticks and key events, the reference [player] points at the bird exactly
    when [current_character] is the bird. *)
Theorem player_is_current_character (now : float) (assets : Assets)
    (tape : nat -> float) (file : option string) (writable : bool)
    (evs : list Event) :
  let st := run sin cos evs (GamePanel_init now assets tape file writable) in
  player st = current_character st /\
  get_player st = match current_character st with
                  | Bird => bird st
                  | Snake => snake st
                  end.
Proof.
  cbv zeta.
  assert (H : player (run sin cos evs
                        (GamePanel_init now assets tape file writable))
              = current_character
                  (run sin cos evs
                     (GamePanel_init now assets tape file writable))).
  { apply (run_invariant sin cos
             (fun s => player s = current_character s) deliver_player).
    destruct (init_fields now assets tape file writable) as (A & B & _).
    now rewrite A, B. }
  split; [exact H |]. unfold get_player. now rewrite H.
Qed.

End SessionInvariants.

Section SessionInvariants2.

Variable sin cos : float -> float.

(** *** The difficulty preset *)

Lemma act_difficulty_index (now : float) (a : KeyAction) (st : State) :
  difficulty_index (act sin cos now a st)
  = match a with
    | ADifficulty => Nat.modulo (difficulty_index st + 1) 4
    | _ => difficulty_index st
    end.
Proof.
  destruct a; cbn [act]; try reflexivity.
  - unfold flap. now rewrite (put_player_frame (P := difficulty_index)) by ignored.
  - now rewrite (reset_frame (P := difficulty_index)) by ignored.
  - now rewrite (try_shoot_frame sin cos (P := difficulty_index)) by ignored.
  - now rewrite (toggle_character_frame (P := difficulty_index)) by ignored.
  - now rewrite (try_special_attack_frame sin cos (P := difficulty_index))
      by ignored.
Qed.

Lemma deliver_difficulty_index (ev : Event) (st : State) :
  (difficulty_index st < 4)%nat ->
  (difficulty_index (deliver sin cos st ev) < 4)%nat.
Proof.
  intros H. destruct ev as [now | now key | key]; cbn [deliver].
  - now rewrite (on_timer_observed sin cos (P := difficulty_index)) by ignored.
  - rewrite on_key_down_dispatch, act_difficulty_index.
    cbn [difficulty_index set_keys].
    destruct (key_action key); try exact H.
    apply Nat.mod_upper_bound. discriminate.
  - exact H.
Qed.

(** X7: the selected preset is always one of the four.  In every session
    from a new panel the index stays below 4, so the lookup of the preset
    never falls outside the table; a press of D moves to the next preset,
    wrapping from Insane to Easy, and stores that preset's multiplier; no
    other key and no frame changes the selection, not even a restart. *)
Theorem difficulty_preset_cycles (now : float) (assets : Assets)
    (tape : nat -> float) (file : option string) (writable : bool)
    (evs : list Event) :
  (difficulty_index
     (run sin cos evs (GamePanel_init now assets tape file writable)) < 4)%nat
  /\
  forall (t : float) (key : Z) (st : State),
    difficulty_index (on_key_down sin cos t key st)
    = match key_action key with
      | ADifficulty => Nat.modulo (difficulty_index st + 1) 4
      | _ => difficulty_index st
      end /\
    (key_action key = ADifficulty ->
     difficulty (on_key_down sin cos t key st)
     = mult (preset_at (Nat.modulo (difficulty_index st + 1) 4))).
Proof.
  split.
  - apply (run_invariant sin cos (fun s => (difficulty_index s < 4)%nat)
             deliver_difficulty_index).
    destruct (init_fields now assets tape file writable) as (_ & _ & D & _).
    rewrite D. lia.
  - intros t key st. rewrite on_key_down_dispatch. split.
    + now rewrite act_difficulty_index.
    + intros K. rewrite K. reflexivity.
Qed.

(** *** Game over *)

Lemma act_frozen (now : float) (a : KeyAction) (st : State) :
  a <> AReset -> frozen (act sin cos now a st) = frozen st.
Proof.
  intros N. destruct a; cbn [act]; try reflexivity.
  - unfold flap. now rewrite (put_player_frame (P := frozen)) by ignored.
  - congruence.
  - now rewrite (try_shoot_frame sin cos (P := frozen)) by ignored.
  - now rewrite (toggle_character_frame (P := frozen)) by ignored.
  - now rewrite (try_special_attack_frame sin cos (P := frozen)) by ignored.
Qed.

Lemma frozen_running (st st' : State) :
  frozen st' = frozen st -> running st' = running st.
Proof. unfold frozen. intros H. now injection H. Qed.

Lemma frozen_score (st st' : State) :
  frozen st' = frozen st -> score st' = score st.
Proof. unfold frozen. intros H. now injection H. Qed.

Lemma deliver_frozen (ev : Event) (st : State) :
  running st = false -> is_restart ev = false ->
  frozen (deliver sin cos st ev) = frozen st.
Proof.
  intros R N. destruct ev as [now | now key | key]; cbn [deliver].
  - unfold on_timer. cbv zeta. cbn [running set_dt set_last_time].
    rewrite R. reflexivity.
  - rewrite on_key_down_dispatch. rewrite act_frozen; [reflexivity |].
    cbn [is_restart] in N. intros E. now rewrite E in N.
  - reflexivity.
Qed.

(** X8: game over lasts until the restart key.  Once [running] is false,
    no sequence of timer ticks and key events without the R key makes the
    session run again, and the score, the combo, the enemies and the high
    score stay what they were; the R key makes it run again, unpaused, from
    any state. *)
Theorem game_over_until_restart (evs : list Event) (st : State) :
  running st = false ->
  forallb (fun ev => negb (is_restart ev)) evs = true ->
  frozen (run sin cos evs st) = frozen st /\
  running (run sin cos evs st) = false /\
  forall (t : float) (key : Z),
    key_action key = AReset ->
    running (on_key_down sin cos t key (run sin cos evs st)) = true /\
    paused (on_key_down sin cos t key (run sin cos evs st)) = false.
Proof.
  intros R N.
  assert (F : frozen (run sin cos evs st) = frozen st).
  { revert st R N. unfold run.
    induction evs as [| ev evs IH]; intros st R N; [reflexivity |].
    cbn [forallb] in N. apply andb_prop in N as [N1 N2].
    apply negb_true_iff in N1. cbn [fold_left].
    pose proof (deliver_frozen ev st R N1) as D.
    rewrite IH; [exact D | | exact N2].
    rewrite (frozen_running D). exact R. }
  split; [exact F |]. split; [now rewrite (frozen_running F) |].
  intros t key K. rewrite on_key_down_dispatch, K. cbn [act].
  unfold reset, save_high_score. cbv zeta.
  split; reflexivity.
Qed.

End SessionInvariants2.

Lemma game_over_until_restart_witness :
  running after_game_over = false /\
  score after_game_over = score over_game /\
  running (on_key_down sin_taylor cos_taylor 1000.4 KEY_R after_game_over)
  = true.
Proof.
  assert (R : running over_game = false) by (vm_compute; reflexivity).
  pose proof (@game_over_until_restart sin_taylor cos_taylor
                game_over_events over_game R ltac:(vm_compute; reflexivity))
    as (F & G & H).
  unfold after_game_over.
  split; [exact G |]. split.
  - exact (frozen_score F).
  - apply (H 1000.4%float KEY_R). vm_compute. reflexivity.
Defined.

Section SessionInvariants3.

Variable sin cos : float -> float.

(** *** The theme stage only advances *)

Lemma theme_stage_set (st : State) (k : nat) :
  theme_stage (set_theme_stage st k) = k.
Proof. reflexivity. Qed.

(** The theme check keeps the stage or moves it one step on, and only while
    there is a stage left in the sequence. *)
Lemma theme_phase_stage (st : State) :
  theme_stage (theme_phase st) = theme_stage st \/
  ((theme_stage st < 2)%nat /\
   theme_stage (theme_phase st) = S (theme_stage st)).
Proof.
  destruct (nth_error theme_sequence (theme_stage st)) as [[next thr] |] eqn:N.
  - assert (L : (theme_stage st < 2)%nat).
    { change 2%nat with (List.length theme_sequence).
      apply nth_error_Some. now rewrite N. }
    destruct (score st >=? thr) eqn:G.
    + right. split; [exact L |].
      rewrite (theme_phase_at st N G). destruct next; cbv zeta;
        rewrite theme_stage_set; f_equal;
        first [ reflexivity
              | now rewrite (spawn_raindrops_frame (P := theme_stage))
                  by ignored ].
    + left. unfold theme_phase. now rewrite N, G.
  - left. unfold theme_phase. now rewrite N.
Qed.

Lemma run_frame_stage (dt0 : float) (st : State) :
  theme_stage (run_frame sin cos dt0 st)
  = theme_stage (theme_phase (before_theme dt0 st)).
Proof.
  pose proof (run_frame_weather sin cos dt0 st) as W.
  unfold weather in W at 2. apply weather_eq in W. tauto.
Qed.

Lemma deliver_stage (ev : Event) (st : State) :
  (theme_stage st <= theme_stage (deliver sin cos st ev))%nat /\
  ((theme_stage st <= 2)%nat ->
   (theme_stage (deliver sin cos st ev) <= 2)%nat).
Proof.
  destruct ev as [now | now key | key]; cbn [deliver].
  - unfold on_timer. cbv zeta. destruct (negb _ || _).
    + cbn [theme_stage set_dt set_last_time]. lia.
    + rewrite run_frame_stage.
      set (s0 := set_dt (set_last_time st now) (clamp_dt (now - last_time st))).
      destruct (before_theme_weather (clamp_dt (now - last_time st)) s0)
        as [W _].
      apply weather_eq in W. destruct W as (_ & W & _).
      change (theme_stage s0) with (theme_stage st) in W.
      destruct (theme_phase_stage
                  (before_theme (clamp_dt (now - last_time st)) s0))
        as [E | [L E]]; rewrite E, W in *; lia.
  - rewrite (on_key_down_frame sin cos (P := theme_stage)) by ignored. lia.
  - cbn [on_key_up theme_stage set_keys]. lia.
Qed.

(** X9: the theme stage only moves forward.  Over any sequence of timer
    ticks and key events, restarts included, the stage never decreases, and
    it never goes beyond the two transitions of the theme sequence. *)
Theorem theme_stage_only_advances (evs : list Event) (st : State) :
  (theme_stage st <= theme_stage (run sin cos evs st))%nat /\
  ((theme_stage st <= 2)%nat -> (theme_stage (run sin cos evs st) <= 2)%nat).
Proof.
  revert st. unfold run.
  induction evs as [| ev evs IH]; intros st; cbn [fold_left]; [lia |].
  destruct (deliver_stage ev st) as [D1 D2].
  destruct (IH (deliver sin cos st ev)) as [I1 I2]. split; [lia |].
  intros H. apply I2. now apply D2.
Qed.

(** *** Pause *)

Lemma set_add_idempotent (k : Z) (l : list Z) :
  set_add k (set_add k l) = set_add k l.
Proof.
  induction l as [| a l IH]; cbn [set_add].
  - now rewrite Z.eqb_refl.
  - destruct (Z.eqb_spec a k) as [E | E]; cbn [set_add].
    + subst a. now rewrite Z.eqb_refl.
    + destruct (Z.eqb_spec a k); [contradiction | now rewrite IH].
Qed.

(** X10: the pause key is a toggle.  One press of P (or p) flips [paused]
    and changes nothing else but the key set; a second press, whenever it
    comes, undoes the first: the state is the one before, with the key
    recorded as pressed. *)
Theorem pause_is_a_toggle (t1 t2 : float) (key : Z) (st : State) :
  key_action key = APause ->
  on_key_down sin cos t1 key st
  = set_paused (set_keys st (set_add key (keys st))) (negb (paused st)) /\
  on_key_down sin cos t2 key (on_key_down sin cos t1 key st)
  = set_keys st (set_add key (keys st)).
Proof.
  intros K. rewrite !on_key_down_dispatch, K. cbn [act]. unfold toggle_pause.
  split; [reflexivity |].
  cbn [keys paused set_keys set_paused].
  rewrite set_add_idempotent, negb_involutive.
  destruct st; reflexivity.
Qed.

(** *** Difficulty follows the score *)

Lemma difficulty_set (st : State) (v : float) :
  difficulty (set_difficulty st v) = v.
Proof. reflexivity. Qed.

(** X11: after every live frame the difficulty is 1 + score / 5000, computed
    from the score the frame started with (the kills of the frame itself
    count from the next frame on); what a preset or a restart had stored in
    [difficulty] is overwritten. *)
Theorem difficulty_follows_score (dt0 : float) (st : State) :
  difficulty (run_frame sin cos dt0 st)
  = (1.0 + fl (score st) / 5000.0)%float.
Proof.
  unfold run_frame. cbv zeta.
  rewrite (raindrops_phase_frame (P := difficulty)) by ignored.
  rewrite (shake_phase_frame (P := difficulty)) by ignored.
  rewrite (particles_phase_frame (P := difficulty)) by ignored.
  rewrite (combo_phase_frame (P := difficulty)) by ignored.
  rewrite (clouds_phase_frame (P := difficulty)) by ignored.
  rewrite (animation_phase_frame sin (P := difficulty)) by ignored.
  rewrite (update_enemies_frame sin cos (P := difficulty)) by ignored.
  rewrite (theme_phase_frame (P := difficulty)) by ignored.
  unfold difficulty_phase. rewrite difficulty_set.
  rewrite (spawn_phase_frame (P := score)) by ignored.
  rewrite (update_bullets_frame (P := score)) by ignored.
  now rewrite (player_physics_frame (P := score)) by ignored.
Qed.

End SessionInvariants3.

Lemma pause_is_a_toggle_witness :
  paused (on_key_down sin_taylor cos_taylor 1000.0%float KEY_P fresh_game)
  = true /\
  paused (on_key_down sin_taylor cos_taylor 1001.0%float KEY_P
            (on_key_down sin_taylor cos_taylor 1000.0%float KEY_P fresh_game))
  = false.
Proof.
  destruct (@pause_is_a_toggle sin_taylor cos_taylor 1000.0%float
              1001.0%float KEY_P fresh_game) as [E1 E2]; [reflexivity |].
  rewrite E2, E1. split; vm_compute; reflexivity.
Defined.

(** ** The bullet loop *)

Lemma list_store_middle (s b : Sprite) (done rest : list Sprite) :
  sid s = sid b ->
  ~ In (sid b) (map sid done) -> ~ In (sid b) (map sid rest) ->
  list_store s (done ++ b :: rest) = done ++ s :: rest.
Proof.
  intros E Hd Hr. unfold list_store. rewrite map_app. cbn [map].
  rewrite E, Nat.eqb_refl. f_equal; [| f_equal].
  - rewrite <- (map_id done) at 2. apply map_ext_in. intros t Ht.
    destruct (Nat.eqb_spec (sid t) (sid b)) as [Et | Et]; [| reflexivity].
    exfalso. apply Hd. rewrite <- Et. now apply in_map.
  - rewrite <- (map_id rest) at 2. apply map_ext_in. intros t Ht.
    destruct (Nat.eqb_spec (sid t) (sid b)) as [Et | Et]; [| reflexivity].
    exfalso. apply Hr. rewrite <- Et. now apply in_map.
Qed.

Lemma sid_move_bullet (dt0 : float) (b : Sprite) :
  sid (move_bullet dt0 b) = sid b.
Proof. unfold move_bullet. cbv zeta. now destruct (is_venom _). Qed.

(** The body of the loop only writes the bullet list. *)
Lemma update_bullet_eq (dt0 : float) (st : State) (b : Sprite) :
  update_bullet dt0 st b = set_bullets st (bullets_after dt0 b (bullets st)).
Proof.
  unfold update_bullet, bullets_after. cbv zeta.
  cbn [bullets set_bullets].
  destruct (is_venom _); repeat (destruct (Py.geb _ _) || destruct (Py.gtb _ _));
    destruct st; reflexivity.
Qed.

(** With distinct objects, the body of the loop replaces the bullet by its
    moved self, or drops it. *)
Lemma bullets_after_middle (dt0 : float) (b : Sprite)
    (done rest : list Sprite) :
  ~ In (sid b) (map sid done) -> ~ In (sid b) (map sid rest) ->
  bullets_after dt0 b (done ++ b :: rest)
  = done ++ (if bullet_gone (move_bullet dt0 b) then []
             else [move_bullet dt0 b]) ++ rest.
Proof.
  intros Hd Hr. unfold bullets_after, bullet_gone, move_bullet. cbv zeta.
  set (b1 := Sprite_update b dt0).
  assert (S1 : sid b1 = sid b) by reflexivity.
  rewrite (list_store_middle b1 b done rest S1 Hd Hr).
  assert (Hd1 : ~ In (sid b1) (map sid done)) by (now rewrite S1).
  assert (Hr1 : ~ In (sid b1) (map sid rest)) by (now rewrite S1).
  destruct (is_venom (bullet_type b1)) eqn:V.
  - set (b2 := set_age b1 _).
    assert (S21 : sid b2 = sid b1) by reflexivity.
    rewrite (list_store_middle b2 b1 done rest S21 Hd1 Hr1).
    assert (Hd2 : ~ In (sid b2) (map sid done)) by (now rewrite S21).
    change (bullet_type b2) with (bullet_type b1). rewrite V. cbn [andb].
    destruct (Py.geb _ _); cbn [orb].
    + now rewrite (list_remove_middle done b2 rest Hd2).
    + destruct (Py.gtb _ _);
        [now rewrite (list_remove_middle done b2 rest Hd2) | reflexivity].
  - rewrite V. cbn [andb orb].
    destruct (Py.gtb _ _);
      [now rewrite (list_remove_middle done b1 rest Hd1) | reflexivity].
Qed.

Lemma update_bullets_loop (dt0 : float) (rest : list Sprite) :
  forall (done : list Sprite) (st st0 : State),
    st = set_bullets st0 (done ++ rest) ->
    NoDup (map sid (done ++ rest)) ->
    fold_left (update_bullet dt0) rest st
    = set_bullets st0
        (done ++ filter (fun b => negb (bullet_gone b))
                   (map (move_bullet dt0) rest)).
Proof.
  induction rest as [| b rest IH]; intros done st st0 E N.
  - cbn [fold_left map filter]. exact E.
  - cbn [fold_left map filter].
    assert (Hd : ~ In (sid b) (map sid done)).
    { rewrite map_app in N. cbn [map] in N. apply NoDup_remove_2 in N.
      rewrite in_app_iff in N. tauto. }
    assert (Hr : ~ In (sid b) (map sid rest)).
    { rewrite map_app in N. cbn [map] in N. apply NoDup_remove_2 in N.
      rewrite in_app_iff in N. tauto. }
    rewrite update_bullet_eq. subst st. cbn [bullets set_bullets].
    rewrite (bullets_after_middle dt0 b done rest Hd Hr).
    destruct (bullet_gone (move_bullet dt0 b)) eqn:G; cbn [negb app].
    + apply (IH done _ st0); [destruct st0; reflexivity |].
      rewrite map_app in *. cbn [map] in N. now apply NoDup_remove_1 in N.
    + rewrite (IH (done ++ [move_bullet dt0 b]) _ st0).
      * now rewrite <- app_assoc.
      * rewrite <- app_assoc. destruct st0; reflexivity.
      * rewrite <- app_assoc. cbn [app].
        rewrite map_app in *. cbn [map] in *. now rewrite sid_move_bullet.
Qed.

(** X12: with distinct bullet objects, removing while iterating over a
    snapshot is the same as moving every bullet and then filtering: the
    bullet loop leaves exactly the moved bullets that are neither expired
    venom nor beyond the right edge, in their order, and writes nothing but
    the bullet list.  In particular no bullet left in flight is beyond the
    right edge, and no venom pellet left has reached its lifetime. *)
Theorem update_bullets_filter (dt0 : float) (st : State) :
  NoDup (map sid (bullets st)) ->
  update_bullets dt0 st
  = set_bullets st (filter (fun b => negb (bullet_gone b))
                      (map (move_bullet dt0) (bullets st))) /\
  forall b, In b (bullets (update_bullets dt0 st)) ->
    Py.gtb (x b) (fl WINDOW_W) = false /\
    (is_venom (bullet_type b) = true ->
     Py.geb (getattr (age b) (fl 0)) (getattr (lifetime b) 3.0%float) = false).
Proof.
  intros N.
  assert (E : update_bullets dt0 st
              = set_bullets st (filter (fun b => negb (bullet_gone b))
                                  (map (move_bullet dt0) (bullets st)))).
  { unfold update_bullets.
    apply (@update_bullets_loop dt0 (bullets st) [] st st);
      [destruct st; reflexivity | exact N]. }
  split; [exact E |].
  rewrite E. cbn [bullets set_bullets]. intros b Hb.
  apply filter_In in Hb as [_ Hb]. apply negb_true_iff in Hb.
  unfold bullet_gone in Hb. apply orb_false_iff in Hb as [H1 H2].
  split; [exact H2 |]. intros V. now rewrite V in H1.
Qed.

(** The three pellets of the snake, one frame on. *)
Lemma update_bullets_filter_witness :
  map sid (bullets (update_bullets 0.05%float snake_first_volley))
  = [2%nat; 3%nat; 4%nat] /\
  forallb (fun b => negb (Py.gtb (x b) (fl WINDOW_W)))
    (bullets (update_bullets 0.05%float snake_first_volley)) = true.
Proof.
  assert (N : NoDup (map sid (bullets snake_first_volley))).
  { vm_compute. repeat constructor; cbn; intuition discriminate. }
  destruct (@update_bullets_filter 0.05%float snake_first_volley N) as [E _].
  rewrite E. split; vm_compute; reflexivity.
Defined.

(** ** Distinct objects *)

Lemma list_remove_sids (i j : nat) (l : list Sprite) :
  In j (map sid (list_remove i l)) -> In j (map sid l).
Proof.
  induction l as [| s l IH]; cbn [list_remove map In]; [tauto |].
  destruct (Nat.eqb (sid s) i); cbn [map In]; tauto.
Qed.

Lemma list_remove_NoDup (i : nat) (l : list Sprite) :
  NoDup (map sid l) -> NoDup (map sid (list_remove i l)).
Proof.
  induction l as [| s l IH]; cbn [list_remove map]; intros N; [exact N |].
  inversion N as [| ? ? Hin N']; subst.
  destruct (Nat.eqb (sid s) i); [exact N' |].
  cbn [map]. constructor; [| now apply IH].
  intros H. apply Hin. now apply list_remove_sids in H.
Qed.

Lemma moved_filtered_sids (f : Sprite -> bool) (g : Sprite -> Sprite)
    (l : list Sprite) (j : nat) :
  (forall b, sid (g b) = sid b) ->
  In j (map sid (filter f (map g l))) -> In j (map sid l).
Proof.
  intros Hg. induction l as [| a l IH]; cbn [map filter In]; [tauto |].
  destruct (f (g a)); cbn [map In]; rewrite ?Hg; tauto.
Qed.

Lemma moved_filtered_NoDup (f : Sprite -> bool) (g : Sprite -> Sprite)
    (l : list Sprite) :
  (forall b, sid (g b) = sid b) ->
  NoDup (map sid l) -> NoDup (map sid (filter f (map g l))).
Proof.
  intros Hg. induction l as [| a l IH]; cbn [map filter]; intros N; [exact N |].
  inversion N as [| ? ? Hin N']; subst.
  destruct (f (g a)); [| now apply IH].
  cbn [map]. constructor; [| now apply IH].
  rewrite Hg. intros H. apply Hin.
  now apply (moved_filtered_sids f g l (sid a) Hg).
Qed.

(** [distinct_objects] looks at the two lists and the next identity only. *)
Lemma distinct_objects_ext (st st' : State) :
  objects st' = objects st -> distinct_objects st -> distinct_objects st'.
Proof.
  unfold objects, distinct_objects. intros E. injection E as -> -> ->. tauto.
Qed.

(** A new object, created with the next identity, joins the bullets. *)
Lemma add_bullet_distinct (st : State) (b : Sprite) :
  sid b = next_id st -> distinct_objects st ->
  distinct_objects
    (set_bullets (set_next_id st (S (next_id st))) (bullets st ++ [b])).
Proof.
  unfold distinct_objects. cbn [bullets enemies next_id set_bullets set_next_id].
  intros E (Nb & Ne & Lb & Le). rewrite map_app. cbn [map]. rewrite E.
  repeat split.
  - apply NoDup_app; [exact Nb | repeat constructor; tauto |].
    intros i Hi [<- | []]. apply Lb in Hi. lia.
  - exact Ne.
  - intros i Hi. apply in_app_iff in Hi as [Hi | [<- | []]];
      [apply Lb in Hi |]; lia.
  - intros i Hi. apply Le in Hi. lia.
Qed.

(** A new object, created with the next identity, joins the enemies. *)
Lemma add_enemy_distinct (st : State) (e : Sprite) :
  sid e = next_id st -> distinct_objects st ->
  distinct_objects
    (set_enemies (set_next_id st (S (next_id st))) (enemies st ++ [e])).
Proof.
  unfold distinct_objects. cbn [bullets enemies next_id set_enemies set_next_id].
  intros E (Nb & Ne & Lb & Le). rewrite map_app. cbn [map]. rewrite E.
  repeat split.
  - exact Nb.
  - apply NoDup_app; [exact Ne | repeat constructor; tauto |].
    intros i Hi [<- | []]. apply Le in Hi. lia.
  - intros i Hi. apply Lb in Hi. lia.
  - intros i Hi. apply in_app_iff in Hi as [Hi | [<- | []]];
      [apply Le in Hi |]; lia.
Qed.

Lemma fold_invariant (A : Type) (I : State -> Prop) (f : State -> A -> State) :
  (forall st a, I st -> I (f st a)) ->
  forall l st, I st -> I (fold_left f l st).
Proof.
  intros H l. induction l as [| a l IH]; intros st Hst; [exact Hst |].
  cbn [fold_left]. apply IH. now apply H.
Qed.

Section DistinctObjects.

Variable sin cos : float -> float.

Ltac same_objects L :=
  eapply distinct_objects_ext; [apply (L objects); ignored |].

Lemma update_bullets_distinct (dt0 : float) (st : State) :
  distinct_objects st -> distinct_objects (update_bullets dt0 st).
Proof.
  intros (Nb & Ne & Lb & Le). unfold update_bullets.
  rewrite (@update_bullets_loop dt0 (bullets st) [] st st
             ltac:(destruct st; reflexivity) Nb).
  unfold distinct_objects. cbn [app bullets enemies next_id set_bullets].
  repeat split; try assumption.
  - apply moved_filtered_NoDup; [apply sid_move_bullet | exact Nb].
  - intros i Hi. apply Lb.
    apply (moved_filtered_sids _ _ _ _ (sid_move_bullet dt0) Hi).
Qed.

Lemma spawn_enemy_objects (st : State) :
  exists e,
    sid e = next_id st /\
    objects (snd (spawn_enemy st))
    = (bullets st, enemies st ++ [e], S (next_id st)).
Proof.
  cbv beta iota zeta delta [spawn_enemy bind random_randint random_uniform
    random_random fresh ret snd fst objects].
  repeat match goal with
         | |- context [if ?c then _ else _] => destruct c
         end;
    eexists; (split; [| reflexivity]); reflexivity.
Qed.

Lemma spawn_phase_distinct (dt0 : float) (st : State) :
  distinct_objects st -> distinct_objects (spawn_phase dt0 st).
Proof.
  intros H. unfold spawn_phase. cbv zeta. destruct (Py.gtb _ _).
  - destruct (spawn_enemy_objects
                (set_spawn_timer (set_spawn_timer st (spawn_timer st + dt0)) 0))
      as (e & Se & O).
    cbn [bullets enemies next_id set_spawn_timer] in Se, O.
    apply (distinct_objects_ext
             (st := set_enemies (set_next_id st (S (next_id st)))
                      (enemies st ++ [e]))); [exact O |].
    now apply add_enemy_distinct.
  - exact H.
Qed.

Lemma hit_bullet_distinct (e b : Sprite) (st : State) :
  distinct_objects st -> distinct_objects (hit_bullet sin cos e st b).
Proof.
  intros (Nb & Ne & Lb & Le). destruct (intersects e b) eqn:H.
  - apply (distinct_objects_ext (st := kill_credit e b st)).
    + apply (hit_bullet_observed sin cos (P := objects)); ignored || exact H.
    + unfold distinct_objects, kill_credit. cbv zeta.
      cbn [bullets enemies next_id set_enemies set_bullets set_combo
           set_combo_timer set_score].
      repeat split.
      * now apply list_remove_NoDup.
      * now apply list_remove_NoDup.
      * intros i Hi. apply Lb. now apply list_remove_sids in Hi.
      * intros i Hi. apply Le. now apply list_remove_sids in Hi.
  - rewrite (hit_bullet_miss sin cos e b st H). repeat split; assumption.
Qed.

Lemma update_enemy_distinct (dt0 : float) (st : State) (e : Sprite) :
  distinct_objects st -> distinct_objects (update_enemy sin cos dt0 st e).
Proof.
  intros (Nb & Ne & Lb & Le). unfold update_enemy, play_sound, trigger_shake.
  cbv zeta. set (e' := move_enemy sin dt0 e).
  set (st1 := set_enemies st (list_store e' (enemies st))).
  assert (H1 : distinct_objects st1).
  { unfold distinct_objects, st1. cbn [bullets enemies next_id set_enemies].
    rewrite list_store_sids. repeat split; assumption. }
  destruct (_ <? _)%float.
  - destruct H1 as (Nb1 & Ne1 & Lb1 & Le1). unfold distinct_objects.
    cbn [bullets enemies next_id set_enemies]. repeat split; try assumption.
    + now apply list_remove_NoDup.
    + intros i Hi. apply Le1. now apply list_remove_sids in Hi.
  - apply fold_invariant; [intros; now apply hit_bullet_distinct |].
    destruct (intersects e' (get_player st1)); [| exact H1].
    eapply distinct_objects_ext; [| exact H1]. reflexivity.
Qed.

Lemma run_frame_distinct (dt0 : float) (st : State) :
  distinct_objects st -> distinct_objects (run_frame sin cos dt0 st).
Proof.
  intros H. unfold run_frame. cbv zeta.
  eapply distinct_objects_ext;
    [apply (raindrops_phase_frame (P := objects)); ignored |].
  eapply distinct_objects_ext;
    [apply (shake_phase_frame (P := objects)); ignored |].
  eapply distinct_objects_ext;
    [apply (particles_phase_frame (P := objects)); ignored |].
  eapply distinct_objects_ext;
    [apply (combo_phase_frame (P := objects)); ignored |].
  eapply distinct_objects_ext;
    [apply (clouds_phase_frame (P := objects)); ignored |].
  eapply distinct_objects_ext;
    [apply (animation_phase_frame sin (P := objects)); ignored |].
  unfold update_enemies.
  apply fold_invariant; [intros; now apply update_enemy_distinct |].
  eapply distinct_objects_ext;
    [apply (theme_phase_frame (P := objects)); ignored |].
  eapply distinct_objects_ext;
    [apply (difficulty_phase_frame (P := objects)); ignored |].
  apply spawn_phase_distinct. apply update_bullets_distinct.
  eapply distinct_objects_ext;
    [apply (player_physics_frame (P := objects)); ignored | exact H].
Qed.

Lemma reset_lists (st : State) :
  bullets (reset st) = [] /\ enemies (reset st) = [] /\
  next_id (reset st) = next_id st.
Proof.
  unfold reset, save_high_score. cbv zeta.
  cbn [score high_score fs_writable set_bullets set_enemies set_particles
       set_high_score].
  destruct (_ >? _); [destruct (fs_writable st) |]; repeat split.
Qed.

Lemma act_distinct (now : float) (a : KeyAction) (st : State) :
  distinct_objects st -> distinct_objects (act sin cos now a st).
Proof.
  intros H. destruct a; cbn [act]; try exact H.
  - unfold flap. eapply distinct_objects_ext;
      [apply (put_player_frame (P := objects)); ignored | exact H].
  - destruct (reset_lists st) as (B & E & N). destruct H as (_ & _ & _ & _).
    unfold distinct_objects. rewrite B, E. cbn [map].
    split; [constructor | split; [constructor | split; intros i []]].
  - unfold try_shoot.
    destruct (_ <? _)%float; [exact H |]. destruct (_ >=? _); [exact H |].
    apply (distinct_objects_ext (st := shoot sin cos st)); [reflexivity |].
    unfold shoot, play_sound. destruct (current_character st).
    + unfold shoot_bird, fresh. cbv zeta.
      cbn [bullets set_next_id]. now apply add_bullet_distinct.
    + unfold shoot_snake. apply fold_invariant; [| exact H].
      intros s a Hs. unfold shoot_snake_pellet, fresh. cbv zeta.
      cbn [bullets set_next_id]. now apply add_bullet_distinct.
  - eapply distinct_objects_ext;
      [apply (toggle_character_frame (P := objects)); ignored | exact H].
  - unfold try_special_attack.
    destruct (_ <? _)%float; [exact H |].
    apply (distinct_objects_ext
             (st := match current_character st with
                    | Bird => special_bird_attack sin cos st
                    | Snake => special_snake_attack sin cos st
                    end)); [reflexivity |].
    destruct (current_character st).
    + unfold special_bird_attack. apply fold_invariant; [| exact H].
      intros s a Hs. unfold special_bird_bullet, fresh. cbv zeta.
      cbn [bullets set_next_id]. now apply add_bullet_distinct.
    + unfold special_snake_attack. apply fold_invariant; [| exact H].
      intros s a Hs. unfold special_snake_pellet, fresh. cbv zeta.
      cbn [bullets set_next_id]. now apply add_bullet_distinct.
Qed.

Lemma deliver_distinct (ev : Event) (st : State) :
  distinct_objects st -> distinct_objects (deliver sin cos st ev).
Proof.
  intros H. destruct ev as [now | now key | key]; cbn [deliver].
  - unfold on_timer. cbv zeta. destruct (negb _ || _).
    + eapply distinct_objects_ext; [| exact H]; reflexivity.
    + apply run_frame_distinct.
      eapply distinct_objects_ext; [| exact H]; reflexivity.
  - rewrite on_key_down_dispatch. apply act_distinct.
    eapply distinct_objects_ext; [| exact H]; reflexivity.
  - eapply distinct_objects_ext; [| exact H]; reflexivity.
Qed.

(** X13: no object is in a list twice.  In every session that starts from
    a new panel, after any sequence of timer ticks and key events, the
    bullet list holds no object twice and neither does the enemy list (every
    object in them was created before the next one to be created): so
    [remove] always removes the one object meant. *)
Theorem objects_are_distinct (now : float) (assets : Assets)
    (tape : nat -> float) (file : option string) (writable : bool)
    (evs : list Event) :
  distinct_objects
    (run sin cos evs (GamePanel_init now assets tape file writable)).
Proof.
  apply (run_invariant sin cos distinct_objects deliver_distinct).
  destruct (init_fields now assets tape file writable)
    as (_ & _ & _ & B & E & N & _).
  unfold distinct_objects. rewrite B, E. cbn [map].
  split; [constructor | split; [constructor | split; intros i []]].
Qed.

End DistinctObjects.

(** ** The high score and its file *)

Module HighScoreText.

Import PyStr.

Ltac digit_step :=
  cbn [NilEmpty.string_of_uint digits];
  match goal with
  | |- context [is_digit ?c] => change (is_digit c) with true; cbv iota
  end.

(** Reading the digits of a decimal number, most significant first, with a
    value already read. *)
Lemma digits_acc (d : Decimal.uint) :
  forall p : positive,
    digits (Z.pos p) true (NilEmpty.string_of_uint d)
    = Some (Z.pos (Pos.of_uint_acc d p)).
Proof.
  induction d as [| d IH | d IH | d IH | d IH | d IH | d IH | d IH | d IH
                  | d IH | d IH]; intros p;
    [reflexivity | ..]; digit_step; cbn [Pos.of_uint_acc];
    rewrite <- IH; f_equal; unfold digit_val;
    match goal with
    | |- context [Z.of_nat (nat_of_ascii ?c)] =>
        let v := eval vm_compute in (Z.of_nat (nat_of_ascii c)) in
        change (Z.of_nat (nat_of_ascii c)) with v
    end; lia.
Qed.

Lemma digits_zero (d : Decimal.uint) :
  forall prev : bool,
    d <> Decimal.Nil \/ prev = true ->
    digits 0 prev (NilEmpty.string_of_uint d)
    = Some (Z.of_N (Pos.of_uint d)).
Proof.
  induction d as [| d IH | d IH | d IH | d IH | d IH | d IH | d IH | d IH
                  | d IH | d IH]; intros prev H.
  - destruct H as [H | ->]; [now destruct H | reflexivity].
  - digit_step. cbn [Pos.of_uint]. apply (IH true). now right.
  - digit_step. apply (digits_acc d 1).
  - digit_step. apply (digits_acc d 2).
  - digit_step. apply (digits_acc d 3).
  - digit_step. apply (digits_acc d 4).
  - digit_step. apply (digits_acc d 5).
  - digit_step. apply (digits_acc d 6).
  - digit_step. apply (digits_acc d 7).
  - digit_step. apply (digits_acc d 8).
  - digit_step. apply (digits_acc d 9).
Qed.

Lemma digits_to_uint (p : positive) :
  digits 0 false (NilEmpty.string_of_uint (Pos.to_uint p)) = Some (Z.pos p).
Proof.
  rewrite digits_zero by (left; apply DecimalPos.Unsigned.to_uint_nonnil).
  now rewrite DecimalPos.Unsigned.of_to.
Qed.

Lemma rstrip_uint (d : Decimal.uint) :
  rstrip (NilEmpty.string_of_uint d) = NilEmpty.string_of_uint d.
Proof.
  induction d as [| d IH | d IH | d IH | d IH | d IH | d IH | d IH | d IH
                  | d IH | d IH]; [reflexivity | ..];
    cbn [NilEmpty.string_of_uint rstrip]; rewrite IH;
    now destruct (NilEmpty.string_of_uint d).
Qed.

(** [str] of an int has no white space to strip. *)
Lemma strip_str (z : Z) : strip (str z) = str z.
Proof.
  unfold str, strip. destruct z as [| p | p]; [reflexivity | |];
    cbn [Z.to_int NilZero.string_of_int]; unfold NilZero.string_of_uint.
  - pose proof (DecimalPos.Unsigned.to_uint_nonnil p) as N.
    destruct (Pos.to_uint p) eqn:E; [now destruct N | ..];
      rewrite <- E;
      (rewrite PyStrFacts.lstrip_fixed by (rewrite E; reflexivity));
      apply rstrip_uint.
  - pose proof (DecimalPos.Unsigned.to_uint_nonnil p) as N.
    destruct (Pos.to_uint p) eqn:E; [now destruct N | ..];
      rewrite <- E; cbn [lstrip]; change (is_space "-") with false; cbv iota;
      cbn [rstrip]; rewrite rstrip_uint; rewrite E; reflexivity.
Qed.

(** [int(str(z))] is [z], for every int, negative ones included. *)
Lemma int_str (z : Z) : int (str z) = Some z.
Proof.
  unfold int. rewrite strip_str. unfold str.
  destruct z as [| p | p]; [reflexivity | |];
    cbn [Z.to_int NilZero.string_of_int]; unfold NilZero.string_of_uint;
    pose proof (DecimalPos.Unsigned.to_uint_nonnil p) as N;
    pose proof (digits_to_uint p) as D.
  - destruct (Pos.to_uint p) eqn:E; [now destruct N | ..]; exact D.
  - destruct (Pos.to_uint p) eqn:E; [now destruct N | ..];
      rewrite <- E in *; cbv iota; rewrite D; reflexivity.
Qed.

End HighScoreText.

(** What [save_high_score] writes, [load_high_score] reads back. *)
Lemma load_saved (z : Z) : load_high_score_from (Some (PyStr.str z)) = z.
Proof.
  unfold load_high_score_from.
  now rewrite PyStrFacts.int_strip, HighScoreText.int_str.
Qed.

Lemma reset_high_score_view (st : State) :
  high_score_view (reset st)
  = (Z.max (high_score st) (score st),
     if (score st >? high_score st) && fs_writable st
     then Some (PyStr.str (score st)) else highscore_txt st,
     fs_writable st).
Proof.
  unfold high_score_view, reset, save_high_score. cbv zeta.
  cbn [bullets enemies particles score high_score highscore_txt fs_writable
       set_bullets set_enemies set_particles set_high_score].
  destruct (Z.gtb_spec (score st) (high_score st)) as [G | G];
    [destruct (fs_writable st) eqn:W |]; cbn; rewrite ?W;
    (rewrite Z.max_r by lia) || (rewrite Z.max_l by lia); reflexivity.
Qed.

(** The high score of a new panel is the one loaded from the file. *)
Lemma init_high_score (now : float) (assets : Assets) (tape : nat -> float)
    (file : option string) (writable : bool) :
  let st := GamePanel_init now assets tape file writable in
  high_score st = load_high_score_from file /\ highscore_txt st = file /\
  fs_writable st = writable.
Proof.
  cbv zeta. unfold GamePanel_init. cbv zeta.
  set (base := mkState _ _ _ _ _ _ _ _ _ _ _ _ _ _ _ _ _ _ _ _ _ _ _ _ _ _ _ _
                 _ _ _ _ _ _ _ _ _ _ _ _ _ _ _ _ _ _ _ _ _ _).
  set (c1 := new_cloud 80 180 30 60 30 (WINDOW_H / 2) (-10) (-40) 140 255).
  set (c2 := new_cloud 150 280 50 100 10 (WINDOW_H / 3) (-2) (-10) 80 140).
  pose proof (@repeat_m_frame _ high_score_view _ c1 6
                (fun s => @new_cloud_frame _ high_score_view _ _ _ _ _ _ _ _
                            _ _ s ltac:(ignored)) base) as E1.
  destruct (repeat_m 6 c1 base) as [cs s1]. cbn [snd] in E1.
  pose proof (@repeat_m_frame _ high_score_view _ c2 3
                (fun s => @new_cloud_frame _ high_score_view _ _ _ _ _ _ _ _
                            _ _ s ltac:(ignored)) (set_clouds s1 cs)) as E2.
  destruct (repeat_m 3 c2 (set_clouds s1 cs)) as [bs s2]. cbn [snd] in E2.
  assert (E : high_score_view (set_bg_clouds s2 bs) = high_score_view base).
  { transitivity (high_score_view s2); [reflexivity |]. rewrite E2.
    transitivity (high_score_view s1); [reflexivity | exact E1]. }
  unfold high_score_view in E. injection E as F1 F2 F3.
  cbn [high_score highscore_txt fs_writable set_bg_clouds].
  repeat split; assumption.
Qed.

Lemma reset_high_score (st : State) :
  high_score (reset st) = Z.max (high_score st) (score st).
Proof. exact (f_equal (fun v => fst (fst v)) (reset_high_score_view st)). Qed.

Lemma reset_highscore_txt (st : State) :
  highscore_txt (reset st)
  = if (score st >? high_score st) && fs_writable st
    then Some (PyStr.str (score st)) else highscore_txt st.
Proof. exact (f_equal (fun v => snd (fst v)) (reset_high_score_view st)). Qed.

Lemma reset_fs_writable (st : State) : fs_writable (reset st) = fs_writable st.
Proof. exact (f_equal snd (reset_high_score_view st)). Qed.

Lemma high_score_view_eq (st st' : State) :
  high_score_view st' = high_score_view st ->
  high_score st' = high_score st /\ highscore_txt st' = highscore_txt st /\
  fs_writable st' = fs_writable st.
Proof. unfold high_score_view. intros [= -> -> ->]. repeat split. Qed.

Section HighScore.

Variable sin cos : float -> float.

Lemma act_high_score_view (now : float) (a : KeyAction) (st : State) :
  high_score_view (act sin cos now a st)
  = match a with
    | AReset => high_score_view (reset st)
    | _ => high_score_view st
    end.
Proof.
  destruct a; cbn [act]; try reflexivity.
  - unfold flap.
    now rewrite (put_player_frame (P := high_score_view)) by ignored.
  - now rewrite (try_shoot_frame sin cos (P := high_score_view)) by ignored.
  - now rewrite (toggle_character_frame (P := high_score_view)) by ignored.
  - now rewrite (try_special_attack_frame sin cos (P := high_score_view))
      by ignored.
Qed.

(** An event leaves the three attributes alone, or is a restart. *)
Lemma deliver_high_score_view (ev : Event) (st : State) :
  high_score_view (deliver sin cos st ev) = high_score_view st \/
  exists st0, high_score_view st0 = high_score_view st /\
              high_score_view (deliver sin cos st ev)
              = high_score_view (reset st0).
Proof.
  destruct ev as [now | now key | key]; cbn [deliver].
  - left.
    now rewrite (on_timer_observed sin cos (P := high_score_view)) by ignored.
  - rewrite on_key_down_dispatch, act_high_score_view.
    destruct (key_action key); try (left; reflexivity).
    right. eexists. split; [| reflexivity]. reflexivity.
  - left. reflexivity.
Qed.

Lemma view_on_file (file : option string) (writable : bool)
    (st st' : State) :
  high_score_view st' = high_score_view st ->
  high_score_on_file file writable st -> high_score_on_file file writable st'.
Proof.
  intros E. apply high_score_view_eq in E as (E1 & E2 & E3).
  unfold high_score_on_file, load_high_score. now rewrite E1, E2, E3.
Qed.

Lemma reset_on_file (file : option string) (writable : bool) (st : State) :
  high_score_on_file file writable st ->
  high_score_on_file file writable (reset st).
Proof.
  unfold high_score_on_file, load_high_score.
  rewrite reset_high_score, reset_highscore_txt, reset_fs_writable.
  intros [W H]. split; [exact W |]. rewrite W.
  destruct (Z.gtb_spec (score st) (high_score st)) as [G | G]; cbn [andb].
  - destruct writable.
    + rewrite load_saved. lia.
    + exact H.
  - destruct writable; [rewrite H; lia | exact H].
Qed.

Lemma deliver_on_file (file : option string) (writable : bool) (ev : Event)
    (st : State) :
  high_score_on_file file writable st ->
  high_score_on_file file writable (deliver sin cos st ev).
Proof.
  intros H. destruct (deliver_high_score_view ev st) as [E | (st0 & E0 & E)].
  - exact (view_on_file E H).
  - apply (view_on_file E). apply reset_on_file. exact (view_on_file E0 H).
Qed.

(** X14: the high score survives the session.  What [save_high_score]
    writes, [load_high_score] reads back as the same int, whatever the int;
    and in every session that starts from a new panel, after any sequence
    of timer ticks and key events, a writable [highscore.txt] holds a text
    that loads as the high score of the session, while a file that cannot
    be written still holds what it held at the start. *)
Theorem high_score_is_on_file (now : float) (assets : Assets)
    (tape : nat -> float) (file : option string) (writable : bool)
    (evs : list Event) :
  (forall z : Z, load_high_score_from (Some (PyStr.str z)) = z) /\
  let st := run sin cos evs (GamePanel_init now assets tape file writable) in
  if writable then load_high_score st = high_score st
  else highscore_txt st = file.
Proof.
  split; [exact load_saved |]. cbv zeta.
  assert (I : high_score_on_file file writable
                (run sin cos evs
                   (GamePanel_init now assets tape file writable))).
  { apply (run_invariant sin cos (high_score_on_file file writable)
             (deliver_on_file (file := file) (writable := writable))).
    destruct (init_high_score now assets tape file writable) as (H & F & W).
    unfold high_score_on_file, load_high_score. rewrite H, F, W.
    split; [reflexivity |]. destruct writable; reflexivity. }
  destruct I as [_ I]. exact I.
Qed.

Lemma deliver_high_score_le (ev : Event) (st : State) :
  high_score st <= high_score (deliver sin cos st ev).
Proof.
  destruct (deliver_high_score_view ev st) as [E | (st0 & E0 & E)].
  - apply high_score_view_eq in E as (-> & _). lia.
  - apply high_score_view_eq in E as (-> & _).
    apply high_score_view_eq in E0 as (E0 & _).
    rewrite reset_high_score, E0. lia.
Qed.

(** X15: the high score never decreases.  Over any sequence of timer ticks
    and key events it only grows, and a restart raises it to the score of
    the session that ends whenever that score is higher. *)
Theorem high_score_never_decreases (evs : list Event) (st : State) :
  high_score st <= high_score (run sin cos evs st) /\
  high_score (reset st) = Z.max (high_score st) (score st).
Proof.
  split.
  - revert st. unfold run.
    induction evs as [| ev evs IH]; intros st; cbn [fold_left]; [lia |].
    pose proof (deliver_high_score_le ev st). specialize (IH (deliver sin cos st ev)).
    lia.
  - apply reset_high_score.
Qed.

End HighScore.
